(** * Camera capture / display pipeline: a shallow embedding

    The development follows the two C translation units of the repository,
    [v4l2_mpp_camera.c] (capture, decode, colour conversion, frame exchange)
    and [gst_video_player.c] (display pipeline, overlay, detection store).

    Conventions.
    - A C [int] is a [Z]; where the source stores into a narrower type the
      truncation is written out ([u8]).  C's [/] is [Z.quot] (truncation
      towards zero) and [>>] on [int] is the arithmetic shift [Z.shiftr].
    - A [uint8_t*] is the list of bytes found from the pointer onwards, so
      that [p + n] is [drop n p]; a buffer that is written is a list updated
      in place.  C gives no meaning to an access outside a buffer: here a
      read outside yields 0 and a write outside is dropped, and the
      theorems state the buffer sizes they rely on.
    - Calls into the kernel, the decoder library and the media framework
      are answered by an explicit record of outcomes that the function
      receives as an argument. *)

From stdpp Require Import base list numbers.
From Stdlib Require Import ZArith Lia Bool.
From Stdlib Require String PrimFloat Uint63.
Import String.StringSyntax.
Delimit Scope string_scope with string.

Open Scope Z_scope.

(** ** Colour conversion ([v4l2_mpp_camera.c], CPU path) *)

Module Convert.

(** [p[off]] for a [uint8_t* p]. *)
Definition rd (p : list Z) (off : Z) : Z := default 0 (p !! Z.to_nat off).

(** Conversion of an [int] to [uint8_t] on a store. *)
Definition u8 (x : Z) : Z := x mod 256.

(** [p[off] = v] for a [uint8_t* p] and an [int] value [v]. *)
Definition wr (p : list Z) (off : Z) (v : Z) : list Z :=
  <[Z.to_nat off := u8 v]> p.

(** [x < 0 ? 0 : (x > 255 ? 255 : x)] *)
Definition clamp255 (x : Z) : Z :=
  if x <? 0 then 0 else if 255 <? x then 255 else x.

(** Body of the inner loop shared by [nv12_to_bgra_scalar] and
    [nv16_to_bgra]: one pixel of row [bgra_row], column [j]. *)
Definition convert_pixel (y_row uv_row : list Z) (bgra_row : Z) (j : Z)
    (dst : list Z) : list Z :=
  let y := rd y_row j in
  let u := rd uv_row ((j ÷ 2) * 2) - 128 in
  let v := rd uv_row ((j ÷ 2) * 2 + 1) - 128 in
  let r := y + ((v * 359) ≫ 8) in
  let g := y - ((u * 88 + v * 183) ≫ 8) in
  let b := y + ((u * 454) ≫ 8) in
  let r := clamp255 r in
  let g := clamp255 g in
  let b := clamp255 b in
  let dst := wr dst (bgra_row + (j * 4 + 0)) b in
  let dst := wr dst (bgra_row + (j * 4 + 1)) g in
  let dst := wr dst (bgra_row + (j * 4 + 2)) r in
  wr dst (bgra_row + (j * 4 + 3)) 255.

(** [for (; j < width; j++)] with [n] iterations left. *)
Fixpoint pixel_loop (n : nat) (j : Z) (y_row uv_row : list Z) (bgra_row : Z)
    (dst : list Z) : list Z :=
  match n with
  | O => dst
  | S n' =>
      pixel_loop n' (j + 1) y_row uv_row bgra_row
        (convert_pixel y_row uv_row bgra_row j dst)
  end.

(** Row loop of [nv12_to_bgra_scalar]: chroma row [i / 2]. *)
Fixpoint nv12_rows (n : nat) (i : Z) (y_plane uv_plane : list Z)
    (width y_stride uv_stride : Z) (dst : list Z) : list Z :=
  match n with
  | O => dst
  | S n' =>
      let y_row := drop (Z.to_nat (i * y_stride)) y_plane in
      let uv_row := drop (Z.to_nat ((i ÷ 2) * uv_stride)) uv_plane in
      let bgra_row := i * width * 4 in
      nv12_rows n' (i + 1) y_plane uv_plane width y_stride uv_stride
        (pixel_loop (Z.to_nat width) 0 y_row uv_row bgra_row dst)
  end.

Definition nv12_to_bgra_scalar (y_plane uv_plane bgra_data : list Z)
    (width height y_stride uv_stride : Z) : list Z :=
  nv12_rows (Z.to_nat height) 0 y_plane uv_plane width y_stride uv_stride
    bgra_data.

(** Row loop of [nv16_to_bgra]: chroma row [i]. *)
Fixpoint nv16_rows (n : nat) (i : Z) (y_plane uv_plane : list Z)
    (width y_stride uv_stride : Z) (dst : list Z) : list Z :=
  match n with
  | O => dst
  | S n' =>
      let y_row := drop (Z.to_nat (i * y_stride)) y_plane in
      let uv_row := drop (Z.to_nat (i * uv_stride)) uv_plane in
      let bgra_row := i * width * 4 in
      nv16_rows n' (i + 1) y_plane uv_plane width y_stride uv_stride
        (pixel_loop (Z.to_nat width) 0 y_row uv_row bgra_row dst)
  end.

Definition nv16_to_bgra (y_plane uv_plane bgra_data : list Z)
    (width height y_stride uv_stride : Z) : list Z :=
  nv16_rows (Z.to_nat height) 0 y_plane uv_plane width y_stride uv_stride
    bgra_data.

(** [format & MPP_FRAME_FMT_MASK], as far as the converter tells the
    values apart. *)
Inductive MppFrameFormat : Type :=
  | MPP_FMT_YUV420SP      (* NV12 *)
  | MPP_FMT_YUV420SP_VU   (* NV21 *)
  | MPP_FMT_YUV422SP      (* NV16 *)
  | MPP_FMT_YUV422SP_VU   (* NV61 *)
  | MPP_FMT_OTHER (code : Z).

(** [yuv_to_bgra_cpu], as built without [USE_NEON]. *)
Definition yuv_to_bgra_cpu (yuv_data bgra_data : list Z)
    (width height hor_stride ver_stride : Z) (format : MppFrameFormat)
    : list Z :=
  let y_plane := yuv_data in
  let uv_plane := drop (Z.to_nat (hor_stride * ver_stride)) yuv_data in
  match format with
  | MPP_FMT_YUV420SP | MPP_FMT_YUV420SP_VU =>
      nv12_to_bgra_scalar y_plane uv_plane bgra_data width height
        hor_stride hor_stride
  | MPP_FMT_YUV422SP | MPP_FMT_YUV422SP_VU =>
      nv16_to_bgra y_plane uv_plane bgra_data width height
        hor_stride hor_stride
  | MPP_FMT_OTHER _ =>
      nv12_to_bgra_scalar y_plane uv_plane bgra_data width height
        hor_stride hor_stride
  end.

(** Saturation to [0,255] as the specification words it: the value of
    the range nearest to [x].  It is defined by [Z.max] and [Z.min], apart
    from the conditional [clamp255] of the code. *)
Definition saturate (x : Z) : Z := Z.max 0 (Z.min 255 x).

(** The conversion formulas as the specification words them. *)
Definition spec_R (Y V : Z) : Z := saturate (Y + (((V - 128) * 359) ≫ 8)).
Definition spec_G (Y U V : Z) : Z :=
  saturate (Y - (((U - 128) * 88 + (V - 128) * 183) ≫ 8)).
Definition spec_B (Y U : Z) : Z := saturate (Y + (((U - 128) * 454) ≫ 8)).

(** The chroma addressing as the specification words it: the Cr-first
    formats (NV21, NV61) carry Cr at chroma column [(j/2)*2] and Cb at
    the next one, the Cb-first formats the other way round. *)
Definition cr_first (format : MppFrameFormat) : bool :=
  match format with
  | MPP_FMT_YUV420SP_VU | MPP_FMT_YUV422SP_VU => true
  | _ => false
  end.

Definition spec_cb_column (format : MppFrameFormat) (j : Z) : Z :=
  if cr_first format then (j ÷ 2) * 2 + 1 else (j ÷ 2) * 2.

Definition spec_cr_column (format : MppFrameFormat) (j : Z) : Z :=
  if cr_first format then (j ÷ 2) * 2 else (j ÷ 2) * 2 + 1.

(** The pixel a converter with that addressing stores, given the luma
    byte and the chroma row of the pixel. *)
Definition spec_pixel (format : MppFrameFormat) (Y : Z) (uv_row : list Z)
    (j : Z) : list Z :=
  let U := rd uv_row (spec_cb_column format j) in
  let V := rd uv_row (spec_cr_column format j) in
  [spec_B Y U; spec_G Y U V; spec_R Y V; 255].

(** A 2x2 NV21 frame of one saturated red: luma 128 everywhere, one chroma
    pair with Cr = 255 first and Cb = 128 second. *)
Definition red_nv21_frame : list Z := [128; 128; 128; 128; 255; 128].

(** A 2x2 luma plane and chroma plane with distinct bytes, and a 2x2 BGRA
    destination. *)
Definition sample_y_plane : list Z := [16; 81; 145; 235].
Definition sample_uv_plane : list Z := [90; 240; 54; 34].
Definition blank_bgra_2x2 : list Z := replicate 16 0.

End Convert.

(** ** Facts about the colour conversion *)

Module ConvertFacts.
Import Convert.

(** Read of the byte at a [Z] offset of a buffer, as an option. *)
Definition at_off (p : list Z) (off : Z) : option Z := p !! Z.to_nat off.

(** The four bytes [convert_pixel] stores for column [j]. *)
Definition pixel_out (y_row uv_row : list Z) (j : Z) : list Z :=
  let y := rd y_row j in
  let u := rd uv_row ((j ÷ 2) * 2) in
  let v := rd uv_row ((j ÷ 2) * 2 + 1) in
  [spec_B y u; spec_G y u v; spec_R y v; 255].

(** Row loop with the chroma row left open; both converters are instances. *)
Fixpoint rows_gen (crow : Z -> Z) (n : nat) (i : Z) (y_plane uv_plane : list Z)
    (width y_stride uv_stride : Z) (dst : list Z) : list Z :=
  match n with
  | O => dst
  | S n' =>
      rows_gen crow n' (i + 1) y_plane uv_plane width y_stride uv_stride
        (pixel_loop (Z.to_nat width) 0
           (drop (Z.to_nat (i * y_stride)) y_plane)
           (drop (Z.to_nat (crow i * uv_stride)) uv_plane)
           (i * width * 4) dst)
  end.

Lemma nv12_rows_gen n : forall i yp uvp w ys uvs dst,
  nv12_rows n i yp uvp w ys uvs dst = rows_gen (fun i => i ÷ 2) n i yp uvp w ys uvs dst.
Proof. induction n as [|n IH]; intros; simpl; [reflexivity | apply IH]. Qed.

Lemma nv16_rows_gen n : forall i yp uvp w ys uvs dst,
  nv16_rows n i yp uvp w ys uvs dst = rows_gen (fun i => i) n i yp uvp w ys uvs dst.
Proof. induction n as [|n IH]; intros; simpl; [reflexivity | apply IH]. Qed.

Lemma clamp255_range x : 0 <= clamp255 x <= 255.
Proof.
  unfold clamp255. destruct (Z.ltb_spec x 0); [lia|].
  destruct (Z.ltb_spec 255 x); lia.
Qed.

Lemma u8_clamp255 x : u8 (clamp255 x) = clamp255 x.
Proof. unfold u8. apply Z.mod_small. pose proof (clamp255_range x). lia. Qed.

(** The conditional of the code computes the saturation of the
    specification. *)
Lemma clamp255_saturate x : clamp255 x = saturate x.
Proof.
  unfold clamp255, saturate. destruct (Z.ltb_spec x 0); [lia|].
  destruct (Z.ltb_spec 255 x); lia.
Qed.

Lemma saturate_spec x :
  (0 <= saturate x <= 255) /\
  (x < 0 -> saturate x = 0) /\ (255 < x -> saturate x = 255) /\
  (0 <= x <= 255 -> saturate x = x).
Proof. unfold saturate. lia. Qed.

Lemma wr_length p off v : length (wr p off v) = length p.
Proof. unfold wr. apply length_insert. Qed.

Lemma at_off_wr_eq p off v :
  0 <= off < Z.of_nat (length p) -> at_off (wr p off v) off = Some (u8 v).
Proof.
  intros H. unfold at_off, wr. apply list_lookup_insert_eq. lia.
Qed.

Lemma at_off_wr_ne p off off' v :
  0 <= off -> 0 <= off' -> off <> off' -> at_off (wr p off v) off' = at_off p off'.
Proof.
  intros H1 H2 H3. unfold at_off, wr. apply list_lookup_insert_ne. lia.
Qed.

Lemma convert_pixel_length yr uvr base j dst :
  length (convert_pixel yr uvr base j dst) = length dst.
Proof. unfold convert_pixel. rewrite !wr_length. reflexivity. Qed.

Lemma convert_pixel_other yr uvr base j dst off :
  0 <= base -> 0 <= j -> 0 <= off ->
  off < base + j * 4 \/ base + j * 4 + 4 <= off ->
  at_off (convert_pixel yr uvr base j dst) off = at_off dst off.
Proof.
  intros Hb Hj Ho Hout. unfold convert_pixel.
  rewrite !at_off_wr_ne by lia. reflexivity.
Qed.

Lemma convert_pixel_here yr uvr base j dst k :
  0 <= base -> 0 <= j -> 0 <= k < 4 ->
  base + j * 4 + 4 <= Z.of_nat (length dst) ->
  at_off (convert_pixel yr uvr base j dst) (base + j * 4 + k)
  = pixel_out yr uvr j !! Z.to_nat k.
Proof.
  intros Hb Hj Hk Hlen. unfold convert_pixel, pixel_out, spec_B, spec_G, spec_R.
  assert (k = 0 \/ k = 1 \/ k = 2 \/ k = 3) as [->|[->|[->| ->]]] by lia.
  - rewrite !at_off_wr_ne by lia.
    replace (base + j * 4 + 0) with (base + (j * 4 + 0)) by lia.
    rewrite at_off_wr_eq by lia. rewrite u8_clamp255, clamp255_saturate.
    reflexivity.
  - rewrite !at_off_wr_ne by lia.
    replace (base + j * 4 + 1) with (base + (j * 4 + 1)) by lia.
    rewrite at_off_wr_eq by (rewrite ?wr_length; lia).
    rewrite u8_clamp255, clamp255_saturate. reflexivity.
  - rewrite !at_off_wr_ne by lia.
    replace (base + j * 4 + 2) with (base + (j * 4 + 2)) by lia.
    rewrite at_off_wr_eq by (rewrite ?wr_length; lia).
    rewrite u8_clamp255, clamp255_saturate. reflexivity.
  - replace (base + j * 4 + 3) with (base + (j * 4 + 3)) by lia.
    rewrite at_off_wr_eq by (rewrite ?wr_length; lia). reflexivity.
Qed.

Lemma pixel_loop_length n : forall j yr uvr base dst,
  length (pixel_loop n j yr uvr base dst) = length dst.
Proof.
  induction n as [|n IH]; intros; simpl; [reflexivity|].
  rewrite IH. apply convert_pixel_length.
Qed.

Lemma pixel_loop_other n : forall j yr uvr base dst off,
  0 <= base -> 0 <= j -> 0 <= off ->
  off < base + j * 4 \/ base + (j + Z.of_nat n) * 4 <= off ->
  at_off (pixel_loop n j yr uvr base dst) off = at_off dst off.
Proof.
  induction n as [|n IH]; intros j yr uvr base dst off Hb Hj Ho Hout; simpl.
  - reflexivity.
  - rewrite IH by lia. apply convert_pixel_other; lia.
Qed.

Lemma pixel_loop_here n : forall j0 yr uvr base dst j k,
  0 <= base -> 0 <= j0 -> j0 <= j < j0 + Z.of_nat n -> 0 <= k < 4 ->
  base + (j0 + Z.of_nat n) * 4 <= Z.of_nat (length dst) ->
  at_off (pixel_loop n j0 yr uvr base dst) (base + j * 4 + k)
  = pixel_out yr uvr j !! Z.to_nat k.
Proof.
  induction n as [|n IH]; intros j0 yr uvr base dst j k Hb Hj0 Hj Hk Hlen; simpl.
  - lia.
  - destruct (Z.eq_dec j j0) as [->|Hne].
    + rewrite pixel_loop_other by lia.
      apply convert_pixel_here; lia.
    + apply IH; try lia. rewrite convert_pixel_length. lia.
Qed.

Section Rows.
Variable crow : Z -> Z.
Variables (yp uvp : list Z) (w ys uvs : Z).
Hypothesis Hw : 0 <= w.

Lemma rows_gen_length n : forall i dst,
  length (rows_gen crow n i yp uvp w ys uvs dst) = length dst.
Proof.
  induction n as [|n IH]; intros; simpl; [reflexivity|].
  rewrite IH. apply pixel_loop_length.
Qed.

Lemma rows_gen_other n : forall i dst off,
  0 <= i -> 0 <= off ->
  off < i * w * 4 \/ (i + Z.of_nat n) * w * 4 <= off ->
  at_off (rows_gen crow n i yp uvp w ys uvs dst) off = at_off dst off.
Proof.
  induction n as [|n IH]; intros i dst off Hi Ho Hout; simpl.
  - reflexivity.
  - rewrite IH by nia.
    apply pixel_loop_other; rewrite ?Z2Nat.id by lia; nia.
Qed.

Lemma rows_gen_here n : forall i0 dst i j k,
  0 <= i0 -> i0 <= i < i0 + Z.of_nat n -> 0 <= j < w -> 0 <= k < 4 ->
  (i0 + Z.of_nat n) * w * 4 <= Z.of_nat (length dst) ->
  at_off (rows_gen crow n i0 yp uvp w ys uvs dst) ((i * w + j) * 4 + k)
  = pixel_out (drop (Z.to_nat (i * ys)) yp)
              (drop (Z.to_nat (crow i * uvs)) uvp) j !! Z.to_nat k.
Proof.
  induction n as [|n IH]; intros i0 dst i j k Hi0 Hi Hj Hk Hlen; simpl.
  - lia.
  - destruct (Z.eq_dec i i0) as [->|Hne].
    + rewrite rows_gen_other by nia.
      replace ((i0 * w + j) * 4 + k) with (i0 * w * 4 + j * 4 + k) by lia.
      apply pixel_loop_here; rewrite ?Z2Nat.id by lia; nia.
    + apply IH; try lia. rewrite pixel_loop_length. nia.
Qed.

End Rows.

Lemma rd_drop p a b : 0 <= a -> 0 <= b -> rd (drop (Z.to_nat a) p) b = rd p (a + b).
Proof.
  intros Ha Hb. unfold rd. rewrite lookup_drop.
  rewrite Z2Nat.inj_add by lia. reflexivity.
Qed.

Lemma rows_gen_pixel (crow : Z -> Z) (yp uvp dst : list Z) (w h ys uvs i j k : Z) :
  (forall x, 0 <= x -> 0 <= crow x) ->
  0 <= ys -> 0 <= uvs -> 0 <= i < h -> 0 <= j < w -> 0 <= k < 4 ->
  w * h * 4 <= Z.of_nat (length dst) ->
  at_off (rows_gen crow (Z.to_nat h) 0 yp uvp w ys uvs dst) ((i * w + j) * 4 + k)
  = [spec_B (rd yp (i * ys + j)) (rd uvp (crow i * uvs + (j ÷ 2) * 2));
     spec_G (rd yp (i * ys + j)) (rd uvp (crow i * uvs + (j ÷ 2) * 2))
            (rd uvp (crow i * uvs + ((j ÷ 2) * 2 + 1)));
     spec_R (rd yp (i * ys + j)) (rd uvp (crow i * uvs + ((j ÷ 2) * 2 + 1)));
     255] !! Z.to_nat k.
Proof.
  intros Hc Hys Huvs Hi Hj Hk Hlen.
  assert (0 <= j ÷ 2) by (apply Z.quot_pos; lia).
  assert (0 <= crow i) by (apply Hc; lia).
  rewrite rows_gen_here by (rewrite ?Z2Nat.id by lia; nia).
  unfold pixel_out. rewrite !rd_drop by nia. reflexivity.
Qed.

(** C5: for every pixel (i, j) the scalar converters store
    B = Y + ((U-128)*454 >> 8), G = Y - (((U-128)*88 + (V-128)*183) >> 8),
    R = Y + ((V-128)*359 >> 8), each saturated to [0,255] (replaced by the
    nearest value of the range, [saturate]), and A = 255, in this byte
    order at offset (i*width + j)*4; Y is byte j of luma row i and
    U, V are bytes (j/2)*2 and (j/2)*2+1 of chroma row i/2 for the 4:2:0
    converter [nv12_to_bgra_scalar] and of chroma row i for the 4:2:2
    converter [nv16_to_bgra]. *)
Theorem scalar_conversion_formula
    (yp uvp dst : list Z) (w h ys uvs i j : Z) :
  0 <= ys -> 0 <= uvs -> 0 <= i < h -> 0 <= j < w ->
  w * h * 4 <= Z.of_nat (length dst) ->
  let Y := rd yp (i * ys + j) in
  let px := (i * w + j) * 4 in
  (let out := nv12_to_bgra_scalar yp uvp dst w h ys uvs in
   let U := rd uvp ((i ÷ 2) * uvs + (j ÷ 2) * 2) in
   let V := rd uvp ((i ÷ 2) * uvs + ((j ÷ 2) * 2 + 1)) in
   at_off out (px + 0) = Some (spec_B Y U) /\
   at_off out (px + 1) = Some (spec_G Y U V) /\
   at_off out (px + 2) = Some (spec_R Y V) /\
   at_off out (px + 3) = Some 255) /\
  (let out := nv16_to_bgra yp uvp dst w h ys uvs in
   let U := rd uvp (i * uvs + (j ÷ 2) * 2) in
   let V := rd uvp (i * uvs + ((j ÷ 2) * 2 + 1)) in
   at_off out (px + 0) = Some (spec_B Y U) /\
   at_off out (px + 1) = Some (spec_G Y U V) /\
   at_off out (px + 2) = Some (spec_R Y V) /\
   at_off out (px + 3) = Some 255).
Proof.
  intros Hys Huvs Hi Hj Hlen Y px.
  split; intros out U V; subst out;
    unfold nv12_to_bgra_scalar, nv16_to_bgra;
    rewrite ?nv12_rows_gen, ?nv16_rows_gen.
  - assert (Hc : forall x, 0 <= x -> 0 <= x ÷ 2)
      by (intros; apply Z.quot_pos; lia).
    repeat split; subst px;
      rewrite (rows_gen_pixel (fun x => x ÷ 2)) by (auto; lia); reflexivity.
  - repeat split; subst px;
      rewrite (rows_gen_pixel (fun x => x)) by (auto; lia); reflexivity.
Qed.

Lemma scalar_conversion_formula_witness :
  at_off (nv12_to_bgra_scalar sample_y_plane sample_uv_plane blank_bgra_2x2 2 2 2 2) 14
    = Some 255
  /\ at_off (nv16_to_bgra sample_y_plane sample_uv_plane blank_bgra_2x2 2 2 2 2) 14
    = Some 103.
Proof.
  pose proof (scalar_conversion_formula sample_y_plane sample_uv_plane
                blank_bgra_2x2 2 2 2 2 1 1) as H.
  simpl in H.
  destruct H as [[_ [_ [H12 _]]] [_ [_ [H16 _]]]]; try lia.
  split; [exact H12 | exact H16].
Defined.

(** C2 (the code does otherwise): [yuv_to_bgra_cpu] sends the Cr-first
    formats through the very converters of the Cb-first ones, so that for
    NV21 and NV61 the byte at chroma column (j/2)*2 is still used as Cb and
    the next one as Cr.  On the red NV21 frame the first pixel comes out
    blue, (B,G,R,A) = (255,85,128,255), where the addressing of the
    specification gives red, (128,38,255,255). *)
Theorem cpu_converter_ignores_chroma_order :
  (forall yuv dst w h hs vs,
     yuv_to_bgra_cpu yuv dst w h hs vs MPP_FMT_YUV420SP_VU
       = yuv_to_bgra_cpu yuv dst w h hs vs MPP_FMT_YUV420SP
     /\ yuv_to_bgra_cpu yuv dst w h hs vs MPP_FMT_YUV422SP_VU
       = yuv_to_bgra_cpu yuv dst w h hs vs MPP_FMT_YUV422SP) /\
  take 4 (yuv_to_bgra_cpu red_nv21_frame blank_bgra_2x2 2 2 2 2
            MPP_FMT_YUV420SP_VU) = [255; 85; 128; 255] /\
  spec_pixel MPP_FMT_YUV420SP_VU 128 (drop 4 red_nv21_frame) 0
    = [128; 38; 255; 255].
Proof.
  split; [intros; split; reflexivity|].
  split; vm_compute; reflexivity.
Qed.

End ConvertFacts.

(** ** Display pipeline, overlay and detection store ([gst_video_player.c]) *)

Module Player.

Definition MAX_FACE_BOXES : Z := 10.

(** C [double]; a C [float] field read into a [double] expression keeps
    its value. *)
Definition double : Set := PrimFloat.float.

(** [(double) n] for an [int] n. *)
Definition double_of_int (n : Z) : double :=
  if n <? 0 then PrimFloat.opp (PrimFloat.of_uint63 (Uint63.of_Z (- n)))
  else PrimFloat.of_uint63 (Uint63.of_Z n).

Inductive gst_player_error_t : Type :=
  | GST_PLAYER_OK
  | GST_PLAYER_ERROR_INIT_FAILED
  | GST_PLAYER_ERROR_INVALID_PARAM
  | GST_PLAYER_ERROR_DEVICE_NOT_FOUND
  | GST_PLAYER_ERROR_PIPELINE_FAILED
  | GST_PLAYER_ERROR_NO_DISPLAY
  | GST_PLAYER_ERROR_WINDOW_INVALID.

Inductive gst_player_format_t : Type :=
  | GST_PLAYER_FORMAT_MJPEG
  | GST_PLAYER_FORMAT_YUY2
  | GST_PLAYER_FORMAT_NV12.

Record gst_player_config_t : Type := {
  cfg_device : option String.string;
  cfg_width : Z;
  cfg_height : Z;
  cfg_fps : Z;
  cfg_format : gst_player_format_t;
  cfg_use_hardware_decode : bool;
  cfg_use_rga : bool;
  cfg_face_detect_fps : Z;
  cfg_face_detect_width : Z;
  cfg_face_detect_height : Z
}.

Record gst_face_box_t : Type := {
  center_x : double;
  center_y : double;
  box_width : double;
  box_height : double;
  score : double
}.

Definition zero_box : gst_face_box_t :=
  {| center_x := double_of_int 0; center_y := double_of_int 0;
     box_width := double_of_int 0; box_height := double_of_int 0;
     score := double_of_int 0 |}.

(** The context.  A pointer to a framework object is [true] when it is
    not NULL; a callback is the identifier of the caller's function. *)
Record gst_player_context_t : Type := {
  pipeline : bool;
  video_sink : bool;
  app_sink : bool;
  overlay : bool;
  bus : bool;
  device : String.string;
  width : Z;
  height : Z;
  fps : Z;
  format : gst_player_format_t;
  use_hardware_decode : bool;
  x11_window_id : Z;
  frame_callback : option nat;
  callback_user_data : Z;
  face_boxes : list gst_face_box_t;
  face_box_count : Z;
  face_source_width : Z;
  face_source_height : Z;
  video_width : Z;
  video_height : Z;
  running : bool;
  playing : bool;
  face_detect_width : Z;
  face_detect_height : Z;
  frame_count : Z;
  start_time : Z
}.

Definition set_face_store (ctx : gst_player_context_t)
    (boxes : list gst_face_box_t) (count sw sh : Z) : gst_player_context_t :=
  {| pipeline := pipeline ctx; video_sink := video_sink ctx;
     app_sink := app_sink ctx; overlay := overlay ctx; bus := bus ctx;
     device := device ctx; width := width ctx; height := height ctx;
     fps := fps ctx; format := format ctx;
     use_hardware_decode := use_hardware_decode ctx;
     x11_window_id := x11_window_id ctx;
     frame_callback := frame_callback ctx;
     callback_user_data := callback_user_data ctx;
     face_boxes := boxes; face_box_count := count;
     face_source_width := sw; face_source_height := sh;
     video_width := video_width ctx; video_height := video_height ctx;
     running := running ctx; playing := playing ctx;
     face_detect_width := face_detect_width ctx;
     face_detect_height := face_detect_height ctx;
     frame_count := frame_count ctx; start_time := start_time ctx |}.

Definition set_video_size (ctx : gst_player_context_t) (vw vh : Z)
    : gst_player_context_t :=
  {| pipeline := pipeline ctx; video_sink := video_sink ctx;
     app_sink := app_sink ctx; overlay := overlay ctx; bus := bus ctx;
     device := device ctx; width := width ctx; height := height ctx;
     fps := fps ctx; format := format ctx;
     use_hardware_decode := use_hardware_decode ctx;
     x11_window_id := x11_window_id ctx;
     frame_callback := frame_callback ctx;
     callback_user_data := callback_user_data ctx;
     face_boxes := face_boxes ctx; face_box_count := face_box_count ctx;
     face_source_width := face_source_width ctx;
     face_source_height := face_source_height ctx;
     video_width := vw; video_height := vh;
     running := running ctx; playing := playing ctx;
     face_detect_width := face_detect_width ctx;
     face_detect_height := face_detect_height ctx;
     frame_count := frame_count ctx; start_time := start_time ctx |}.

Definition set_window_id (ctx : gst_player_context_t) (id : Z)
    : gst_player_context_t :=
  {| pipeline := pipeline ctx; video_sink := video_sink ctx;
     app_sink := app_sink ctx; overlay := overlay ctx; bus := bus ctx;
     device := device ctx; width := width ctx; height := height ctx;
     fps := fps ctx; format := format ctx;
     use_hardware_decode := use_hardware_decode ctx;
     x11_window_id := id;
     frame_callback := frame_callback ctx;
     callback_user_data := callback_user_data ctx;
     face_boxes := face_boxes ctx; face_box_count := face_box_count ctx;
     face_source_width := face_source_width ctx;
     face_source_height := face_source_height ctx;
     video_width := video_width ctx; video_height := video_height ctx;
     running := running ctx; playing := playing ctx;
     face_detect_width := face_detect_width ctx;
     face_detect_height := face_detect_height ctx;
     frame_count := frame_count ctx; start_time := start_time ctx |}.

Definition set_callback (ctx : gst_player_context_t) (cb : option nat)
    (ud : Z) : gst_player_context_t :=
  {| pipeline := pipeline ctx; video_sink := video_sink ctx;
     app_sink := app_sink ctx; overlay := overlay ctx; bus := bus ctx;
     device := device ctx; width := width ctx; height := height ctx;
     fps := fps ctx; format := format ctx;
     use_hardware_decode := use_hardware_decode ctx;
     x11_window_id := x11_window_id ctx;
     frame_callback := cb;
     callback_user_data := ud;
     face_boxes := face_boxes ctx; face_box_count := face_box_count ctx;
     face_source_width := face_source_width ctx;
     face_source_height := face_source_height ctx;
     video_width := video_width ctx; video_height := video_height ctx;
     running := running ctx; playing := playing ctx;
     face_detect_width := face_detect_width ctx;
     face_detect_height := face_detect_height ctx;
     frame_count := frame_count ctx; start_time := start_time ctx |}.

Definition set_play_state (ctx : gst_player_context_t) (r p : bool)
    (fc st : Z) : gst_player_context_t :=
  {| pipeline := pipeline ctx; video_sink := video_sink ctx;
     app_sink := app_sink ctx; overlay := overlay ctx; bus := bus ctx;
     device := device ctx; width := width ctx; height := height ctx;
     fps := fps ctx; format := format ctx;
     use_hardware_decode := use_hardware_decode ctx;
     x11_window_id := x11_window_id ctx;
     frame_callback := frame_callback ctx;
     callback_user_data := callback_user_data ctx;
     face_boxes := face_boxes ctx; face_box_count := face_box_count ctx;
     face_source_width := face_source_width ctx;
     face_source_height := face_source_height ctx;
     video_width := video_width ctx; video_height := video_height ctx;
     running := r; playing := p;
     face_detect_width := face_detect_width ctx;
     face_detect_height := face_detect_height ctx;
     frame_count := fc; start_time := st |}.

(** Outcomes of the framework calls made by [gst_player_create]. *)
Record create_env : Type := {
  gst_init_check_ok : bool;
  calloc_ok : bool;
  malloc_ok : bool;
  parse_launch_ok : bool;
  has_videosink : bool;
  has_facesink : bool;
  has_overlay : bool
}.

(** [gst_player_global_init] on the flag [g_gst_initialized]. *)
Definition gst_player_global_init (g_gst_initialized : bool) (env : create_env)
    : bool * gst_player_error_t :=
  if g_gst_initialized then (true, GST_PLAYER_OK)
  else if negb (gst_init_check_ok env) then (false, GST_PLAYER_ERROR_INIT_FAILED)
  else (true, GST_PLAYER_OK).

(** [build_pipeline_string] succeeds for MJPEG and YUY2 only. *)
Definition build_pipeline_string_ok (config : gst_player_config_t)
    (env : create_env) : bool :=
  malloc_ok env &&
  match cfg_format config with
  | GST_PLAYER_FORMAT_MJPEG | GST_PLAYER_FORMAT_YUY2 => true
  | GST_PLAYER_FORMAT_NV12 => false
  end.

(** [strncpy(ctx->device, config->device, sizeof(ctx->device) - 1)] into
    zeroed memory. *)
Definition copy_device (d : String.string) : String.string :=
  String.substring 0 63 d.

Definition gst_player_create (g_gst_initialized : bool)
    (config : option gst_player_config_t) (env : create_env)
    : bool * option gst_player_context_t :=
  match config with
  | None => (g_gst_initialized, None)
  | Some config =>
    match cfg_device config with
    | None => (g_gst_initialized, None)
    | Some dev =>
      match gst_player_global_init g_gst_initialized env with
      | (g, GST_PLAYER_OK) =>
          if negb (calloc_ok env) then (g, None)
          else if negb (build_pipeline_string_ok config env) then (g, None)
          else if negb (parse_launch_ok env) then (g, None)
          else
            let fdw := if 0 <? cfg_face_detect_width config
                       then cfg_face_detect_width config else cfg_width config in
            let fdh := if 0 <? cfg_face_detect_height config
                       then cfg_face_detect_height config else cfg_height config in
            (g, Some
              {| pipeline := true;
                 video_sink := has_videosink env;
                 app_sink := has_facesink env;
                 overlay := has_overlay env;
                 bus := true;
                 device := copy_device dev;
                 width := cfg_width config;
                 height := cfg_height config;
                 fps := cfg_fps config;
                 format := cfg_format config;
                 use_hardware_decode := cfg_use_hardware_decode config;
                 x11_window_id := 0;
                 frame_callback := None;
                 callback_user_data := 0;
                 face_boxes := replicate (Z.to_nat MAX_FACE_BOXES) zero_box;
                 face_box_count := 0;
                 face_source_width := fdw;
                 face_source_height := fdh;
                 video_width := 0;
                 video_height := 0;
                 running := false;
                 playing := false;
                 face_detect_width := fdw;
                 face_detect_height := fdh;
                 frame_count := 0;
                 start_time := 0 |})
      | (g, _) => (g, None)
      end
    end
  end.

(** What a call does to the media graph. *)
Inductive gst_effect : Type :=
  | Set_window_handle (id : Z)
  | Set_state_playing
  | Set_state_null.

Definition gst_player_set_window (handle : option gst_player_context_t)
    (x11_window_id : Z)
    : option gst_player_context_t * gst_player_error_t * list gst_effect :=
  match handle with
  | None => (None, GST_PLAYER_ERROR_INVALID_PARAM, [])
  | Some ctx =>
      if negb (video_sink ctx)
      then (Some ctx, GST_PLAYER_ERROR_INVALID_PARAM, [])
      else (Some (set_window_id ctx x11_window_id), GST_PLAYER_OK,
            [Set_window_handle x11_window_id])
  end.

Definition gst_player_set_frame_callback (handle : option gst_player_context_t)
    (callback : option nat) (user_data : Z)
    : option gst_player_context_t * gst_player_error_t :=
  match handle with
  | None => (None, GST_PLAYER_ERROR_INVALID_PARAM)
  | Some ctx => (Some (set_callback ctx callback user_data), GST_PLAYER_OK)
  end.

(** [gst_player_start]; [now] is the value of [get_time_us ()] and
    [state_change_ok] tells whether [gst_element_set_state] returned
    anything but [GST_STATE_CHANGE_FAILURE]. *)
Definition gst_player_start (handle : option gst_player_context_t)
    (now : Z) (state_change_ok : bool)
    : option gst_player_context_t * gst_player_error_t * list gst_effect :=
  match handle with
  | None => (None, GST_PLAYER_ERROR_INVALID_PARAM, [])
  | Some ctx =>
      if negb (pipeline ctx)
      then (Some ctx, GST_PLAYER_ERROR_INVALID_PARAM, [])
      else if playing ctx then (Some ctx, GST_PLAYER_OK, [])
      else
        let ctx := set_play_state ctx true true 0 now in
        if negb state_change_ok
        then (Some (set_play_state ctx false false (frame_count ctx)
                      (start_time ctx)),
              GST_PLAYER_ERROR_PIPELINE_FAILED, [Set_state_playing])
        else (Some ctx, GST_PLAYER_OK, [Set_state_playing])
  end.

Definition gst_player_stop (handle : option gst_player_context_t)
    : option gst_player_context_t * gst_player_error_t * list gst_effect :=
  match handle with
  | None => (None, GST_PLAYER_ERROR_INVALID_PARAM, [])
  | Some ctx =>
      if negb (playing ctx) then (Some ctx, GST_PLAYER_OK, [])
      else
        let ctx := set_play_state ctx false false (frame_count ctx)
                     (start_time ctx) in
        (Some ctx, GST_PLAYER_OK,
         if pipeline ctx then [Set_state_null] else [])
  end.

Definition gst_player_is_playing (handle : option gst_player_context_t) : bool :=
  match handle with
  | None => false
  | Some ctx => playing ctx
  end.

(** [memcpy(dst, src, n * sizeof(gst_face_box_t))]: the first [n] boxes of
    [dst] become the first [n] boxes of [src], which the caller provides. *)
Definition memcpy_boxes (dst src : list gst_face_box_t) (n : Z)
    : list gst_face_box_t :=
  take (Z.to_nat n) src ++ drop (Z.to_nat n) dst.

Definition gst_player_set_face_boxes (handle : option gst_player_context_t)
    (boxes : option (list gst_face_box_t)) (count : Z)
    (source_width source_height : Z)
    : option gst_player_context_t * gst_player_error_t :=
  match handle with
  | None => (None, GST_PLAYER_ERROR_INVALID_PARAM)
  | Some ctx =>
      match boxes with
      | Some bs =>
          if 0 <? count then
            let n := if count <? MAX_FACE_BOXES then count else MAX_FACE_BOXES in
            (Some (set_face_store ctx
                     (memcpy_boxes (face_boxes ctx) bs n) n
                     (if 0 <? source_width then source_width
                      else face_detect_width ctx)
                     (if 0 <? source_height then source_height
                      else face_detect_height ctx)),
             GST_PLAYER_OK)
          else
            (Some (set_face_store ctx (face_boxes ctx) 0
                     (face_source_width ctx) (face_source_height ctx)),
             GST_PLAYER_OK)
      | None =>
          (Some (set_face_store ctx (face_boxes ctx) 0
                   (face_source_width ctx) (face_source_height ctx)),
           GST_PLAYER_OK)
      end
  end.

Definition gst_player_clear_face_boxes (handle : option gst_player_context_t)
    : option gst_player_context_t :=
  match handle with
  | None => None
  | Some ctx =>
      Some (set_face_store ctx (face_boxes ctx) 0
              (face_source_width ctx) (face_source_height ctx))
  end.

(** [on_caps_changed]: [caps] is the first structure of the caps, if any,
    with its integer fields "width" and "height", if present. *)
Definition on_caps_changed (caps : option (option (option Z * option Z)))
    (user_data : option gst_player_context_t) : option gst_player_context_t :=
  match user_data, caps with
  | Some ctx, Some (Some (w, h)) =>
      Some (set_video_size ctx (default (video_width ctx) w)
              (default (video_height ctx) h))
  | _, _ => user_data
  end.

(** Calls on the drawing context.  [cairo_show_text] carries the score of
    the box, from which [snprintf] formats the text. *)
Inductive cairo_call : Type :=
  | cairo_set_source_rgb (r g b : double)
  | cairo_set_line_width (w : double)
  | cairo_rectangle (x y w h : double)
  | cairo_stroke
  | cairo_set_font_size (size : double)
  | cairo_move_to (x y : double)
  | cairo_show_text (box_score : double).

(** Body of the loop of [on_cairo_draw] for one box. *)
Definition draw_box (scale_x scale_y : double) (box : gst_face_box_t)
    : list cairo_call :=
  let cx := PrimFloat.mul (center_x box) scale_x in
  let cy := PrimFloat.mul (center_y box) scale_y in
  let w := PrimFloat.mul (box_width box) scale_x in
  let h := PrimFloat.mul (box_height box) scale_y in
  let x := PrimFloat.sub cx (PrimFloat.div w (double_of_int 2)) in
  let y := PrimFloat.sub cy (PrimFloat.div h (double_of_int 2)) in
  [cairo_set_source_rgb (double_of_int 0) (double_of_int 1) (double_of_int 0);
   cairo_set_line_width (double_of_int 3);
   cairo_rectangle x y w h;
   cairo_stroke]
  ++ (if PrimFloat.ltb (double_of_int 0) (score box) then
        [cairo_set_font_size (double_of_int 16);
         cairo_move_to x
           (if PrimFloat.ltb (double_of_int 20) y
            then PrimFloat.sub y (double_of_int 5)
            else PrimFloat.add (PrimFloat.add y h) (double_of_int 15));
         cairo_show_text (score box)]
      else []).

(** [for (i = 0; i < face_box_count && i < MAX_FACE_BOXES; i++)] over the
    slots of the array from slot [i] on. *)
Fixpoint draw_loop (scale_x scale_y : double) (face_box_count : Z) (i : Z)
    (boxes : list gst_face_box_t) : list cairo_call :=
  match boxes with
  | [] => []
  | box :: rest =>
      if (i <? face_box_count) && (i <? MAX_FACE_BOXES)
      then draw_box scale_x scale_y box
             ++ draw_loop scale_x scale_y face_box_count (i + 1) rest
      else []
  end.

(** [on_cairo_draw]: the calls made on the drawing context. *)
Definition on_cairo_draw (user_data : option gst_player_context_t)
    : list cairo_call :=
  match user_data with
  | None => []
  | Some ctx =>
      if (face_box_count ctx <=? 0) || (video_width ctx <=? 0)
         || (face_source_width ctx <=? 0)
      then []
      else
        let scale_x := PrimFloat.div (double_of_int (video_width ctx))
                         (double_of_int (face_source_width ctx)) in
        let scale_y := PrimFloat.div (double_of_int (video_height ctx))
                         (double_of_int (face_source_height ctx)) in
        draw_loop scale_x scale_y (face_box_count ctx) 0 (face_boxes ctx)
  end.

(** The calls and signals a created player receives. *)
Inductive player_call : Type :=
  | Call_set_window (x11_window_id : Z)
  | Call_set_frame_callback (callback : option nat) (user_data : Z)
  | Call_start (now : Z) (state_change_ok : bool)
  | Call_stop
  | Call_set_face_boxes (boxes : option (list gst_face_box_t))
      (count source_width source_height : Z)
  | Call_clear_face_boxes
  | Signal_caps_changed (caps : option (option (option Z * option Z)))
  | Signal_draw.

Definition run_call (c : player_call) (h : option gst_player_context_t)
    : option gst_player_context_t :=
  match c with
  | Call_set_window id => fst (fst (gst_player_set_window h id))
  | Call_set_frame_callback cb ud => fst (gst_player_set_frame_callback h cb ud)
  | Call_start now ok => fst (fst (gst_player_start h now ok))
  | Call_stop => fst (fst (gst_player_stop h))
  | Call_set_face_boxes bs n sw sh => fst (gst_player_set_face_boxes h bs n sw sh)
  | Call_clear_face_boxes => gst_player_clear_face_boxes h
  | Signal_caps_changed caps => on_caps_changed caps h
  | Signal_draw => h
  end.

Definition run_calls (cs : list player_call) (h : option gst_player_context_t)
    : option gst_player_context_t :=
  foldl (fun h c => run_call c h) h cs.

(** The stored detection count of a handle (0 for NULL). *)
Definition stored_count (h : option gst_player_context_t) : Z :=
  match h with
  | None => 0
  | Some ctx => face_box_count ctx
  end.

(** Sample data: a box centred at (160,120), 40x40, score 3/4, and a
    playing context showing it on 640 columns whose video height is still
    unknown. *)
Definition sample_box : gst_face_box_t :=
  {| center_x := double_of_int 160; center_y := double_of_int 120;
     box_width := double_of_int 40; box_height := double_of_int 40;
     score := PrimFloat.div (double_of_int 3) (double_of_int 4) |}.

Definition sample_config : gst_player_config_t :=
  {| cfg_device := Some "/dev/video0"%string;
     cfg_width := 640; cfg_height := 480; cfg_fps := 30;
     cfg_format := GST_PLAYER_FORMAT_MJPEG;
     cfg_use_hardware_decode := false; cfg_use_rga := false;
     cfg_face_detect_fps := 5;
     cfg_face_detect_width := 320; cfg_face_detect_height := 240 |}.

Definition all_ok : create_env :=
  {| gst_init_check_ok := true; calloc_ok := true; malloc_ok := true;
     parse_launch_ok := true; has_videosink := true; has_facesink := true;
     has_overlay := true |}.

(** The context [gst_player_create] returns for [sample_config]. *)
Definition sample_ctx : gst_player_context_t :=
  {| pipeline := true; video_sink := true; app_sink := true;
     overlay := true; bus := true;
     device := "/dev/video0"%string;
     width := 640; height := 480; fps := 30;
     format := GST_PLAYER_FORMAT_MJPEG; use_hardware_decode := false;
     x11_window_id := 0; frame_callback := None; callback_user_data := 0;
     face_boxes := replicate 10 zero_box; face_box_count := 0;
     face_source_width := 320; face_source_height := 240;
     video_width := 0; video_height := 0;
     running := false; playing := false;
     face_detect_width := 320; face_detect_height := 240;
     frame_count := 0; start_time := 0 |}.

(** [sample_ctx] after a caps-changed signal that carries a width of 640
    and no height, and a detection update of one box. *)
Definition width_only_ctx : gst_player_context_t :=
  set_face_store (set_video_size sample_ctx 640 0)
    (sample_box :: replicate 9 zero_box) 1 320 240.

Definition width_only_calls : list player_call :=
  [Signal_caps_changed (Some (Some (Some 640, None)));
   Call_set_face_boxes (Some [sample_box]) 1 320 240].

End Player.

(** ** Facts about the detection store and the overlay *)

Module PlayerFacts.
Import Player.

Lemma capped_count_le count :
  (if count <? MAX_FACE_BOXES then count else MAX_FACE_BOXES) <= MAX_FACE_BOXES.
Proof. unfold MAX_FACE_BOXES. destruct (Z.ltb_spec count 10); lia. Qed.

Lemma take_memcpy_boxes (dst src : list gst_face_box_t) (n : Z) :
  (Z.to_nat n <= length src)%nat ->
  take (Z.to_nat n) (memcpy_boxes dst src n) = take (Z.to_nat n) src.
Proof.
  intros H. unfold memcpy_boxes.
  rewrite take_app_le by (rewrite length_take; lia).
  rewrite take_take. f_equal. lia.
Qed.

Lemma run_call_count_le c h :
  stored_count h <= MAX_FACE_BOXES -> stored_count (run_call c h) <= MAX_FACE_BOXES.
Proof.
  intros H. destruct h as [ctx|]; destruct c; simpl in *; try assumption;
    try (unfold MAX_FACE_BOXES; lia).
  - destruct (video_sink ctx); simpl; assumption.
  - destruct (pipeline ctx); simpl; [|assumption].
    destruct (playing ctx); simpl; [assumption|].
    destruct state_change_ok; simpl; assumption.
  - destruct (playing ctx); simpl; assumption.
  - destruct boxes as [bs|]; simpl; [|unfold MAX_FACE_BOXES; lia].
    destruct (0 <? count); simpl; [apply capped_count_le|unfold MAX_FACE_BOXES; lia].
  - destruct caps as [[[w hh]|]|]; simpl; assumption.
Qed.

Lemma run_calls_count_le cs : forall h,
  stored_count h <= MAX_FACE_BOXES -> stored_count (run_calls cs h) <= MAX_FACE_BOXES.
Proof.
  unfold run_calls. induction cs as [|c cs IH]; intros h H; simpl.
  - assumption.
  - apply IH. apply run_call_count_le. assumption.
Qed.

Lemma created_count g config env :
  stored_count (snd (gst_player_create g config env)) = 0.
Proof.
  unfold gst_player_create.
  destruct config as [config|]; [|reflexivity].
  destruct (cfg_device config); [|reflexivity].
  destruct (gst_player_global_init g env) as [g' []]; try reflexivity.
  destruct (calloc_ok env); [|reflexivity].
  destruct (build_pipeline_string_ok config env); [|reflexivity].
  destruct (parse_launch_ok env); reflexivity.
Qed.

(** C3: a call of [gst_player_set_face_boxes] with a non-null array and
    [count > 10] leaves a count of 10 and the first 10 boxes of the array
    in the store; with [1 <= count <= 10] it leaves [count] and the first
    [count] boxes; a source dimension that is not positive is replaced by
    the configured detection dimension (a positive one is stored as
    given).  The array handed over holds the boxes that are copied.
    Moreover, whatever calls and signals a created player receives, its
    stored count never exceeds 10. *)
Theorem set_face_boxes_caps_at_ten :
  (forall (ctx : gst_player_context_t) (bs : list gst_face_box_t)
          (count sw sh : Z),
     0 < count ->
     Z.min count 10 <= Z.of_nat (length bs) ->
     exists ctx',
       gst_player_set_face_boxes (Some ctx) (Some bs) count sw sh
         = (Some ctx', GST_PLAYER_OK) /\
       (10 < count ->
          face_box_count ctx' = 10 /\
          take 10 (face_boxes ctx') = take 10 bs /\
          (length (face_boxes ctx) = 10%nat -> face_boxes ctx' = take 10 bs)) /\
       (1 <= count <= 10 ->
          face_box_count ctx' = count /\
          take (Z.to_nat count) (face_boxes ctx') = take (Z.to_nat count) bs) /\
       (sw <= 0 -> face_source_width ctx' = face_detect_width ctx) /\
       (sh <= 0 -> face_source_height ctx' = face_detect_height ctx) /\
       (0 < sw -> face_source_width ctx' = sw) /\
       (0 < sh -> face_source_height ctx' = sh)) /\
  (forall g config env (calls : list player_call),
     stored_count (run_calls calls (snd (gst_player_create g config env))) <= 10).
Proof.
  split.
  - intros ctx bs count sw sh Hc Hlen.
    unfold gst_player_set_face_boxes.
    destruct (Z.ltb_spec 0 count) as [_|]; [|lia].
    eexists. split; [reflexivity|]. simpl.
    unfold MAX_FACE_BOXES.
    repeat split.
    + destruct (Z.ltb_spec count 10); lia.
    + destruct (Z.ltb_spec count 10); [lia|].
      apply (take_memcpy_boxes _ _ 10). lia.
    + destruct (Z.ltb_spec count 10); [lia|]. intros Hlen10.
      unfold memcpy_boxes. rewrite drop_ge by (rewrite Hlen10; lia).
      apply app_nil_r.
    + destruct (Z.ltb_spec count 10); lia.
    + destruct (Z.ltb_spec count 10).
      * apply take_memcpy_boxes. lia.
      * assert (count = 10) as -> by lia. apply (take_memcpy_boxes _ _ 10). lia.
    + destruct (Z.ltb_spec 0 sw); [lia|reflexivity].
    + destruct (Z.ltb_spec 0 sh); [lia|reflexivity].
    + destruct (Z.ltb_spec 0 sw); [reflexivity|lia].
    + destruct (Z.ltb_spec 0 sh); [reflexivity|lia].
  - intros g config env calls.
    apply (run_calls_count_le calls).
    rewrite created_count. unfold MAX_FACE_BOXES. lia.
Qed.

Lemma set_face_boxes_caps_at_ten_witness :
  exists ctx',
    gst_player_set_face_boxes (Some sample_ctx)
      (Some (replicate 12 sample_box)) 12 0 240
    = (Some ctx', GST_PLAYER_OK) /\
    face_box_count ctx' = 10 /\
    take 10 (face_boxes ctx') = replicate 10 sample_box /\
    face_source_width ctx' = 320.
Proof.
  destruct set_face_boxes_caps_at_ten as [Hset _].
  destruct (Hset sample_ctx (replicate 12 sample_box) 12 0 240)
    as (ctx' & Hcall & Hmany & _ & Hsw & _); [lia | simpl; lia |].
  exists ctx'. split; [exact Hcall|].
  destruct Hmany as (Hn & Hboxes & _); [lia|].
  split; [exact Hn|]. split; [exact Hboxes|].
  rewrite Hsw by lia. reflexivity.
Defined.

(** C10: with a NULL array or [count <= 0] the call returns OK and leaves
    the very context [gst_player_clear_face_boxes] leaves: the count is
    zero and the stored boxes, the source dimensions and every other
    field are as before; the overlay then draws nothing. *)
Theorem set_face_boxes_empty_is_clear
    (ctx : gst_player_context_t) (boxes : option (list gst_face_box_t))
    (count sw sh : Z) :
  boxes = None \/ count <= 0 ->
  gst_player_set_face_boxes (Some ctx) boxes count sw sh
    = (gst_player_clear_face_boxes (Some ctx), GST_PLAYER_OK) /\
  exists ctx',
    fst (gst_player_set_face_boxes (Some ctx) boxes count sw sh) = Some ctx' /\
    ctx' = set_face_store ctx (face_boxes ctx) 0
             (face_source_width ctx) (face_source_height ctx) /\
    face_box_count ctx' = 0 /\
    face_boxes ctx' = face_boxes ctx /\
    face_source_width ctx' = face_source_width ctx /\
    face_source_height ctx' = face_source_height ctx /\
    on_cairo_draw (Some ctx') = [].
Proof.
  intros H.
  assert (E : gst_player_set_face_boxes (Some ctx) boxes count sw sh
              = (gst_player_clear_face_boxes (Some ctx), GST_PLAYER_OK)).
  { unfold gst_player_set_face_boxes, gst_player_clear_face_boxes.
    destruct boxes as [bs|]; [|reflexivity].
    destruct H as [H|H]; [discriminate|].
    destruct (Z.ltb_spec 0 count); [lia|reflexivity]. }
  split; [exact E|].
  rewrite E. simpl. eexists. split; [reflexivity|].
  repeat split.
Qed.

Lemma set_face_boxes_empty_is_clear_witness :
  gst_player_set_face_boxes (Some width_only_ctx) (Some [sample_box]) 0 320 240
    = (gst_player_clear_face_boxes (Some width_only_ctx), GST_PLAYER_OK).
Proof.
  refine (proj1 (set_face_boxes_empty_is_clear width_only_ctx
                   (Some [sample_box]) 0 320 240 _)).
  right. lia.
Defined.

(** C7, as the code has it: when the detection count is not positive, or
    the video width is not positive, or the detector source width is not
    positive, [on_cairo_draw] makes no call on the drawing context.  (The
    two heights are not looked at.) *)
Theorem overlay_guard_draws_nothing (ctx : gst_player_context_t) :
  face_box_count ctx <= 0 \/ video_width ctx <= 0 \/ face_source_width ctx <= 0 ->
  on_cairo_draw (Some ctx) = [].
Proof.
  intros H. unfold on_cairo_draw.
  destruct (Z.leb_spec (face_box_count ctx) 0); [reflexivity|].
  destruct (Z.leb_spec (video_width ctx) 0); [reflexivity|].
  destruct (Z.leb_spec (face_source_width ctx) 0); [reflexivity|].
  lia.
Qed.

Lemma overlay_guard_draws_nothing_witness :
  on_cairo_draw (Some sample_ctx) = [].
Proof.
  apply overlay_guard_draws_nothing. left. simpl. lia.
Defined.

(** C7 as stated fails: with one box stored, a video width of 640 and a
    video height that is still unknown (0), the overlay strokes a
    rectangle. *)
Lemma overlay_draws_with_unknown_height :
  0 < face_box_count width_only_ctx /\
  video_height width_only_ctx <= 0 /\
  exists x y w h rest,
    on_cairo_draw (Some width_only_ctx)
    = cairo_set_source_rgb (double_of_int 0) (double_of_int 1) (double_of_int 0)
      :: cairo_set_line_width (double_of_int 3)
      :: cairo_rectangle x y w h :: cairo_stroke :: rest.
Proof.
  split; [reflexivity|]. split; [discriminate|].
  vm_compute. do 5 eexists. reflexivity.
Qed.

(** The two sample contexts are states of a running player. *)
Lemma sample_contexts_reachable :
  snd (gst_player_create false (Some sample_config) all_ok) = Some sample_ctx /\
  run_calls width_only_calls (Some sample_ctx) = Some width_only_ctx.
Proof. split; reflexivity. Qed.

End PlayerFacts.

(** ** Capture context ([v4l2_mpp_camera.c]) *)

Module Camera.
Import Convert.

(** Result of a 32-bit [int] computation, of a conversion to a 32-bit
    unsigned, and of a conversion to [size_t] (64 bits on the target). *)
Definition int32 (x : Z) : Z := (x + 2 ^ 31) mod 2 ^ 32 - 2 ^ 31.
Definition u32 (x : Z) : Z := x mod 2 ^ 32.
Definition size_t (x : Z) : Z := x mod 2 ^ 64.

(** [#define ALIGN(x, a) (((x) + (a) - 1) & ~((a) - 1))] *)
Definition ALIGN (x a : Z) : Z := Z.land (x + a - 1) (Z.lnot (a - 1)).

Definition V4L2_BUFFER_COUNT : Z := 4.
Definition MPP_BUFFER_COUNT : Z := 8.

(** Constants of [linux/videodev2.h]. *)
Definition V4L2_CAP_VIDEO_CAPTURE : Z := 0x00000001.
Definition V4L2_CAP_STREAMING : Z := 0x04000000.
Definition V4L2_PIX_FMT_MJPEG : Z := 0x47504A4D.

Inductive camera_error_t : Type :=
  | CAMERA_OK
  | CAMERA_ERROR_DEVICE_NOT_FOUND
  | CAMERA_ERROR_DEVICE_BUSY
  | CAMERA_ERROR_NOT_SUPPORTED
  | CAMERA_ERROR_INVALID_PARAM
  | CAMERA_ERROR_MPP_INIT_FAILED
  | CAMERA_ERROR_V4L2_INIT_FAILED
  | CAMERA_ERROR_OUT_OF_MEMORY
  | CAMERA_ERROR_DECODE_FAILED
  | CAMERA_ERROR_NOT_RUNNING.

(** The [start] pointer of a V4L2 buffer. *)
Inductive mapping : Type :=
  | Map_null
  | Map_failed
  | Mapped (offset : Z).

Record v4l2_buffer_t : Type := {
  buf_start : mapping;
  buf_length : Z
}.

(** A decode slot; a buffer handle is [true] when it is not NULL. *)
Record mpp_decode_buffer_t : Type := {
  pkt_buf : bool;
  frm_buf : bool;
  pkt_buf_size : Z;
  frm_buf_size : Z
}.

Definition null_v4l2_buffer : v4l2_buffer_t :=
  {| buf_start := Map_null; buf_length := 0 |}.

Definition null_decode_buffer : mpp_decode_buffer_t :=
  {| pkt_buf := false; frm_buf := false; pkt_buf_size := 0; frm_buf_size := 0 |}.

(** The context.  Handles of the decoder library are [true] when not
    NULL; the callback is the identifier of the caller's function; the two
    BGRA buffers are the two entries of [bgra_buffer]. *)
Record camera_context_t : Type := {
  v4l2_fd : Z;
  v4l2_buffers : list v4l2_buffer_t;
  buffer_count : Z;
  width : Z;
  height : Z;
  fps : Z;
  mpp_ctx : bool;
  mpp_mpi : bool;
  frm_grp : bool;
  decode_bufs : list mpp_decode_buffer_t;
  current_buf_idx : Z;
  mpp_initialized : Z;
  bgra_buffer : list (list Z);
  bgra_write_idx : Z;
  bgra_buffer_size : Z;
  running : Z;
  thread_started : Z;
  callback : option nat;
  user_data : Z;
  frame_count : Z;
  decode_count : Z
}.

Definition set_v4l2_fd (ctx : camera_context_t) (v_v4l2_fd : Z)
    : camera_context_t :=
  {| v4l2_fd := v_v4l2_fd; v4l2_buffers := v4l2_buffers ctx;
     buffer_count := buffer_count ctx; width := width ctx;
     height := height ctx; fps := fps ctx; mpp_ctx := mpp_ctx ctx;
     mpp_mpi := mpp_mpi ctx; frm_grp := frm_grp ctx;
     decode_bufs := decode_bufs ctx;
     current_buf_idx := current_buf_idx ctx;
     mpp_initialized := mpp_initialized ctx;
     bgra_buffer := bgra_buffer ctx; bgra_write_idx := bgra_write_idx ctx;
     bgra_buffer_size := bgra_buffer_size ctx; running := running ctx;
     thread_started := thread_started ctx; callback := callback ctx;
     user_data := user_data ctx; frame_count := frame_count ctx;
     decode_count := decode_count ctx |}.

Definition set_geometry (ctx : camera_context_t) (v_width : Z) (v_height : Z)
    : camera_context_t :=
  {| v4l2_fd := v4l2_fd ctx; v4l2_buffers := v4l2_buffers ctx;
     buffer_count := buffer_count ctx; width := v_width;
     height := v_height; fps := fps ctx; mpp_ctx := mpp_ctx ctx;
     mpp_mpi := mpp_mpi ctx; frm_grp := frm_grp ctx;
     decode_bufs := decode_bufs ctx;
     current_buf_idx := current_buf_idx ctx;
     mpp_initialized := mpp_initialized ctx;
     bgra_buffer := bgra_buffer ctx; bgra_write_idx := bgra_write_idx ctx;
     bgra_buffer_size := bgra_buffer_size ctx; running := running ctx;
     thread_started := thread_started ctx; callback := callback ctx;
     user_data := user_data ctx; frame_count := frame_count ctx;
     decode_count := decode_count ctx |}.

Definition set_buffer_count (ctx : camera_context_t) (v_buffer_count : Z)
    : camera_context_t :=
  {| v4l2_fd := v4l2_fd ctx; v4l2_buffers := v4l2_buffers ctx;
     buffer_count := v_buffer_count; width := width ctx;
     height := height ctx; fps := fps ctx; mpp_ctx := mpp_ctx ctx;
     mpp_mpi := mpp_mpi ctx; frm_grp := frm_grp ctx;
     decode_bufs := decode_bufs ctx;
     current_buf_idx := current_buf_idx ctx;
     mpp_initialized := mpp_initialized ctx;
     bgra_buffer := bgra_buffer ctx; bgra_write_idx := bgra_write_idx ctx;
     bgra_buffer_size := bgra_buffer_size ctx; running := running ctx;
     thread_started := thread_started ctx; callback := callback ctx;
     user_data := user_data ctx; frame_count := frame_count ctx;
     decode_count := decode_count ctx |}.

Definition set_v4l2_buffers (ctx : camera_context_t) (v_v4l2_buffers : list v4l2_buffer_t)
    : camera_context_t :=
  {| v4l2_fd := v4l2_fd ctx; v4l2_buffers := v_v4l2_buffers;
     buffer_count := buffer_count ctx; width := width ctx;
     height := height ctx; fps := fps ctx; mpp_ctx := mpp_ctx ctx;
     mpp_mpi := mpp_mpi ctx; frm_grp := frm_grp ctx;
     decode_bufs := decode_bufs ctx;
     current_buf_idx := current_buf_idx ctx;
     mpp_initialized := mpp_initialized ctx;
     bgra_buffer := bgra_buffer ctx; bgra_write_idx := bgra_write_idx ctx;
     bgra_buffer_size := bgra_buffer_size ctx; running := running ctx;
     thread_started := thread_started ctx; callback := callback ctx;
     user_data := user_data ctx; frame_count := frame_count ctx;
     decode_count := decode_count ctx |}.

Definition set_mpp_handles (ctx : camera_context_t) (v_mpp_ctx : bool) (v_mpp_mpi : bool)
    : camera_context_t :=
  {| v4l2_fd := v4l2_fd ctx; v4l2_buffers := v4l2_buffers ctx;
     buffer_count := buffer_count ctx; width := width ctx;
     height := height ctx; fps := fps ctx; mpp_ctx := v_mpp_ctx;
     mpp_mpi := v_mpp_mpi; frm_grp := frm_grp ctx;
     decode_bufs := decode_bufs ctx;
     current_buf_idx := current_buf_idx ctx;
     mpp_initialized := mpp_initialized ctx;
     bgra_buffer := bgra_buffer ctx; bgra_write_idx := bgra_write_idx ctx;
     bgra_buffer_size := bgra_buffer_size ctx; running := running ctx;
     thread_started := thread_started ctx; callback := callback ctx;
     user_data := user_data ctx; frame_count := frame_count ctx;
     decode_count := decode_count ctx |}.

Definition set_frm_grp (ctx : camera_context_t) (v_frm_grp : bool)
    : camera_context_t :=
  {| v4l2_fd := v4l2_fd ctx; v4l2_buffers := v4l2_buffers ctx;
     buffer_count := buffer_count ctx; width := width ctx;
     height := height ctx; fps := fps ctx; mpp_ctx := mpp_ctx ctx;
     mpp_mpi := mpp_mpi ctx; frm_grp := v_frm_grp;
     decode_bufs := decode_bufs ctx;
     current_buf_idx := current_buf_idx ctx;
     mpp_initialized := mpp_initialized ctx;
     bgra_buffer := bgra_buffer ctx; bgra_write_idx := bgra_write_idx ctx;
     bgra_buffer_size := bgra_buffer_size ctx; running := running ctx;
     thread_started := thread_started ctx; callback := callback ctx;
     user_data := user_data ctx; frame_count := frame_count ctx;
     decode_count := decode_count ctx |}.

Definition set_decode_bufs (ctx : camera_context_t) (v_decode_bufs : list mpp_decode_buffer_t)
    : camera_context_t :=
  {| v4l2_fd := v4l2_fd ctx; v4l2_buffers := v4l2_buffers ctx;
     buffer_count := buffer_count ctx; width := width ctx;
     height := height ctx; fps := fps ctx; mpp_ctx := mpp_ctx ctx;
     mpp_mpi := mpp_mpi ctx; frm_grp := frm_grp ctx;
     decode_bufs := v_decode_bufs; current_buf_idx := current_buf_idx ctx;
     mpp_initialized := mpp_initialized ctx;
     bgra_buffer := bgra_buffer ctx; bgra_write_idx := bgra_write_idx ctx;
     bgra_buffer_size := bgra_buffer_size ctx; running := running ctx;
     thread_started := thread_started ctx; callback := callback ctx;
     user_data := user_data ctx; frame_count := frame_count ctx;
     decode_count := decode_count ctx |}.

Definition set_mpp_ready (ctx : camera_context_t) (v_current_buf_idx : Z) (v_mpp_initialized : Z)
    : camera_context_t :=
  {| v4l2_fd := v4l2_fd ctx; v4l2_buffers := v4l2_buffers ctx;
     buffer_count := buffer_count ctx; width := width ctx;
     height := height ctx; fps := fps ctx; mpp_ctx := mpp_ctx ctx;
     mpp_mpi := mpp_mpi ctx; frm_grp := frm_grp ctx;
     decode_bufs := decode_bufs ctx; current_buf_idx := v_current_buf_idx;
     mpp_initialized := v_mpp_initialized; bgra_buffer := bgra_buffer ctx;
     bgra_write_idx := bgra_write_idx ctx;
     bgra_buffer_size := bgra_buffer_size ctx; running := running ctx;
     thread_started := thread_started ctx; callback := callback ctx;
     user_data := user_data ctx; frame_count := frame_count ctx;
     decode_count := decode_count ctx |}.

Definition set_current_buf_idx (ctx : camera_context_t) (v_current_buf_idx : Z)
    : camera_context_t :=
  {| v4l2_fd := v4l2_fd ctx; v4l2_buffers := v4l2_buffers ctx;
     buffer_count := buffer_count ctx; width := width ctx;
     height := height ctx; fps := fps ctx; mpp_ctx := mpp_ctx ctx;
     mpp_mpi := mpp_mpi ctx; frm_grp := frm_grp ctx;
     decode_bufs := decode_bufs ctx; current_buf_idx := v_current_buf_idx;
     mpp_initialized := mpp_initialized ctx;
     bgra_buffer := bgra_buffer ctx; bgra_write_idx := bgra_write_idx ctx;
     bgra_buffer_size := bgra_buffer_size ctx; running := running ctx;
     thread_started := thread_started ctx; callback := callback ctx;
     user_data := user_data ctx; frame_count := frame_count ctx;
     decode_count := decode_count ctx |}.

Definition set_bgra (ctx : camera_context_t) (v_bgra_buffer : list (list Z)) (v_bgra_buffer_size : Z)
    : camera_context_t :=
  {| v4l2_fd := v4l2_fd ctx; v4l2_buffers := v4l2_buffers ctx;
     buffer_count := buffer_count ctx; width := width ctx;
     height := height ctx; fps := fps ctx; mpp_ctx := mpp_ctx ctx;
     mpp_mpi := mpp_mpi ctx; frm_grp := frm_grp ctx;
     decode_bufs := decode_bufs ctx;
     current_buf_idx := current_buf_idx ctx;
     mpp_initialized := mpp_initialized ctx; bgra_buffer := v_bgra_buffer;
     bgra_write_idx := bgra_write_idx ctx;
     bgra_buffer_size := v_bgra_buffer_size; running := running ctx;
     thread_started := thread_started ctx; callback := callback ctx;
     user_data := user_data ctx; frame_count := frame_count ctx;
     decode_count := decode_count ctx |}.

Definition set_bgra_buffer (ctx : camera_context_t) (v_bgra_buffer : list (list Z))
    : camera_context_t :=
  {| v4l2_fd := v4l2_fd ctx; v4l2_buffers := v4l2_buffers ctx;
     buffer_count := buffer_count ctx; width := width ctx;
     height := height ctx; fps := fps ctx; mpp_ctx := mpp_ctx ctx;
     mpp_mpi := mpp_mpi ctx; frm_grp := frm_grp ctx;
     decode_bufs := decode_bufs ctx;
     current_buf_idx := current_buf_idx ctx;
     mpp_initialized := mpp_initialized ctx; bgra_buffer := v_bgra_buffer;
     bgra_write_idx := bgra_write_idx ctx;
     bgra_buffer_size := bgra_buffer_size ctx; running := running ctx;
     thread_started := thread_started ctx; callback := callback ctx;
     user_data := user_data ctx; frame_count := frame_count ctx;
     decode_count := decode_count ctx |}.

Definition set_bgra_write_idx (ctx : camera_context_t) (v_bgra_write_idx : Z)
    : camera_context_t :=
  {| v4l2_fd := v4l2_fd ctx; v4l2_buffers := v4l2_buffers ctx;
     buffer_count := buffer_count ctx; width := width ctx;
     height := height ctx; fps := fps ctx; mpp_ctx := mpp_ctx ctx;
     mpp_mpi := mpp_mpi ctx; frm_grp := frm_grp ctx;
     decode_bufs := decode_bufs ctx;
     current_buf_idx := current_buf_idx ctx;
     mpp_initialized := mpp_initialized ctx;
     bgra_buffer := bgra_buffer ctx; bgra_write_idx := v_bgra_write_idx;
     bgra_buffer_size := bgra_buffer_size ctx; running := running ctx;
     thread_started := thread_started ctx; callback := callback ctx;
     user_data := user_data ctx; frame_count := frame_count ctx;
     decode_count := decode_count ctx |}.

Definition set_running (ctx : camera_context_t) (v_running : Z)
    : camera_context_t :=
  {| v4l2_fd := v4l2_fd ctx; v4l2_buffers := v4l2_buffers ctx;
     buffer_count := buffer_count ctx; width := width ctx;
     height := height ctx; fps := fps ctx; mpp_ctx := mpp_ctx ctx;
     mpp_mpi := mpp_mpi ctx; frm_grp := frm_grp ctx;
     decode_bufs := decode_bufs ctx;
     current_buf_idx := current_buf_idx ctx;
     mpp_initialized := mpp_initialized ctx;
     bgra_buffer := bgra_buffer ctx; bgra_write_idx := bgra_write_idx ctx;
     bgra_buffer_size := bgra_buffer_size ctx; running := v_running;
     thread_started := thread_started ctx; callback := callback ctx;
     user_data := user_data ctx; frame_count := frame_count ctx;
     decode_count := decode_count ctx |}.

Definition set_thread_started (ctx : camera_context_t) (v_thread_started : Z)
    : camera_context_t :=
  {| v4l2_fd := v4l2_fd ctx; v4l2_buffers := v4l2_buffers ctx;
     buffer_count := buffer_count ctx; width := width ctx;
     height := height ctx; fps := fps ctx; mpp_ctx := mpp_ctx ctx;
     mpp_mpi := mpp_mpi ctx; frm_grp := frm_grp ctx;
     decode_bufs := decode_bufs ctx;
     current_buf_idx := current_buf_idx ctx;
     mpp_initialized := mpp_initialized ctx;
     bgra_buffer := bgra_buffer ctx; bgra_write_idx := bgra_write_idx ctx;
     bgra_buffer_size := bgra_buffer_size ctx; running := running ctx;
     thread_started := v_thread_started; callback := callback ctx;
     user_data := user_data ctx; frame_count := frame_count ctx;
     decode_count := decode_count ctx |}.

Definition set_callback (ctx : camera_context_t) (v_callback : option nat) (v_user_data : Z)
    : camera_context_t :=
  {| v4l2_fd := v4l2_fd ctx; v4l2_buffers := v4l2_buffers ctx;
     buffer_count := buffer_count ctx; width := width ctx;
     height := height ctx; fps := fps ctx; mpp_ctx := mpp_ctx ctx;
     mpp_mpi := mpp_mpi ctx; frm_grp := frm_grp ctx;
     decode_bufs := decode_bufs ctx;
     current_buf_idx := current_buf_idx ctx;
     mpp_initialized := mpp_initialized ctx;
     bgra_buffer := bgra_buffer ctx; bgra_write_idx := bgra_write_idx ctx;
     bgra_buffer_size := bgra_buffer_size ctx; running := running ctx;
     thread_started := thread_started ctx; callback := v_callback;
     user_data := v_user_data; frame_count := frame_count ctx;
     decode_count := decode_count ctx |}.

Definition set_counters (ctx : camera_context_t) (v_frame_count : Z) (v_decode_count : Z)
    : camera_context_t :=
  {| v4l2_fd := v4l2_fd ctx; v4l2_buffers := v4l2_buffers ctx;
     buffer_count := buffer_count ctx; width := width ctx;
     height := height ctx; fps := fps ctx; mpp_ctx := mpp_ctx ctx;
     mpp_mpi := mpp_mpi ctx; frm_grp := frm_grp ctx;
     decode_bufs := decode_bufs ctx;
     current_buf_idx := current_buf_idx ctx;
     mpp_initialized := mpp_initialized ctx;
     bgra_buffer := bgra_buffer ctx; bgra_write_idx := bgra_write_idx ctx;
     bgra_buffer_size := bgra_buffer_size ctx; running := running ctx;
     thread_started := thread_started ctx; callback := callback ctx;
     user_data := user_data ctx; frame_count := v_frame_count;
     decode_count := v_decode_count |}.

Definition set_frame_count (ctx : camera_context_t) (v_frame_count : Z)
    : camera_context_t :=
  {| v4l2_fd := v4l2_fd ctx; v4l2_buffers := v4l2_buffers ctx;
     buffer_count := buffer_count ctx; width := width ctx;
     height := height ctx; fps := fps ctx; mpp_ctx := mpp_ctx ctx;
     mpp_mpi := mpp_mpi ctx; frm_grp := frm_grp ctx;
     decode_bufs := decode_bufs ctx;
     current_buf_idx := current_buf_idx ctx;
     mpp_initialized := mpp_initialized ctx;
     bgra_buffer := bgra_buffer ctx; bgra_write_idx := bgra_write_idx ctx;
     bgra_buffer_size := bgra_buffer_size ctx; running := running ctx;
     thread_started := thread_started ctx; callback := callback ctx;
     user_data := user_data ctx; frame_count := v_frame_count;
     decode_count := decode_count ctx |}.

Definition set_decode_count (ctx : camera_context_t) (v_decode_count : Z)
    : camera_context_t :=
  {| v4l2_fd := v4l2_fd ctx; v4l2_buffers := v4l2_buffers ctx;
     buffer_count := buffer_count ctx; width := width ctx;
     height := height ctx; fps := fps ctx; mpp_ctx := mpp_ctx ctx;
     mpp_mpi := mpp_mpi ctx; frm_grp := frm_grp ctx;
     decode_bufs := decode_bufs ctx;
     current_buf_idx := current_buf_idx ctx;
     mpp_initialized := mpp_initialized ctx;
     bgra_buffer := bgra_buffer ctx; bgra_write_idx := bgra_write_idx ctx;
     bgra_buffer_size := bgra_buffer_size ctx; running := running ctx;
     thread_started := thread_started ctx; callback := callback ctx;
     user_data := user_data ctx; frame_count := frame_count ctx;
     decode_count := v_decode_count |}.

(** The context right after [calloc]. *)
Definition zeroed_context : camera_context_t :=
  {| v4l2_fd := 0;
     v4l2_buffers := replicate 4 null_v4l2_buffer;
     buffer_count := 0; width := 0; height := 0; fps := 0;
     mpp_ctx := false; mpp_mpi := false; frm_grp := false;
     decode_bufs := replicate (Z.to_nat MPP_BUFFER_COUNT) null_decode_buffer;
     current_buf_idx := 0; mpp_initialized := 0;
     bgra_buffer := [[]; []]; bgra_write_idx := 0; bgra_buffer_size := 0;
     running := 0; thread_started := 0;
     callback := None; user_data := 0;
     frame_count := 0; decode_count := 0 |}.

(** *** V4L2 initialisation *)

(** What the driver answers during [v4l2_init]: the descriptor returned
    by [open]; the capabilities ([None] when the ioctl fails); the pixel
    format, width and height left in [fmt] by VIDIOC_S_FMT; whether
    VIDIOC_S_PARM succeeds; the buffer count left in [req] by
    VIDIOC_REQBUFS; for buffer [i], the length and offset reported by
    VIDIOC_QUERYBUF, and whether [mmap] succeeds. *)
Record v4l2_env : Type := {
  open_result : Z;
  querycap_result : option Z;
  s_fmt_result : option (Z * Z * Z);
  s_parm_ok : bool;
  reqbufs_result : option Z;
  querybuf_result : Z -> option (Z * Z);
  mmap_ok : Z -> bool
}.

(** The mapping loop of [v4l2_init], from buffer [i], [n] buffers left. *)
Fixpoint map_buffers (n : nat) (i : Z) (ctx : camera_context_t)
    (env : v4l2_env) : camera_context_t * Z :=
  match n with
  | O => (ctx, 0)
  | S n' =>
      match querybuf_result env i with
      | None => (ctx, -1)
      | Some (len, off) =>
          let b := {| buf_start := if mmap_ok env i then Mapped off else Map_failed;
                      buf_length := len |} in
          let ctx := set_v4l2_buffers ctx
                       (<[Z.to_nat i := b]> (v4l2_buffers ctx)) in
          if mmap_ok env i then map_buffers n' (i + 1) ctx env
          else (ctx, -1)
      end
  end.

Definition v4l2_init (ctx : camera_context_t) (env : v4l2_env)
    : camera_context_t * Z :=
  let ctx := set_v4l2_fd ctx (open_result env) in
  if v4l2_fd ctx <? 0 then (ctx, -1) else
  match querycap_result env with
  | None => (ctx, -1)
  | Some capabilities =>
    if Z.land capabilities V4L2_CAP_VIDEO_CAPTURE =? 0 then (ctx, -1) else
    if Z.land capabilities V4L2_CAP_STREAMING =? 0 then (ctx, -1) else
    match s_fmt_result env with
    | None => (ctx, -1)
    | Some (pixelformat, fmt_width, fmt_height) =>
      if negb (pixelformat =? V4L2_PIX_FMT_MJPEG) then (ctx, -1) else
      let ctx := set_geometry ctx (int32 fmt_width) (int32 fmt_height) in
      (* VIDIOC_S_PARM: a failure is reported and ignored *)
      match reqbufs_result env with
      | None => (ctx, -1)
      | Some count =>
        if count <? 2 then (ctx, -1) else
        let ctx := set_buffer_count ctx (int32 count) in
        map_buffers (Z.to_nat (buffer_count ctx)) 0 ctx env
      end
    end
  end.

(** *** Decoder initialisation *)

(** Outcomes of the decoder library calls of [mpp_decoder_init];
    [buffer_get_ok i false] is the packet buffer of slot [i],
    [buffer_get_ok i true] its frame buffer. *)
Record mpp_env : Type := {
  mpp_create_ok : bool;
  mpp_init_ok : bool;
  get_cfg_ok : bool;
  buffer_group_get_ok : bool;
  buffer_get_ok : Z -> bool -> bool
}.

(** The allocation loop of [mpp_decoder_init]. *)
Fixpoint alloc_decode_bufs (n : nat) (i : Z) (pkt_size frm_size : Z)
    (ctx : camera_context_t) (env : mpp_env) : camera_context_t * Z :=
  match n with
  | O => (ctx, 0)
  | S n' =>
      let slot := default null_decode_buffer (decode_bufs ctx !! Z.to_nat i) in
      if negb (buffer_get_ok env i false) then (ctx, -1) else
      let slot := {| pkt_buf := true; frm_buf := frm_buf slot;
                     pkt_buf_size := pkt_size;
                     frm_buf_size := frm_buf_size slot |} in
      let ctx := set_decode_bufs ctx (<[Z.to_nat i := slot]> (decode_bufs ctx)) in
      if negb (buffer_get_ok env i true) then (ctx, -1) else
      let slot := {| pkt_buf := true; frm_buf := true;
                     pkt_buf_size := pkt_size; frm_buf_size := frm_size |} in
      let ctx := set_decode_bufs ctx (<[Z.to_nat i := slot]> (decode_bufs ctx)) in
      alloc_decode_bufs n' (i + 1) pkt_size frm_size ctx env
  end.

Definition mpp_decoder_init (ctx : camera_context_t) (env : mpp_env)
    : camera_context_t * Z :=
  if negb (mpp_create_ok env) then (ctx, -1) else
  let ctx := set_mpp_handles ctx true true in
  if negb (mpp_init_ok env) then (ctx, -1) else
  if negb (buffer_group_get_ok env) then (ctx, -1) else
  let ctx := set_frm_grp ctx true in
  let hor_stride := u32 (ALIGN (width ctx) 16) in
  let ver_stride := u32 (ALIGN (height ctx) 16) in
  let pkt_size := size_t (int32 (width ctx * height ctx)) in
  let frm_size := size_t (u32 (hor_stride * ver_stride * 4)) in
  match alloc_decode_bufs (Z.to_nat MPP_BUFFER_COUNT) 0 pkt_size frm_size ctx env with
  | (ctx, 0) => (set_mpp_ready ctx 0 1, 0)
  | (ctx, r) => (ctx, r)
  end.

(** *** [camera_init] *)

Record init_env : Type := {
  calloc_ok : bool;
  v4l2 : v4l2_env;
  mpp : mpp_env;
  malloc0_ok : bool;
  malloc1_ok : bool;
  (* what the fresh memory holds, byte by byte *)
  heap_garbage : Z -> Z
}.

(** A fresh block of [size] bytes. *)
Definition fresh_block (garbage : Z -> Z) (size : Z) : list Z :=
  garbage <$> seqZ 0 size.

(** [camera_init]; [None] is the NULL handle (the context is released by
    [camera_deinit] on every failure after its allocation). *)
Definition camera_init (device : option String.string) (width height fps : Z)
    (env : init_env) : option camera_context_t :=
  match device with
  | None => None
  | Some _ =>
    if (width <=? 0) || (height <=? 0) || (fps <=? 0) then None else
    if negb (calloc_ok env) then None else
    let ctx :=
      {| v4l2_fd := -1;
         v4l2_buffers := v4l2_buffers zeroed_context;
         buffer_count := 0; width := width; height := height; fps := fps;
         mpp_ctx := false; mpp_mpi := false; frm_grp := false;
         decode_bufs := decode_bufs zeroed_context;
         current_buf_idx := 0; mpp_initialized := 0;
         bgra_buffer := bgra_buffer zeroed_context;
         bgra_write_idx := 0; bgra_buffer_size := 0;
         running := 0; thread_started := 0;
         callback := None; user_data := 0;
         frame_count := 0; decode_count := 0 |} in
    match v4l2_init ctx (v4l2 env) with
    | (ctx, 0) =>
      match mpp_decoder_init ctx (mpp env) with
      | (ctx, 0) =>
        let size := int32 (width * height * 4) in
        if malloc0_ok env && malloc1_ok env then
          Some (set_bgra ctx
                  [fresh_block (heap_garbage env) size;
                   fresh_block (heap_garbage env) size]
                  size)
        else None
      | (_, _) => None
      end
    | (_, _) => None
    end
  end.

(** *** Start, stop and the synchronous read *)

(** What the context does to the kernel, to threads and to the caller. *)
Inductive camera_effect : Type :=
  | Queue_buffer (index : Z)            (* VIDIOC_QBUF issued *)
  | Dequeue_buffer (index : Z)          (* VIDIOC_DQBUF returned a buffer *)
  | Stream_on
  | Stream_off
  | Thread_create (realtime : bool)
  | Thread_join
  | Frame_callback (cb : nat) (user_data : Z) (slot : Z)
      (width height stride : Z).

(** Outcomes of the calls of [camera_start]: VIDIOC_QBUF for buffer [i],
    VIDIOC_STREAMON, [pthread_create] with the real-time attributes and
    with the default ones. *)
Record start_env : Type := {
  qbuf_ok : Z -> bool;
  streamon_ok : bool;
  create_realtime_ok : bool;
  create_default_ok : bool
}.

(** The queueing loop of [v4l2_start_streaming]. *)
Fixpoint queue_all (n : nat) (i : Z) (env : start_env)
    : Z * list camera_effect :=
  match n with
  | O => (0, [])
  | S n' =>
      if qbuf_ok env i then
        let '(r, eff) := queue_all n' (i + 1) env in
        (r, Queue_buffer i :: eff)
      else (-1, [Queue_buffer i])
  end.

Definition v4l2_start_streaming (ctx : camera_context_t) (env : start_env)
    : Z * list camera_effect :=
  match queue_all (Z.to_nat (buffer_count ctx)) 0 env with
  | (0, eff) =>
      if streamon_ok env then (0, eff ++ [Stream_on])
      else (-1, eff ++ [Stream_on])
  | (r, eff) => (r, eff)
  end.

(** [camera_start].  A worker thread that has been created runs its
    first statement, [ctx->thread_started = 1], before the wait loop of
    [camera_start] ends. *)
Definition camera_start (handle : option camera_context_t)
    (callback : option nat) (user_data : Z) (env : start_env)
    : option camera_context_t * camera_error_t * list camera_effect :=
  match handle with
  | None => (None, CAMERA_ERROR_INVALID_PARAM, [])
  | Some ctx =>
      if negb (running ctx =? 0) then (Some ctx, CAMERA_OK, []) else
      let ctx := set_callback ctx callback user_data in
      let ctx := set_running ctx 1 in
      let ctx := set_thread_started ctx 0 in
      let ctx := set_counters ctx 0 0 in
      match v4l2_start_streaming ctx env with
      | (0, eff) =>
          if create_realtime_ok env then
            (Some (set_thread_started ctx 1), CAMERA_OK,
             eff ++ [Thread_create true])
          else if create_default_ok env then
            (Some (set_thread_started ctx 1), CAMERA_OK,
             eff ++ [Thread_create false])
          else
            (Some (set_running ctx 0), CAMERA_ERROR_V4L2_INIT_FAILED,
             eff ++ [Stream_off])
      | (_, eff) =>
          (Some (set_running ctx 0), CAMERA_ERROR_V4L2_INIT_FAILED, eff)
      end
  end.

Definition camera_stop (handle : option camera_context_t)
    : option camera_context_t * camera_error_t * list camera_effect :=
  match handle with
  | None => (None, CAMERA_ERROR_INVALID_PARAM, [])
  | Some ctx =>
      if running ctx =? 0 then (Some ctx, CAMERA_OK, []) else
      let ctx := set_running ctx 0 in
      if negb (thread_started ctx =? 0) then
        (Some (set_thread_started ctx 0), CAMERA_OK, [Thread_join; Stream_off])
      else (Some ctx, CAMERA_OK, [Stream_off])
  end.

Definition camera_is_running (handle : option camera_context_t) : bool :=
  match handle with
  | None => false
  | Some ctx => negb (running ctx =? 0)
  end.

(** [memcpy(dst, src, n)] on byte buffers. *)
Definition memcpy (dst src : list Z) (n : Z) : list Z :=
  take (Z.to_nat n) src ++ drop (Z.to_nat n) dst.

(** [*p = v] when [p] is not NULL; a pointer to an [int] is the [int] it
    points to. *)
Definition store_out (p : option Z) (v : Z) : option Z :=
  match p with
  | None => None
  | Some _ => Some v
  end.

(** [camera_capture_frame]: the error code and what the three output
    pointers point to afterwards. *)
Definition camera_capture_frame (handle : option camera_context_t)
    (bgra_data : option (list Z)) (buffer_size : Z)
    (width_out height_out : option Z) (timeout_ms : Z)
    : camera_error_t * option (list Z) * option Z * option Z :=
  match handle, bgra_data with
  | Some ctx, Some dst =>
      if running ctx =? 0
      then (CAMERA_ERROR_NOT_RUNNING, bgra_data, width_out, height_out)
      else if buffer_size <? bgra_buffer_size ctx
      then (CAMERA_ERROR_INVALID_PARAM, bgra_data, width_out, height_out)
      else
        let read_idx := 1 - bgra_write_idx ctx in
        let src := default [] (bgra_buffer ctx !! Z.to_nat read_idx) in
        (CAMERA_OK,
         Some (memcpy dst src (bgra_buffer_size ctx)),
         store_out width_out (width ctx),
         store_out height_out (height ctx))
  | _, _ => (CAMERA_ERROR_INVALID_PARAM, bgra_data, width_out, height_out)
  end.

(** *** Decoding one packet *)

(** The frame found in the output task. *)
Record decoded_frame : Type := {
  f_buffer : option (list Z);
  f_errinfo : Z;
  f_width : Z;
  f_height : Z;
  f_hor_stride : Z;
  f_ver_stride : Z;
  f_fmt : MppFrameFormat
}.

(** Outcomes of the decoder calls of one decode, in program order; a
    dequeue is ok when it returns MPP_OK and a task. *)
Record decode_env : Type := {
  packet_init_ok : bool;
  frame_init_ok : bool;
  poll_input_ok : bool;
  dequeue_input_ok : bool;
  enqueue_input_ok : bool;
  poll_output_ok : bool;
  dequeue_output_ok : bool;
  out_frame : option decoded_frame
}.

(** [decode_mjpeg_to_bgra_fast], as built without [USE_RGA]: the context
    afterwards and the return value. *)
Definition decode_mjpeg_to_bgra_fast (ctx : camera_context_t)
    (env : decode_env) (mjpeg_size : Z) : camera_context_t * Z :=
  let buf_idx := current_buf_idx ctx in
  let ctx := set_current_buf_idx ctx
               (Z.rem (current_buf_idx ctx + 1) MPP_BUFFER_COUNT) in
  let dec_buf := default null_decode_buffer
                   (decode_bufs ctx !! Z.to_nat buf_idx) in
  if pkt_buf_size dec_buf <? mjpeg_size then (ctx, -1) else
  if negb (packet_init_ok env) then (ctx, -1) else
  if negb (frame_init_ok env) then (ctx, -1) else
  if negb (poll_input_ok env) then (ctx, -1) else
  if negb (dequeue_input_ok env) then (ctx, -1) else
  if negb (enqueue_input_ok env) then (ctx, -1) else
  if negb (poll_output_ok env) then (ctx, -1) else
  if negb (dequeue_output_ok env) then (ctx, -1) else
  match out_frame env with
  | None => (ctx, -1)
  | Some f =>
      match f_buffer f with
      | None => (ctx, -1)
      | Some yuv_data =>
          if negb (f_errinfo f =? 0) then (ctx, -1) else
          let write_idx := bgra_write_idx ctx in
          let out_buf_ptr := default [] (bgra_buffer ctx !! Z.to_nat write_idx) in
          let converted :=
            yuv_to_bgra_cpu yuv_data out_buf_ptr (f_width f) (f_height f)
              (f_hor_stride f) (f_ver_stride f) (f_fmt f) in
          let ctx := set_bgra_buffer ctx
                       (<[Z.to_nat write_idx := converted]> (bgra_buffer ctx)) in
          let ctx := set_bgra_write_idx ctx (1 - write_idx) in
          let ctx := set_decode_count ctx (int32 (decode_count ctx + 1)) in
          (ctx, 0)
      end
  end.

(** *** The capture worker *)

(** [select]: an error (with [errno == EINTR] or not), a timeout, or
    readiness.  VIDIOC_DQBUF through [xioctl]: an error (with
    [errno == EAGAIN] or not) or the index and bytes-used of a buffer. *)
Inductive select_result : Type :=
  | Select_error (eintr : bool)
  | Select_timeout
  | Select_ready.

Inductive dqbuf_result : Type :=
  | Dqbuf_error (eagain : bool)
  | Dqbuf_ok (index bytesused : Z).

Record iteration_env : Type := {
  select_r : select_result;
  dqbuf_r : dqbuf_result;
  dec : decode_env;
  requeue_ok : bool
}.

Inductive loop_status : Type :=
  | Loop_continue
  | Loop_break.

(** Decode step and callback of one iteration (lines "if (buf.bytesused
    > 0) ..." of [capture_thread_func]). *)
Definition decode_and_notify (ctx : camera_context_t) (env : decode_env)
    (bytesused : Z) : camera_context_t * list camera_effect :=
  if 0 <? bytesused then
    let '(ctx, decode_ret) := decode_mjpeg_to_bgra_fast ctx env bytesused in
    if decode_ret =? 0 then
      match callback ctx with
      | Some cb =>
          let read_idx := 1 - bgra_write_idx ctx in
          (ctx, [Frame_callback cb (user_data ctx) read_idx
                   (width ctx) (height ctx) (int32 (width ctx * 4))])
      | None => (ctx, [])
      end
    else (ctx, [])
  else (ctx, []).

(** One evaluation of the loop condition and body of
    [capture_thread_func]. *)
Definition capture_iteration (ctx : camera_context_t) (env : iteration_env)
    : camera_context_t * list camera_effect * loop_status :=
  if running ctx =? 0 then (ctx, [], Loop_break) else
  match select_r env with
  | Select_error eintr =>
      (ctx, [], if eintr then Loop_continue else Loop_break)
  | Select_timeout => (ctx, [], Loop_continue)
  | Select_ready =>
      match dqbuf_r env with
      | Dqbuf_error eagain =>
          (ctx, [], if eagain then Loop_continue else Loop_break)
      | Dqbuf_ok index bytesused =>
          let ctx := set_frame_count ctx (int32 (frame_count ctx + 1)) in
          let '(ctx, eff) := decode_and_notify ctx (dec env) bytesused in
          (ctx,
           Dequeue_buffer index :: eff ++ [Queue_buffer index],
           if requeue_ok env then Loop_continue else Loop_break)
      end
  end.

(** [capture_thread_func]: the worker announces itself and runs the loop.
    Each step carries [true] when [camera_stop] has cleared [running]
    since the previous evaluation of the loop condition. *)
Fixpoint capture_loop (steps : list (bool * iteration_env))
    (ctx : camera_context_t) : camera_context_t * list camera_effect :=
  match steps with
  | [] => (ctx, [])
  | (stopped, env) :: rest =>
      let ctx := if stopped then set_running ctx 0 else ctx in
      match capture_iteration ctx env with
      | (ctx, eff, Loop_continue) =>
          let '(ctx, eff') := capture_loop rest ctx in (ctx, eff ++ eff')
      | (ctx, eff, Loop_break) => (ctx, eff)
      end
  end.

Definition capture_thread_func (steps : list (bool * iteration_env))
    (ctx : camera_context_t) : camera_context_t * list camera_effect :=
  capture_loop steps (set_thread_started ctx 1).

(** Whether the decode of an iteration that dequeued [bytesused] bytes
    succeeded. *)
Definition decode_succeeded (ctx : camera_context_t) (env : decode_env)
    (bytesused : Z) : bool :=
  (0 <? bytesused) &&
  (snd (decode_mjpeg_to_bgra_fast ctx env bytesused) =? 0).

(** *** Sample outcomes and contexts *)

(** A driver that grants MJPEG at [w] x [h] and [count] buffers, whatever
    was asked for, and a decoder library that never fails. *)
Definition driver (w h count : Z) : v4l2_env :=
  {| open_result := 3;
     querycap_result := Some (Z.lor V4L2_CAP_VIDEO_CAPTURE V4L2_CAP_STREAMING);
     s_fmt_result := Some (V4L2_PIX_FMT_MJPEG, w, h);
     s_parm_ok := true;
     reqbufs_result := Some count;
     querybuf_result := fun i => Some (w * h, i * (w * h));
     mmap_ok := fun _ => true |}.

Definition decoder_ok : mpp_env :=
  {| mpp_create_ok := true; mpp_init_ok := true; get_cfg_ok := true;
     buffer_group_get_ok := true; buffer_get_ok := fun _ _ => true |}.

Definition init_with (d : v4l2_env) : init_env :=
  {| calloc_ok := true; v4l2 := d; mpp := decoder_ok;
     malloc0_ok := true; malloc1_ok := true; heap_garbage := fun _ => 0 |}.

Definition start_ok : start_env :=
  {| qbuf_ok := fun _ => true; streamon_ok := true;
     create_realtime_ok := true; create_default_ok := true |}.

Definition sample_device : String.string := "/dev/video0"%string.

(** A 4x2 camera, initialised and started with callback 7. *)
Definition small_camera : option camera_context_t :=
  fst (fst (camera_start
              (camera_init (Some sample_device) 4 2 30
                 (init_with (driver 4 2 4)))
              (Some 7%nat) 0 start_ok)).

(** A decode that fails at the non-blocking poll of the input port, and
    an iteration that dequeues buffer 2 with 100 bytes and meets it. *)
Definition decode_input_busy : decode_env :=
  {| packet_init_ok := true; frame_init_ok := true; poll_input_ok := false;
     dequeue_input_ok := true; enqueue_input_ok := true;
     poll_output_ok := true; dequeue_output_ok := true; out_frame := None |}.

Definition iteration_decode_fails : iteration_env :=
  {| select_r := Select_ready; dqbuf_r := Dqbuf_ok 2 100;
     dec := decode_input_busy; requeue_ok := true |}.

(** Whether VIDIOC_QUERYBUF and [mmap] succeed for the first [n] buffers. *)
Definition buffers_mappable (env : v4l2_env) (n : Z) : Prop :=
  forall i, 0 <= i < n ->
    is_Some (querybuf_result env i) /\ mmap_ok env i = true.

(** The buffer published by the frame exchange: the one that is not
    being written. *)
Definition published (ctx : camera_context_t) : list Z :=
  default [] (bgra_buffer ctx !! Z.to_nat (1 - bgra_write_idx ctx)).

End Camera.

(** ** Facts about the capture context *)

Module CameraFacts.
Import Convert Camera.

Lemma int32_small x : - 2 ^ 31 <= x < 2 ^ 31 -> int32 x = x.
Proof. intros H. unfold int32. rewrite Z.mod_small; lia. Qed.

Ltac case_ifs :=
  repeat match goal with
         | |- context [if ?b then _ else _] => destruct b; simpl; try reflexivity
         end.

(** The decoder leaves the frame counter alone and counts exactly the
    decodes it reports as successful. *)
Lemma decode_counts (ctx : camera_context_t) (env : decode_env) (size : Z) :
  let '(ctx', ret) := decode_mjpeg_to_bgra_fast ctx env size in
  frame_count ctx' = frame_count ctx /\
  (ret = 0 \/ ret = -1) /\
  decode_count ctx'
  = (if ret =? 0 then int32 (decode_count ctx + 1) else decode_count ctx).
Proof.
  unfold decode_mjpeg_to_bgra_fast.
  repeat match goal with
         | |- context [if ?b then _ else _] => destruct b; simpl; [auto|]
         end.
  destruct (out_frame env) as [f|]; simpl; [|auto].
  destruct (f_buffer f) as [yuv|]; simpl; [|auto].
  destruct (f_errinfo f =? 0); simpl; auto.
Qed.

Lemma decode_ret_frame_count_irrelevant ctx env size v :
  snd (decode_mjpeg_to_bgra_fast (set_frame_count ctx v) env size)
  = snd (decode_mjpeg_to_bgra_fast ctx env size).
Proof.
  unfold decode_mjpeg_to_bgra_fast. simpl.
  case_ifs.
  destruct (out_frame env) as [f|]; simpl; [|reflexivity].
  destruct (f_buffer f) as [yuv|]; simpl; [|reflexivity].
  destruct (f_errinfo f =? 0); reflexivity.
Qed.

Lemma decode_and_notify_spec ctx env bytesused :
  let '(ctx', eff) := decode_and_notify ctx env bytesused in
  frame_count ctx' = frame_count ctx /\
  (forall i, Queue_buffer i ∉ eff) /\
  decode_count ctx'
  = (if decode_succeeded ctx env bytesused
     then int32 (decode_count ctx + 1) else decode_count ctx).
Proof.
  unfold decode_and_notify, decode_succeeded.
  destruct (0 <? bytesused); simpl.
  - pose proof (decode_counts ctx env bytesused) as H.
    destruct (decode_mjpeg_to_bgra_fast ctx env bytesused) as [ctx' ret].
    destruct H as (Hf & Hr & Hd). simpl.
    destruct (ret =? 0).
    + destruct (callback ctx') as [cb|]; (split; [exact Hf|split; [|exact Hd]]).
      * intros i Hin. apply list_elem_of_singleton in Hin. discriminate.
      * intros i Hin. inversion Hin.
    + split; [exact Hf|split; [|exact Hd]]. intros i Hin. inversion Hin.
  - split; [reflexivity|split; [|reflexivity]]. intros i Hin. inversion Hin.
Qed.

(** C4: an iteration of the capture loop that dequeues buffer [index]
    adds one to the frame counter (in [int] arithmetic), issues the
    requeue of that buffer exactly once, as its last action, whatever the
    decode did (succeeded, failed, or was skipped because bytes-used is
    0), and adds one to the decode counter exactly when the decode
    succeeded.  Whether the loop goes on depends on the requeue alone: a
    failed decode does not end it, and when the requeue succeeds the
    worker goes on with the rest of its loop. *)
Theorem dequeued_buffer_counted_and_requeued
    (ctx : camera_context_t) (env : iteration_env) (index bytesused : Z) :
  running ctx <> 0 ->
  select_r env = Select_ready ->
  dqbuf_r env = Dqbuf_ok index bytesused ->
  exists ctx' mid,
    capture_iteration ctx env
    = (ctx', Dequeue_buffer index :: mid ++ [Queue_buffer index],
       if requeue_ok env then Loop_continue else Loop_break) /\
    (forall i, Queue_buffer i ∉ mid) /\
    frame_count ctx' = int32 (frame_count ctx + 1) /\
    (- 2 ^ 31 <= frame_count ctx < 2 ^ 31 - 1 ->
       frame_count ctx' = frame_count ctx + 1) /\
    decode_count ctx'
    = (if decode_succeeded ctx (dec env) bytesused
       then int32 (decode_count ctx + 1) else decode_count ctx) /\
    (decode_succeeded ctx (dec env) bytesused = false ->
       decode_count ctx' = decode_count ctx) /\
    (requeue_ok env = true ->
       forall rest,
         capture_loop ((false, env) :: rest) ctx
         = (fst (capture_loop rest ctx'),
            (Dequeue_buffer index :: mid ++ [Queue_buffer index])
              ++ snd (capture_loop rest ctx'))).
Proof.
  intros Hrun Hsel Hdq. unfold capture_iteration.
  destruct (Z.eqb_spec (running ctx) 0) as [E|_]; [contradiction|].
  rewrite Hsel, Hdq.
  pose proof (decode_and_notify_spec
                (set_frame_count ctx (int32 (frame_count ctx + 1)))
                (dec env) bytesused) as H.
  destruct (decode_and_notify _ (dec env) bytesused) as [ctx' eff] eqn:Hit.
  destruct H as (Hf & Hq & Hd).
  assert (Hs : decode_succeeded
                 (set_frame_count ctx (int32 (frame_count ctx + 1)))
                 (dec env) bytesused
               = decode_succeeded ctx (dec env) bytesused).
  { unfold decode_succeeded. rewrite decode_ret_frame_count_irrelevant.
    reflexivity. }
  rewrite Hs in Hd. simpl in Hf, Hd.
  exists ctx', eff. split; [reflexivity|].
  split; [exact Hq|]. split; [exact Hf|].
  split; [intros Hr; rewrite Hf; apply int32_small; lia|].
  split; [exact Hd|].
  split; [intros Hfail; rewrite Hd, Hfail; reflexivity|].
  intros Hre rest. simpl. unfold capture_iteration.
  destruct (Z.eqb_spec (running ctx) 0) as [E|_]; [contradiction|].
  rewrite Hsel, Hdq, Hit, Hre.
  destruct (capture_loop rest ctx') as [ctx'' eff']. reflexivity.
Qed.


Lemma dequeued_buffer_counted_and_requeued_witness :
  match small_camera with
  | Some ctx =>
      exists ctx' mid,
        capture_iteration ctx iteration_decode_fails
        = (ctx', Dequeue_buffer 2 :: mid ++ [Queue_buffer 2], Loop_continue) /\
        frame_count ctx' = 1 /\ decode_count ctx' = 0
  | None => False
  end.
Proof.
  destruct small_camera as [ctx|] eqn:E; vm_compute in E; [|discriminate E].
  injection E as <-.
  match goal with |- context [capture_iteration ?c _] => set (ctx := c) end.
  assert (Hrun : running ctx <> 0) by discriminate.
  destruct (dequeued_buffer_counted_and_requeued ctx iteration_decode_fails
              2 100 Hrun eq_refl eq_refl)
    as (ctx' & mid & Hit & _ & Hfc & _ & _ & Hdc & _).
  exists ctx', mid. split; [exact Hit|]. split.
  - rewrite Hfc. reflexivity.
  - rewrite Hdc; reflexivity.
Defined.


Lemma map_buffers_ok (env : v4l2_env) (n : nat) : forall i ctx,
  0 <= i ->
  buffers_mappable env (i + Z.of_nat n) ->
  exists ctx', map_buffers n i ctx env = (ctx', 0) /\
    width ctx' = width ctx /\ height ctx' = height ctx /\
    buffer_count ctx' = buffer_count ctx.
Proof.
  induction n as [|n IH]; intros i ctx Hi Hmap; simpl.
  - eexists; repeat split.
  - destruct (Hmap i) as [[[len off] Hq] Hm]; [lia|].
    rewrite Hq, Hm.
    edestruct (IH (i + 1)) as (ctx' & Hrun & Hw & Hh & Hc);
      [lia | | exists ctx'; split; [exact Hrun|]; simpl in *; auto].
    intros j Hj. apply Hmap. lia.
Qed.

(** C6 (the code does otherwise in one place).  [v4l2_init] fails when
    the driver leaves a pixel format other than MJPEG, and when it grants
    fewer than two buffers; when all calls succeed it returns 0 and the
    context carries the width and height the driver returned.  But
    [camera_init] then sizes the two BGRA buffers from the dimensions it
    was called with: asked for 640x480 from a driver that returns
    1280x720, it yields a context of 1280x720, decode slots sized for
    1280x720, and BGRA buffers of 640*480*4 bytes. *)
Theorem bgra_buffers_sized_by_request :
  (forall ctx env pf w h,
     s_fmt_result env = Some (pf, w, h) -> pf <> V4L2_PIX_FMT_MJPEG ->
     snd (v4l2_init ctx env) = -1) /\
  (forall ctx env n,
     reqbufs_result env = Some n -> n < 2 -> snd (v4l2_init ctx env) = -1) /\
  (forall ctx env caps w h n,
     0 <= open_result env ->
     querycap_result env = Some caps ->
     Z.land caps V4L2_CAP_VIDEO_CAPTURE <> 0 ->
     Z.land caps V4L2_CAP_STREAMING <> 0 ->
     s_fmt_result env = Some (V4L2_PIX_FMT_MJPEG, w, h) ->
     0 <= w < 2 ^ 31 -> 0 <= h < 2 ^ 31 ->
     reqbufs_result env = Some n -> 2 <= n < 2 ^ 31 ->
     buffers_mappable env n ->
     exists ctx', v4l2_init ctx env = (ctx', 0) /\
       width ctx' = w /\ height ctx' = h /\ buffer_count ctx' = n) /\
  exists ctx,
    camera_init (Some sample_device) 640 480 30
      (init_with (driver 1280 720 4)) = Some ctx /\
    width ctx = 1280 /\ height ctx = 720 /\
    pkt_buf_size <$> decode_bufs ctx = replicate 8 (1280 * 720) /\
    frm_buf_size <$> decode_bufs ctx = replicate 8 (1280 * 720 * 4) /\
    bgra_buffer_size ctx = 640 * 480 * 4 /\
    bgra_buffer_size ctx < width ctx * height ctx * 4.
Proof.
  split; [|split; [|split]].
  - intros ctx env pf w h Hfmt Hpf. unfold v4l2_init. simpl.
    destruct (open_result env <? 0); [reflexivity|].
    destruct (querycap_result env) as [caps|]; [|reflexivity].
    destruct (Z.land caps V4L2_CAP_VIDEO_CAPTURE =? 0); [reflexivity|].
    destruct (Z.land caps V4L2_CAP_STREAMING =? 0); [reflexivity|].
    rewrite Hfmt.
    destruct (Z.eqb_spec pf V4L2_PIX_FMT_MJPEG); [contradiction|reflexivity].
  - intros ctx env n Hreq Hn. unfold v4l2_init. simpl.
    destruct (open_result env <? 0); [reflexivity|].
    destruct (querycap_result env) as [caps|]; [|reflexivity].
    destruct (Z.land caps V4L2_CAP_VIDEO_CAPTURE =? 0); [reflexivity|].
    destruct (Z.land caps V4L2_CAP_STREAMING =? 0); [reflexivity|].
    destruct (s_fmt_result env) as [[[pf w] h]|]; [|reflexivity].
    destruct (pf =? V4L2_PIX_FMT_MJPEG); [|reflexivity]. simpl.
    rewrite Hreq.
    destruct (Z.ltb_spec n 2); [reflexivity|lia].
  - intros ctx env caps w h n Hopen Hcap Hc1 Hc2 Hfmt Hw Hh Hreq Hn Hmap.
    unfold v4l2_init. simpl.
    destruct (Z.ltb_spec (open_result env) 0); [lia|].
    rewrite Hcap.
    destruct (Z.eqb_spec (Z.land caps V4L2_CAP_VIDEO_CAPTURE) 0); [contradiction|].
    destruct (Z.eqb_spec (Z.land caps V4L2_CAP_STREAMING) 0); [contradiction|].
    rewrite Hfmt, Z.eqb_refl. simpl. rewrite Hreq.
    destruct (Z.ltb_spec n 2); [lia|].
    rewrite !int32_small by lia.
    edestruct (map_buffers_ok env (Z.to_nat n) 0) as (ctx' & Hrun & Hw' & Hh' & Hc');
      [lia | | exists ctx'; split; [exact Hrun|]; simpl in *; auto].
    rewrite Z2Nat.id by lia. exact Hmap.
  - eexists. split; [cbv -[fresh_block]; reflexivity|].
    repeat split; vm_compute; reflexivity.
Qed.

End CameraFacts.

(** ** Start and stop of the two contexts *)

Module Lifecycle.

Lemma run_call_pipeline c ctx ctx' :
  Player.run_call c (Some ctx) = Some ctx' ->
  Player.pipeline ctx' = Player.pipeline ctx.
Proof.
  destruct c; simpl.
  - destruct (Player.video_sink ctx); simpl; intros [= <-]; reflexivity.
  - intros [= <-]; reflexivity.
  - destruct (Player.pipeline ctx) eqn:Hp; simpl;
      [|intros [= <-]; exact Hp].
    destruct (Player.playing ctx); simpl; [intros [= <-]; exact Hp|].
    destruct state_change_ok; simpl; intros [= <-]; exact Hp.
  - destruct (Player.playing ctx); simpl; intros [= <-]; reflexivity.
  - destruct boxes as [bs|]; simpl; [|intros [= <-]; reflexivity].
    destruct (0 <? count); simpl; intros [= <-]; reflexivity.
  - intros [= <-]; reflexivity.
  - destruct caps as [[[w h]|]|]; simpl; intros [= <-]; reflexivity.
  - intros [= <-]; reflexivity.
Qed.

Lemma run_call_some c h ctx' :
  Player.run_call c h = Some ctx' -> exists ctx, h = Some ctx.
Proof.
  destruct h as [ctx|]; [eauto|]. destruct c; simpl; discriminate.
Qed.

(** A player that was created has a pipeline, and keeps it. *)
Lemma created_player_has_pipeline g config env calls : forall ctx,
  Player.run_calls calls (snd (Player.gst_player_create g config env)) = Some ctx ->
  Player.pipeline ctx = true.
Proof.
  unfold Player.run_calls.
  induction calls as [|c calls IH] using rev_ind; intros ctx; simpl.
  - unfold Player.gst_player_create.
    destruct config as [config|]; [|discriminate].
    destruct (Player.cfg_device config); [|discriminate].
    destruct (Player.gst_player_global_init g env) as [g' []]; try discriminate.
    destruct (Player.calloc_ok env); [|discriminate].
    destruct (Player.build_pipeline_string_ok config env); [|discriminate].
    destruct (Player.parse_launch_ok env); [|discriminate].
    simpl. intros [= <-]. reflexivity.
  - rewrite foldl_app. simpl. intros H.
    destruct (run_call_some _ _ _ H) as [ctx0 H0].
    rewrite H0 in H. rewrite (run_call_pipeline _ _ _ H). apply IH. exact H0.
Qed.

(** C8: [camera_start] on a running context and [gst_player_start] on a
    playing player return OK, leave the context as it is and have no
    effect (no thread is created, callback and counters stay);
    [camera_stop] on a context that is not running and [gst_player_stop]
    on a player that is not playing do the same.  Hence a start after a
    start that returned OK, and a stop after a stop, change nothing. *)
Theorem start_stop_idempotent :
  (forall ctx cb ud env,
     Camera.running ctx <> 0 ->
     Camera.camera_start (Some ctx) cb ud env
     = (Some ctx, Camera.CAMERA_OK, [])) /\
  (forall g config env calls ctx now ok,
     Player.run_calls calls (snd (Player.gst_player_create g config env))
       = Some ctx ->
     Player.playing ctx = true ->
     Player.gst_player_start (Some ctx) now ok
     = (Some ctx, Player.GST_PLAYER_OK, [])) /\
  (forall ctx,
     Camera.running ctx = 0 ->
     Camera.camera_stop (Some ctx) = (Some ctx, Camera.CAMERA_OK, [])) /\
  (forall ctx,
     Player.playing ctx = false ->
     Player.gst_player_stop (Some ctx) = (Some ctx, Player.GST_PLAYER_OK, [])) /\
  (forall ctx cb ud env cb' ud' env' h1 eff,
     Camera.camera_start (Some ctx) cb ud env = (h1, Camera.CAMERA_OK, eff) ->
     Camera.camera_start h1 cb' ud' env' = (h1, Camera.CAMERA_OK, [])) /\
  (forall ctx now ok now' ok' h1 eff,
     Player.gst_player_start (Some ctx) now ok = (h1, Player.GST_PLAYER_OK, eff) ->
     Player.gst_player_start h1 now' ok' = (h1, Player.GST_PLAYER_OK, [])) /\
  (forall ctx h1 e eff,
     Camera.camera_stop (Some ctx) = (h1, e, eff) ->
     e = Camera.CAMERA_OK /\
     Camera.camera_stop h1 = (h1, Camera.CAMERA_OK, [])) /\
  (forall ctx h1 e eff,
     Player.gst_player_stop (Some ctx) = (h1, e, eff) ->
     e = Player.GST_PLAYER_OK /\
     Player.gst_player_stop h1 = (h1, Player.GST_PLAYER_OK, [])).
Proof.
  repeat apply conj.
  - intros ctx cb ud env H. unfold Camera.camera_start.
    destruct (Z.eqb_spec (Camera.running ctx) 0); [contradiction|reflexivity].
  - intros g config env calls ctx now ok Hreach Hplay.
    unfold Player.gst_player_start.
    rewrite (created_player_has_pipeline _ _ _ _ _ Hreach), Hplay. reflexivity.
  - intros ctx H. unfold Camera.camera_stop. rewrite H. reflexivity.
  - intros ctx H. unfold Player.gst_player_stop. rewrite H. reflexivity.
  - intros ctx cb ud env cb' ud' env' h1 eff. unfold Camera.camera_start at 1.
    destruct (Z.eqb_spec (Camera.running ctx) 0) as [E|NE]; simpl.
    + destruct (Camera.v4l2_start_streaming _ env) as [[|p|p] eff0];
        try (intros [= <- _]; discriminate); try discriminate.
      destruct (Camera.create_realtime_ok env);
        [intros [= <- _]; reflexivity|].
      destruct (Camera.create_default_ok env);
        [intros [= <- _]; reflexivity|discriminate].
    + intros [= <- _]. unfold Camera.camera_start.
      destruct (Z.eqb_spec (Camera.running ctx) 0); [contradiction|reflexivity].
  - intros ctx now ok now' ok' h1 eff. unfold Player.gst_player_start at 1.
    destruct (Player.pipeline ctx) eqn:Hp; simpl; [|discriminate].
    destruct (Player.playing ctx) eqn:Hpl; simpl.
    + intros [= <- _]. unfold Player.gst_player_start. rewrite Hp, Hpl.
      reflexivity.
    + destruct ok; simpl; [|discriminate].
      intros [= <- _]. unfold Player.gst_player_start. simpl. rewrite Hp.
      reflexivity.
  - intros ctx h1 e eff. unfold Camera.camera_stop at 1.
    destruct (Z.eqb_spec (Camera.running ctx) 0) as [E|NE].
    + intros [= <- <- _]. split; [reflexivity|].
      unfold Camera.camera_stop. rewrite E. reflexivity.
    + simpl. destruct (Camera.thread_started ctx =? 0); simpl;
        intros [= <- <- _]; split; reflexivity.
  - intros ctx h1 e eff. unfold Player.gst_player_stop at 1.
    destruct (Player.playing ctx) eqn:Hpl; simpl.
    + intros [= <- <- _]. split; reflexivity.
    + intros [= <- <- _]. split; [reflexivity|].
      unfold Player.gst_player_stop. rewrite Hpl. reflexivity.
Qed.

Lemma start_stop_idempotent_witness :
  match Camera.small_camera with
  | Some ctx =>
      Camera.camera_start (Some ctx) None 5 Camera.start_ok
      = (Some ctx, Camera.CAMERA_OK, [])
  | None => False
  end
  /\ Player.gst_player_stop (Some Player.sample_ctx)
     = (Some Player.sample_ctx, Player.GST_PLAYER_OK, []).
Proof.
  destruct start_stop_idempotent as (Hcs & _ & _ & Hps & _).
  split.
  - destruct Camera.small_camera as [ctx|] eqn:E; vm_compute in E;
      [|discriminate E].
    injection E as <-. apply Hcs. discriminate.
  - apply Hps. reflexivity.
Defined.

End Lifecycle.

(** ** The frame exchange under interleaving

    The worker publishes in [decode_mjpeg_to_bgra_fast]: it reads
    [bgra_write_idx], converts into that buffer without holding the
    mutex, then locks, stores [1 - write_idx] and unlocks.  The reader is
    [camera_capture_frame].  Each statement is one atomic step; a step
    that takes a held mutex cannot be scheduled. *)

Module FrameExchange.

Inductive thread : Type :=
  | Worker
  | Reader.

Inductive worker_pc : Type :=
  | W_idle
  | W_writing (write_idx : Z)  (* after [int write_idx = ctx->bgra_write_idx]:
                                  the conversion writes bgra_buffer[write_idx] *)
  | W_locked (write_idx : Z)   (* after [pthread_mutex_lock] *)
  | W_swapped.                 (* after [ctx->bgra_write_idx = 1 - write_idx] *)

Inductive reader_pc : Type :=
  | R_entry
  | R_indexed (read_idx : Z)   (* [read_idx] computed, mutex not held *)
  | R_locked                   (* mutex held, [read_idx] not yet computed *)
  | R_copying (read_idx : Z)   (* mutex held: [memcpy] reads bgra_buffer[read_idx] *)
  | R_done.

(** The order of the reader's first two statements: the index first and
    then the lock, as [camera_capture_frame] has them, or the lock first,
    as the specification words it. *)
Inductive reader_order : Type :=
  | Index_then_lock
  | Lock_then_index.

Record state : Type := {
  bgra_write_idx : Z;
  frame_mutex : option thread;
  worker : worker_pc;
  reader : reader_pc
}.

Definition initial : state :=
  {| bgra_write_idx := 0; frame_mutex := None;
     worker := W_idle; reader := R_entry |}.

Definition free (s : state) : bool :=
  match frame_mutex s with
  | None => true
  | Some _ => false
  end.

Definition worker_step (s : state) : option state :=
  match worker s with
  | W_idle =>
      Some {| bgra_write_idx := bgra_write_idx s; frame_mutex := frame_mutex s;
              worker := W_writing (bgra_write_idx s); reader := reader s |}
  | W_writing w =>
      if free s then
        Some {| bgra_write_idx := bgra_write_idx s; frame_mutex := Some Worker;
                worker := W_locked w; reader := reader s |}
      else None
  | W_locked w =>
      Some {| bgra_write_idx := 1 - w; frame_mutex := frame_mutex s;
              worker := W_swapped; reader := reader s |}
  | W_swapped =>
      Some {| bgra_write_idx := bgra_write_idx s; frame_mutex := None;
              worker := W_idle; reader := reader s |}
  end.

Definition reader_step (o : reader_order) (s : state) : option state :=
  match reader s, o with
  | R_entry, Index_then_lock =>
      Some {| bgra_write_idx := bgra_write_idx s; frame_mutex := frame_mutex s;
              worker := worker s; reader := R_indexed (1 - bgra_write_idx s) |}
  | R_entry, Lock_then_index =>
      if free s then
        Some {| bgra_write_idx := bgra_write_idx s; frame_mutex := Some Reader;
                worker := worker s; reader := R_locked |}
      else None
  | R_indexed r, _ =>
      if free s then
        Some {| bgra_write_idx := bgra_write_idx s; frame_mutex := Some Reader;
                worker := worker s; reader := R_copying r |}
      else None
  | R_locked, _ =>
      Some {| bgra_write_idx := bgra_write_idx s; frame_mutex := frame_mutex s;
              worker := worker s; reader := R_copying (1 - bgra_write_idx s) |}
  | R_copying _, _ =>
      Some {| bgra_write_idx := bgra_write_idx s; frame_mutex := None;
              worker := worker s; reader := R_done |}
  | R_done, _ =>
      Some {| bgra_write_idx := bgra_write_idx s; frame_mutex := frame_mutex s;
              worker := worker s; reader := R_entry |}
  end.

Definition step (o : reader_order) (t : thread) (s : state) : option state :=
  match t with
  | Worker => worker_step s
  | Reader => reader_step o s
  end.

(** A schedule names the thread that takes each step. *)
Fixpoint run (o : reader_order) (schedule : list thread) (s : state)
    : option state :=
  match schedule with
  | [] => Some s
  | t :: rest =>
      match step o t s with
      | Some s' => run o rest s'
      | None => None
      end
  end.

(** The reader copies from the buffer the worker is writing. *)
Definition torn (s : state) : bool :=
  match worker s, reader s with
  | W_writing w, R_copying r => w =? r
  | _, _ => false
  end.

(** The reader computes its index; the worker converts a frame into
    buffer 0, publishes it and starts converting the next frame into
    buffer 1; the reader takes the mutex and copies. *)
Definition torn_schedule : list thread :=
  [Reader; Worker; Worker; Worker; Worker; Worker; Reader].

Definition worker_holds (pc : worker_pc) : bool :=
  match pc with
  | W_locked _ | W_swapped => true
  | _ => false
  end.

Definition reader_holds (pc : reader_pc) : bool :=
  match pc with
  | R_locked | R_copying _ => true
  | _ => false
  end.

(** What holds of every state the lock-first reader can meet. *)
Definition consistent (s : state) : Prop :=
  frame_mutex s
  = (if worker_holds (worker s) then Some Worker
     else if reader_holds (reader s) then Some Reader else None) /\
  worker_holds (worker s) && reader_holds (reader s) = false /\
  match worker s with
  | W_writing w | W_locked w => w = bgra_write_idx s
  | _ => True
  end /\
  match reader s with
  | R_copying r => r = 1 - bgra_write_idx s
  | R_indexed _ => False
  | _ => True
  end.

Lemma step_consistent t s s' :
  consistent s -> step Lock_then_index t s = Some s' -> consistent s'.
Proof.
  destruct s as [idx m w r]. unfold consistent, step, worker_step, reader_step, free.
  simpl. intros (Hm & Hx & Hw & Hr).
  destruct t, w, r; simpl in *; subst m; simpl in *;
    try discriminate; try contradiction;
    intros [= <-]; simpl; repeat split; auto; lia.
Qed.

Lemma run_consistent schedule : forall s s',
  consistent s -> run Lock_then_index schedule s = Some s' -> consistent s'.
Proof.
  induction schedule as [|t rest IH]; intros s s' Hs; simpl.
  - intros [= <-]. exact Hs.
  - destruct (step Lock_then_index t s) as [s1|] eqn:E; [|discriminate].
    apply IH. eapply step_consistent; eauto.
Qed.

Lemma consistent_not_torn s : consistent s -> torn s = false.
Proof.
  destruct s as [idx m w r]. unfold consistent, torn. simpl.
  intros (_ & _ & Hw & Hr).
  destruct w, r; try reflexivity. apply Z.eqb_neq. lia.
Qed.

(** C1 (the code does otherwise): [camera_capture_frame] computes
    [read_idx = 1 - bgra_write_idx] before it takes the frame mutex.  Under
    [torn_schedule] the reader ends up copying buffer 1 while the worker
    converts into buffer 1.  Had the index been read under the mutex, as
    the specification words it, no schedule would lead to such a state. *)
Theorem reader_index_taken_outside_mutex :
  (exists s,
     run Index_then_lock torn_schedule initial = Some s /\
     worker s = W_writing 1 /\ reader s = R_copying 1 /\
     frame_mutex s = Some Reader /\ torn s = true) /\
  (forall schedule s,
     run Lock_then_index schedule initial = Some s -> torn s = false).
Proof.
  split.
  - eexists. split; [reflexivity|]. repeat split.
  - intros schedule s H. apply consistent_not_torn.
    apply (run_consistent schedule initial s); [|exact H].
    unfold consistent, initial. simpl. repeat split.
Qed.

End FrameExchange.

(** ** Further facts about the colour conversion *)

Module ConvertMore.
Import Convert ConvertFacts.

(** A 2x2 NV12 frame with neutral chroma. *)
Definition grey_nv12_frame : list Z := [16; 81; 145; 235; 128; 128].








Lemma shiftr_zero_mul (c : Z) : (0 * c) ≫ 8 = 0.
Proof. rewrite Z.mul_0_l. apply Z.shiftr_0_l. Qed.

Lemma clamp255_id y : 0 <= y <= 255 -> clamp255 y = y.
Proof.
  intros H. unfold clamp255.
  destruct (Z.ltb_spec y 0); [lia|]. destruct (Z.ltb_spec 255 y); lia.
Qed.

(** X3: Neutral chroma gives grey: a pixel whose two chroma bytes are 128 is
    stored as (Y, Y, Y, 255), for the 4:2:0 and the 4:2:2 converter. *)
Theorem neutral_chroma_gives_grey
    (yp uvp dst : list Z) (w h ys uvs i j : Z) :
  0 <= ys -> 0 <= uvs -> 0 <= i < h -> 0 <= j < w ->
  w * h * 4 <= Z.of_nat (length dst) ->
  0 <= rd yp (i * ys + j) <= 255 ->
  let Y := rd yp (i * ys + j) in
  let px := (i * w + j) * 4 in
  (rd uvp ((i ÷ 2) * uvs + (j ÷ 2) * 2) = 128 ->
   rd uvp ((i ÷ 2) * uvs + ((j ÷ 2) * 2 + 1)) = 128 ->
   let out := nv12_to_bgra_scalar yp uvp dst w h ys uvs in
   at_off out (px + 0) = Some Y /\ at_off out (px + 1) = Some Y /\
   at_off out (px + 2) = Some Y /\ at_off out (px + 3) = Some 255) /\
  (rd uvp (i * uvs + (j ÷ 2) * 2) = 128 ->
   rd uvp (i * uvs + ((j ÷ 2) * 2 + 1)) = 128 ->
   let out := nv16_to_bgra yp uvp dst w h ys uvs in
   at_off out (px + 0) = Some Y /\ at_off out (px + 1) = Some Y /\
   at_off out (px + 2) = Some Y /\ at_off out (px + 3) = Some 255).
Proof.
  intros Hys Huvs Hi Hj Hlen HY Y px.
  assert (Hc : forall x, 0 <= x -> 0 <= x ÷ 2)
    by (intros; apply Z.quot_pos; lia).
  split; intros HU HV out; subst out px;
    unfold nv12_to_bgra_scalar, nv16_to_bgra;
    rewrite ?nv12_rows_gen, ?nv16_rows_gen.
  - repeat split;
      rewrite (rows_gen_pixel (fun x => x ÷ 2)) by (auto; lia);
      rewrite ?HU, ?HV; unfold spec_B, spec_G, spec_R;
      rewrite <- ?clamp255_saturate; simpl;
      rewrite ?Z.shiftr_0_l, ?Z.add_0_r, ?Z.sub_0_r, ?clamp255_id by exact HY;
      reflexivity.
  - repeat split;
      rewrite (rows_gen_pixel (fun x => x)) by (auto; lia);
      rewrite ?HU, ?HV; unfold spec_B, spec_G, spec_R;
      rewrite <- ?clamp255_saturate; simpl;
      rewrite ?Z.shiftr_0_l, ?Z.add_0_r, ?Z.sub_0_r, ?clamp255_id by exact HY;
      reflexivity.
Qed.

Lemma neutral_chroma_gives_grey_witness :
  at_off (nv12_to_bgra_scalar (take 4 grey_nv12_frame) (drop 4 grey_nv12_frame)
            (replicate 16 0) 2 2 2 2) 10 = Some 145.
Proof.
  assert (Hy : 0 <= rd (take 4 grey_nv12_frame) (1 * 2 + 0) <= 255)
    by (vm_compute; split; discriminate).
  destruct (neutral_chroma_gives_grey (take 4 grey_nv12_frame)
              (drop 4 grey_nv12_frame) (replicate 16 0) 2 2 2 2 1 0
              ltac:(lia) ltac:(lia) ltac:(lia) ltac:(lia)
              ltac:(simpl; lia) Hy) as [H _].
  destruct (H eq_refl eq_refl) as (_ & _ & H2 & _). exact H2.
Defined.

End ConvertMore.

(** ** Release of the capture resources ([v4l2_deinit],
    [mpp_decoder_deinit]) *)

Module Teardown.
Import Camera.

(** The calls that give a resource back. *)
Inductive release : Type :=
  | Munmap (offset len : Z)
  | Close (fd : Z)
  | Buffer_put (slot : Z) (frame : bool)
  | Buffer_group_put
  | Mpp_reset
  | Mpp_destroy.

(** The loop of [v4l2_deinit], from buffer [i], [n] buffers left: a
    buffer whose [start] is neither NULL nor MAP_FAILED is unmapped and
    its [start] set to NULL. *)
Fixpoint unmap_buffers (n : nat) (i : Z) (ctx : camera_context_t)
    : camera_context_t * list release :=
  match n with
  | O => (ctx, [])
  | S n' =>
      let b := default null_v4l2_buffer (v4l2_buffers ctx !! Z.to_nat i) in
      match buf_start b with
      | Mapped off =>
          let ctx := set_v4l2_buffers ctx
                       (<[Z.to_nat i := {| buf_start := Map_null;
                                           buf_length := buf_length b |}]>
                          (v4l2_buffers ctx)) in
          let '(ctx, rel) := unmap_buffers n' (i + 1) ctx in
          (ctx, Munmap off (buf_length b) :: rel)
      | _ => unmap_buffers n' (i + 1) ctx
      end
  end.

Definition v4l2_deinit (ctx : camera_context_t)
    : camera_context_t * list release :=
  let '(ctx, rel) := unmap_buffers (Z.to_nat (buffer_count ctx)) 0 ctx in
  if 0 <=? v4l2_fd ctx
  then (set_v4l2_fd ctx (-1), rel ++ [Close (v4l2_fd ctx)])
  else (ctx, rel).

(** The loop of [mpp_decoder_deinit] over the decode slots. *)
Fixpoint put_decode_bufs (n : nat) (i : Z) (ctx : camera_context_t)
    : camera_context_t * list release :=
  match n with
  | O => (ctx, [])
  | S n' =>
      let slot := default null_decode_buffer (decode_bufs ctx !! Z.to_nat i) in
      let rel_pkt := if pkt_buf slot then [Buffer_put i false] else [] in
      let rel_frm := if frm_buf slot then [Buffer_put i true] else [] in
      let ctx := set_decode_bufs ctx
                   (<[Z.to_nat i := {| pkt_buf := false; frm_buf := false;
                                       pkt_buf_size := pkt_buf_size slot;
                                       frm_buf_size := frm_buf_size slot |}]>
                      (decode_bufs ctx)) in
      let '(ctx, rel) := put_decode_bufs n' (i + 1) ctx in
      (ctx, rel_pkt ++ rel_frm ++ rel)
  end.

Definition mpp_decoder_deinit (ctx : camera_context_t)
    : camera_context_t * list release :=
  let '(ctx, rel) := put_decode_bufs (Z.to_nat MPP_BUFFER_COUNT) 0 ctx in
  let '(ctx, rel) :=
    if frm_grp ctx then (set_frm_grp ctx false, rel ++ [Buffer_group_put])
    else (ctx, rel) in
  if mpp_ctx ctx then
    (set_mpp_handles ctx false false,
     rel ++ (if mpp_mpi ctx then [Mpp_reset] else []) ++ [Mpp_destroy])
  else (ctx, rel).

(** What VIDIOC_QUERYBUF reported for buffer [i]. *)
Definition reported (env : v4l2_env) (i : Z) : Z * Z :=
  default (0, 0) (querybuf_result env i).

(** A context whose arrays have the declared sizes. *)
Definition arrays_sized (ctx : camera_context_t) : Prop :=
  length (v4l2_buffers ctx) = 4%nat /\ length (decode_bufs ctx) = 8%nat.

End Teardown.

Module TeardownFacts.
Import Camera Teardown.

Definition buffer_at (ctx : camera_context_t) (j : Z) : v4l2_buffer_t :=
  default null_v4l2_buffer (v4l2_buffers ctx !! Z.to_nat j).

Definition slot_at (ctx : camera_context_t) (j : Z) : mpp_decode_buffer_t :=
  default null_decode_buffer (decode_bufs ctx !! Z.to_nat j).

Lemma buffer_at_insert_eq ctx i b :
  0 <= i < Z.of_nat (length (v4l2_buffers ctx)) ->
  buffer_at (set_v4l2_buffers ctx (<[Z.to_nat i := b]> (v4l2_buffers ctx))) i = b.
Proof.
  intros H. unfold buffer_at. simpl.
  rewrite list_lookup_insert_eq by lia. reflexivity.
Qed.

Lemma buffer_at_insert_ne ctx i j b :
  0 <= i -> 0 <= j -> i <> j ->
  buffer_at (set_v4l2_buffers ctx (<[Z.to_nat i := b]> (v4l2_buffers ctx))) j
  = buffer_at ctx j.
Proof.
  intros Hi Hj Hne. unfold buffer_at. simpl.
  rewrite list_lookup_insert_ne by lia. reflexivity.
Qed.

(** A successful mapping loop records, for each buffer it handled, the
    mapping and length the kernel reported. *)
Lemma map_buffers_records env n : forall i ctx ctx',
  0 <= i ->
  i + Z.of_nat n <= Z.of_nat (length (v4l2_buffers ctx)) ->
  map_buffers n i ctx env = (ctx', 0) ->
  length (v4l2_buffers ctx') = length (v4l2_buffers ctx) /\
  v4l2_fd ctx' = v4l2_fd ctx /\ buffer_count ctx' = buffer_count ctx /\
  (forall j, 0 <= j < i -> buffer_at ctx' j = buffer_at ctx j) /\
  (forall j, i <= j < i + Z.of_nat n ->
     buffer_at ctx' j = {| buf_start := Mapped (reported env j).2;
                           buf_length := (reported env j).1 |}).
Proof.
  induction n as [|n IH]; intros i ctx ctx' Hi Hlen; simpl.
  - intros [= <-]. repeat split; intros; lia.
  - destruct (querybuf_result env i) as [[len off]|] eqn:Hq; [|discriminate].
    destruct (mmap_ok env i) eqn:Hm; [|discriminate].
    intros Hrun. apply IH in Hrun; [|lia|simpl; rewrite length_insert; lia].
    destruct Hrun as (Hl & Hfd & Hc & Hlow & Hhigh). simpl in *.
    rewrite length_insert in Hl.
    split; [exact Hl|]. split; [exact Hfd|]. split; [exact Hc|]. split.
    + intros j Hj. rewrite Hlow by lia.
      apply (buffer_at_insert_ne ctx i j); lia.
    + intros j Hj. destruct (Z.eq_dec j i) as [->|Hne].
      * rewrite Hlow by lia. rewrite (buffer_at_insert_eq ctx i) by lia.
        unfold reported. rewrite Hq. reflexivity.
      * apply Hhigh. lia.
Qed.

(** Unmapping a run of mapped buffers releases each of them once, in
    order, and touches nothing else. *)
Lemma unmap_buffers_mapped (off len : Z -> Z) n : forall i ctx,
  0 <= i ->
  i + Z.of_nat n <= Z.of_nat (length (v4l2_buffers ctx)) ->
  (forall j, i <= j < i + Z.of_nat n ->
     buffer_at ctx j = {| buf_start := Mapped (off j); buf_length := len j |}) ->
  snd (unmap_buffers n i ctx)
  = (fun j => Munmap (off j) (len j)) <$> seqZ i (Z.of_nat n) /\
  v4l2_fd (fst (unmap_buffers n i ctx)) = v4l2_fd ctx.
Proof.
  induction n as [|n IH]; intros i ctx Hi Hlen Hall.
  - simpl. split; reflexivity.
  - rewrite Nat2Z.inj_succ, seqZ_cons by lia. simpl.
    pose proof (Hall i ltac:(lia)) as Hb. unfold buffer_at in Hb.
    rewrite Hb. simpl.
    match goal with
    | |- context [unmap_buffers n (i + 1) ?c] =>
        destruct (IH (i + 1) c) as [Hrel Hfd]
    end.
    + lia.
    + simpl. rewrite length_insert. lia.
    + intros j Hj. rewrite buffer_at_insert_ne by lia. apply Hall. lia.
    + destruct (unmap_buffers n (i + 1) _) as [ctx1 rel]. simpl in *.
      split; [|exact Hfd]. f_equal.
      rewrite Hrel. f_equal. f_equal. lia.
Qed.

(** After the unmapping loop no buffer it visited is mapped, and the
    rest is as before. *)
Lemma unmap_buffers_clears n : forall i ctx,
  0 <= i ->
  let ctx' := fst (unmap_buffers n i ctx) in
  v4l2_fd ctx' = v4l2_fd ctx /\ buffer_count ctx' = buffer_count ctx /\
  (forall j, 0 <= j -> j < i \/ i + Z.of_nat n <= j ->
     buffer_at ctx' j = buffer_at ctx j) /\
  (forall j off, i <= j < i + Z.of_nat n ->
     buf_start (buffer_at ctx' j) <> Mapped off).
Proof.
  induction n as [|n IH]; intros i ctx Hi; simpl.
  - repeat split; intros; lia.
  - set (b := default null_v4l2_buffer (v4l2_buffers ctx !! Z.to_nat i)).
    assert (Hkeep : buf_start b = Map_null \/ buf_start b = Map_failed ->
              let ctx' := fst (unmap_buffers n (i + 1) ctx) in
              v4l2_fd ctx' = v4l2_fd ctx /\ buffer_count ctx' = buffer_count ctx /\
              (forall j, 0 <= j -> j < i \/ i + Z.of_nat (S n) <= j ->
                 buffer_at ctx' j = buffer_at ctx j) /\
              (forall j off, i <= j < i + Z.of_nat (S n) ->
                 buf_start (buffer_at ctx' j) <> Mapped off)).
    { intros Hs. destruct (IH (i + 1) ctx ltac:(lia)) as (Hfd & Hc & Hfr & Hno).
      split; [exact Hfd|]. split; [exact Hc|]. split.
      - intros j Hj0 Hj. apply Hfr; lia.
      - intros j off Hj. destruct (Z.eq_dec j i) as [->|Hne].
        + rewrite Hfr by lia. unfold buffer_at. fold b.
          destruct Hs as [-> | ->]; discriminate.
        + apply Hno. lia. }
    destruct (buf_start b) as [| |off] eqn:Hs;
      [apply Hkeep; auto | apply Hkeep; auto |].
    clear Hkeep.
    match goal with
    | |- context [unmap_buffers n (i + 1) ?c] =>
        destruct (IH (i + 1) c ltac:(lia)) as (Hfd & Hc & Hfr & Hno);
        destruct (unmap_buffers n (i + 1) c) as [ctx1 rel] eqn:E
    end.
    simpl in *.
    split; [exact Hfd|]. split; [exact Hc|]. split.
    + intros j Hj0 Hj. rewrite Hfr by lia. apply buffer_at_insert_ne; lia.
    + intros j off' Hj. destruct (Z.eq_dec j i) as [->|Hne].
      * rewrite Hfr by lia.
        destruct (Z.lt_ge_cases i (Z.of_nat (length (v4l2_buffers ctx)))) as [Hin|Hout].
        -- rewrite buffer_at_insert_eq by lia. discriminate.
        -- exfalso. unfold b in Hs.
           rewrite lookup_ge_None_2 in Hs by lia. discriminate Hs.
      * apply Hno. lia.
Qed.

(** A loop that meets no mapped buffer releases nothing. *)
Lemma unmap_buffers_nothing n : forall i ctx,
  0 <= i ->
  (forall j, i <= j < i + Z.of_nat n ->
     forall off, buf_start (buffer_at ctx j) <> Mapped off) ->
  unmap_buffers n i ctx = (ctx, []).
Proof.
  induction n as [|n IH]; intros i ctx Hi Hall; simpl; [reflexivity|].
  pose proof (Hall i ltac:(lia)) as Hb. unfold buffer_at in Hb.
  destruct (buf_start _) as [| |off]; try (apply IH; [lia|intros; apply Hall; lia]).
  exfalso. apply (Hb off). reflexivity.
Qed.

Lemma map_buffers_count env n : forall i ctx ctx' r,
  map_buffers n i ctx env = (ctx', r) ->
  buffer_count ctx' = buffer_count ctx.
Proof.
  induction n as [|n IH]; intros i ctx ctx' r; simpl.
  - intros [= <- _]. reflexivity.
  - destruct (querybuf_result env i) as [[len off]|]; [|intros [= <- _]; reflexivity].
    destruct (mmap_ok env i).
    + intros H. apply IH in H. exact H.
    + intros [= <- _]. reflexivity.
Qed.

Lemma v4l2_init_inv ctx0 env ctx :
  v4l2_init ctx0 env = (ctx, 0) ->
  exists w h n,
    0 <= open_result env /\ 2 <= n /\ reqbufs_result env = Some n /\
    map_buffers (Z.to_nat (int32 n)) 0
      (set_buffer_count
         (set_geometry (set_v4l2_fd ctx0 (open_result env)) (int32 w) (int32 h))
         (int32 n)) env = (ctx, 0).
Proof.
  unfold v4l2_init. simpl.
  destruct (Z.ltb_spec (open_result env) 0); [discriminate|].
  destruct (querycap_result env) as [caps|]; [|discriminate].
  destruct (Z.land caps V4L2_CAP_VIDEO_CAPTURE =? 0); [discriminate|].
  destruct (Z.land caps V4L2_CAP_STREAMING =? 0); [discriminate|].
  destruct (s_fmt_result env) as [[[pf w] h]|]; [|discriminate].
  destruct (pf =? V4L2_PIX_FMT_MJPEG); simpl; [|discriminate].
  destruct (reqbufs_result env) as [n|]; [|discriminate].
  destruct (Z.ltb_spec n 2); [discriminate|].
  intros Hmap. exists w, h, n. repeat split; auto.
Qed.

(** X4: The round trip of the V4L2 side: after a [v4l2_init] that returned 0
    with at most four buffers (the size of the array), [v4l2_deinit]
    unmaps each buffer once, in index order, with the offset and length
    the kernel reported for it, and then closes the descriptor that
    [open] returned. *)
Theorem v4l2_deinit_undoes_init (ctx0 ctx : camera_context_t) (env : v4l2_env) :
  length (v4l2_buffers ctx0) = 4%nat ->
  v4l2_init ctx0 env = (ctx, 0) ->
  buffer_count ctx <= 4 ->
  snd (v4l2_deinit ctx)
  = ((fun j => Munmap (reported env j).2 (reported env j).1)
       <$> seqZ 0 (buffer_count ctx))
    ++ [Close (open_result env)] /\
  v4l2_fd (fst (v4l2_deinit ctx)) = -1.
Proof.
  intros Hlen Hinit Hcount.
  destruct (v4l2_init_inv _ _ _ Hinit) as (w & h & n & Hfd & Hn & Hreq & Hmap).
  apply map_buffers_records in Hmap; simpl; [|lia|].
  - destruct Hmap as (Hl & Hfd' & Hc & _ & Hrec). simpl in *.
    unfold v4l2_deinit.
    destruct (unmap_buffers_mapped (fun j => (reported env j).2)
                (fun j => (reported env j).1)
                (Z.to_nat (buffer_count ctx)) 0 ctx) as [Hrel Hfd2].
    + lia.
    + lia.
    + intros j Hj. apply Hrec. rewrite Hc in Hj. lia.
    + destruct (unmap_buffers _ 0 ctx) as [ctx1 rel]. simpl in *.
      rewrite Hfd2, Hfd'.
      destruct (Z.leb_spec 0 (open_result env)); [|lia]. simpl.
      split; [|reflexivity]. rewrite Hrel. f_equal. f_equal.
      unfold seqZ. rewrite Nat2Z.id. reflexivity.
  - rewrite Hlen. pose proof (map_buffers_count _ _ _ _ _ _ Hmap) as Hb.
    simpl in Hb. lia.
Qed.

Lemma v4l2_deinit_undoes_init_witness :
  snd (v4l2_deinit (fst (v4l2_init zeroed_context (driver 4 2 3))))
  = [Munmap 0 8; Munmap 8 8; Munmap 16 8; Close 3].
Proof.
  destruct (v4l2_deinit_undoes_init zeroed_context
              (fst (v4l2_init zeroed_context (driver 4 2 3))) (driver 4 2 3))
    as [H _]; [reflexivity | reflexivity | vm_compute; discriminate |].
  rewrite H. reflexivity.
Defined.

(** X5: A second [v4l2_deinit] gives nothing back: no buffer is unmapped
    twice and the descriptor is not closed twice. *)
Theorem v4l2_deinit_twice (ctx : camera_context_t) :
  snd (v4l2_deinit (fst (v4l2_deinit ctx))) = [] /\
  v4l2_fd (fst (v4l2_deinit ctx)) < 0 /\
  (forall j off, 0 <= j < buffer_count ctx ->
     buf_start (buffer_at (fst (v4l2_deinit ctx)) j) <> Mapped off).
Proof.
  unfold v4l2_deinit at 2 3 4.
  destruct (unmap_buffers_clears (Z.to_nat (buffer_count ctx)) 0 ctx ltac:(lia))
    as (Hfd & Hc & _ & Hno).
  destruct (unmap_buffers _ 0 ctx) as [ctx1 rel]. simpl in *.
  assert (Hclean : forall c, v4l2_buffers c = v4l2_buffers ctx1 ->
                     buffer_count c = buffer_count ctx -> v4l2_fd c < 0 ->
                     snd (v4l2_deinit c) = []).
  { intros c Hb Hcc Hf. unfold v4l2_deinit.
    rewrite unmap_buffers_nothing.
    - destruct (Z.leb_spec 0 (v4l2_fd c)); [lia|reflexivity].
    - lia.
    - intros j Hj off. unfold buffer_at. rewrite Hb.
      apply Hno. rewrite Hcc in Hj. lia. }
  destruct (Z.leb_spec 0 (v4l2_fd ctx1)); simpl.
  - split; [apply Hclean; simpl; auto; lia|]. split; [lia|].
    intros j off Hj. apply Hno. lia.
  - split; [apply Hclean; simpl; auto; lia|]. split; [lia|].
    intros j off Hj. apply Hno. lia.
Qed.

Lemma slot_at_insert_eq ctx i b :
  0 <= i < Z.of_nat (length (decode_bufs ctx)) ->
  slot_at (set_decode_bufs ctx (<[Z.to_nat i := b]> (decode_bufs ctx))) i = b.
Proof.
  intros H. unfold slot_at. simpl.
  rewrite list_lookup_insert_eq by lia. reflexivity.
Qed.

Lemma slot_at_insert_ne ctx i j b :
  0 <= i -> 0 <= j -> i <> j ->
  slot_at (set_decode_bufs ctx (<[Z.to_nat i := b]> (decode_bufs ctx))) j
  = slot_at ctx j.
Proof.
  intros Hi Hj Hne. unfold slot_at. simpl.
  rewrite list_lookup_insert_ne by lia. reflexivity.
Qed.

Lemma slot_at_insert_flags ctx i j b :
  0 <= i -> 0 <= j -> pkt_buf b = false -> frm_buf b = false ->
  pkt_buf (slot_at ctx j) = false /\ frm_buf (slot_at ctx j) = false ->
  pkt_buf (slot_at (set_decode_bufs ctx (<[Z.to_nat i := b]> (decode_bufs ctx))) j)
    = false /\
  frm_buf (slot_at (set_decode_bufs ctx (<[Z.to_nat i := b]> (decode_bufs ctx))) j)
    = false.
Proof.
  intros Hi Hj Hp Hf Hold. destruct (Z.eq_dec i j) as [->|Hne].
  - destruct (Z.lt_ge_cases j (Z.of_nat (length (decode_bufs ctx)))).
    + rewrite slot_at_insert_eq by lia. auto.
    + unfold slot_at. simpl. rewrite list_insert_ge by lia. exact Hold.
  - rewrite slot_at_insert_ne by lia. exact Hold.
Qed.

(** A successful allocation loop leaves both buffers of each slot it
    handled allocated, with the sizes asked for. *)
Lemma alloc_decode_bufs_records env pkt frm n : forall i ctx ctx',
  0 <= i ->
  i + Z.of_nat n <= Z.of_nat (length (decode_bufs ctx)) ->
  alloc_decode_bufs n i pkt frm ctx env = (ctx', 0) ->
  length (decode_bufs ctx') = length (decode_bufs ctx) /\
  frm_grp ctx' = frm_grp ctx /\ mpp_ctx ctx' = mpp_ctx ctx /\
  mpp_mpi ctx' = mpp_mpi ctx /\
  (forall j, 0 <= j < i -> slot_at ctx' j = slot_at ctx j) /\
  (forall j, i <= j < i + Z.of_nat n ->
     slot_at ctx' j = {| pkt_buf := true; frm_buf := true;
                         pkt_buf_size := pkt; frm_buf_size := frm |}).
Proof.
  induction n as [|n IH]; intros i ctx ctx' Hi Hlen; simpl.
  - intros [= <-]. repeat split; intros; lia.
  - destruct (buffer_get_ok env i false); simpl; [|discriminate].
    destruct (buffer_get_ok env i true); simpl; [|discriminate].
    intros Hrun. apply IH in Hrun;
      [|lia|simpl; rewrite !length_insert; lia].
    destruct Hrun as (Hl & Hg & Hc & Hm & Hlow & Hhigh). simpl in *.
    rewrite !length_insert in Hl.
    repeat (split; [assumption|]). split.
    + intros j Hj. rewrite Hlow by lia. unfold slot_at. simpl.
      rewrite !list_lookup_insert_ne by lia. reflexivity.
    + intros j Hj. destruct (Z.eq_dec j i) as [->|Hne].
      * rewrite Hlow by lia. unfold slot_at. simpl.
        rewrite list_lookup_insert_eq by (rewrite length_insert; lia).
        reflexivity.
      * apply Hhigh. lia.
Qed.

Lemma put_decode_bufs_allocated n : forall i ctx,
  0 <= i ->
  (forall j, i <= j < i + Z.of_nat n ->
     pkt_buf (slot_at ctx j) = true /\ frm_buf (slot_at ctx j) = true) ->
  snd (put_decode_bufs n i ctx)
  = flat_map (fun j => [Buffer_put j false; Buffer_put j true])
      (seqZ i (Z.of_nat n)).
Proof.
  induction n as [|n IH]; intros i ctx Hi Hall.
  - reflexivity.
  - rewrite Nat2Z.inj_succ, seqZ_cons by lia. simpl.
    destruct (Hall i ltac:(lia)) as [Hp Hf]. unfold slot_at in Hp, Hf.
    rewrite Hp, Hf.
    match goal with
    | |- context [put_decode_bufs n (i + 1) ?c] =>
        pose proof (IH (i + 1) c ltac:(lia)) as Hrel;
        destruct (put_decode_bufs n (i + 1) c) as [ctx1 rel]
    end.
    simpl in Hrel |- *. rewrite Hrel.
    + replace (Z.pred (Z.succ (Z.of_nat n))) with (Z.of_nat n) by lia.
      replace (Z.succ i) with (i + 1) by lia. reflexivity.
    + intros j Hj. rewrite slot_at_insert_ne by lia. apply Hall. lia.
Qed.

Lemma put_decode_bufs_clears n : forall i ctx,
  0 <= i ->
  let ctx' := fst (put_decode_bufs n i ctx) in
  frm_grp ctx' = frm_grp ctx /\ mpp_ctx ctx' = mpp_ctx ctx /\
  mpp_mpi ctx' = mpp_mpi ctx /\
  (forall j, 0 <= j ->
     pkt_buf (slot_at ctx j) = false /\ frm_buf (slot_at ctx j) = false ->
     pkt_buf (slot_at ctx' j) = false /\ frm_buf (slot_at ctx' j) = false) /\
  (forall j, i <= j < i + Z.of_nat n ->
     pkt_buf (slot_at ctx' j) = false /\ frm_buf (slot_at ctx' j) = false).
Proof.
  induction n as [|n IH]; intros i ctx Hi; simpl.
  - repeat split; intros; try lia; tauto.
  - match goal with
    | |- context [put_decode_bufs n (i + 1) ?c] =>
        destruct (IH (i + 1) c ltac:(lia)) as (Hg & Hc & Hm & Hkeep & Hclr);
        destruct (put_decode_bufs n (i + 1) c) as [ctx1 rel]
    end.
    simpl in *.
    repeat (split; [assumption|]). split.
    + intros j Hj Hold. apply Hkeep; [lia|].
      apply slot_at_insert_flags; auto.
    + intros j Hj. destruct (Z.eq_dec j i) as [->|Hne].
      * apply Hkeep; [lia|].
        destruct (Z.lt_ge_cases i (Z.of_nat (length (decode_bufs ctx)))).
        -- rewrite slot_at_insert_eq by lia. auto.
        -- unfold slot_at. simpl. rewrite list_insert_ge by lia.
           rewrite lookup_ge_None_2 by lia. auto.
      * apply Hclr. lia.
Qed.

Lemma put_decode_bufs_nothing n : forall i ctx,
  0 <= i ->
  (forall j, i <= j < i + Z.of_nat n ->
     pkt_buf (slot_at ctx j) = false /\ frm_buf (slot_at ctx j) = false) ->
  snd (put_decode_bufs n i ctx) = [].
Proof.
  induction n as [|n IH]; intros i ctx Hi Hall; simpl; [reflexivity|].
  destruct (Hall i ltac:(lia)) as [Hp Hf]. unfold slot_at in Hp, Hf.
  rewrite Hp, Hf.
  match goal with
  | |- context [put_decode_bufs n (i + 1) ?c] =>
      pose proof (IH (i + 1) c ltac:(lia)) as Hrel;
      destruct (put_decode_bufs n (i + 1) c) as [ctx1 rel]
  end.
  simpl in *. apply Hrel.
  intros j Hj. apply slot_at_insert_flags; auto; try lia. apply Hall. lia.
Qed.

Lemma mpp_decoder_init_inv ctx0 env ctx :
  mpp_decoder_init ctx0 env = (ctx, 0) ->
  exists ctx1 pkt frm,
    alloc_decode_bufs (Z.to_nat MPP_BUFFER_COUNT) 0 pkt frm
      (set_frm_grp (set_mpp_handles ctx0 true true) true) env = (ctx1, 0) /\
    ctx = set_mpp_ready ctx1 0 1.
Proof.
  unfold mpp_decoder_init.
  destruct (mpp_create_ok env); cbn [negb]; [|discriminate].
  destruct (mpp_init_ok env); cbn [negb]; [|discriminate].
  destruct (buffer_group_get_ok env); cbn [negb]; [|discriminate].
  match goal with
  | |- context [alloc_decode_bufs ?n ?i ?p ?f ?c env] =>
      destruct (alloc_decode_bufs n i p f c env) as [ctx1 r] eqn:E;
      intros H; exists ctx1, p, f
  end.
  destruct r as [|r|r]; try discriminate H.
  injection H as <-. split; [exact E | reflexivity].
Qed.

(** X6: The round trip of the decoder side: after a [mpp_decoder_init] that
    returned 0, [mpp_decoder_deinit] puts back the packet buffer and the
    frame buffer of each of the eight slots, once each and in slot order,
    then the buffer group, and then resets and destroys the decoder. *)
Theorem mpp_deinit_undoes_init (ctx0 ctx : camera_context_t) (env : mpp_env) :
  length (decode_bufs ctx0) = 8%nat ->
  mpp_decoder_init ctx0 env = (ctx, 0) ->
  snd (mpp_decoder_deinit ctx)
  = flat_map (fun j => [Buffer_put j false; Buffer_put j true]) (seqZ 0 8)
    ++ [Buffer_group_put; Mpp_reset; Mpp_destroy].
Proof.
  intros Hlen Hinit.
  destruct (mpp_decoder_init_inv _ _ _ Hinit) as (ctx1 & pkt & frm & Halloc & ->).
  apply alloc_decode_bufs_records in Halloc;
    [| lia
     | change (decode_bufs (set_frm_grp (set_mpp_handles ctx0 true true) true))
         with (decode_bufs ctx0);
       rewrite Hlen; unfold MPP_BUFFER_COUNT; lia].
  destruct Halloc as (Hl & Hg & Hc & Hm & _ & Hrec).
  cbn [frm_grp mpp_ctx mpp_mpi set_frm_grp set_mpp_handles] in Hg, Hc, Hm.
  unfold mpp_decoder_deinit.
  pose proof (put_decode_bufs_allocated (Z.to_nat MPP_BUFFER_COUNT) 0
                (set_mpp_ready ctx1 0 1) ltac:(lia)) as Hrel.
  destruct (put_decode_bufs_clears (Z.to_nat MPP_BUFFER_COUNT) 0
              (set_mpp_ready ctx1 0 1) ltac:(lia)) as (Hg2 & Hc2 & Hm2 & _).
  destruct (put_decode_bufs _ 0 (set_mpp_ready ctx1 0 1)) as [ctx2 rel].
  cbn [fst snd frm_grp mpp_ctx mpp_mpi set_mpp_ready] in Hrel, Hg2, Hc2, Hm2.
  rewrite Hg2, Hg. cbn [frm_grp mpp_ctx mpp_mpi set_frm_grp snd].
  rewrite Hc2, Hc. cbn [frm_grp mpp_ctx mpp_mpi set_frm_grp snd].
  rewrite Hm2, Hm. rewrite Hrel.
  - rewrite <- !app_assoc. reflexivity.
  - intros j Hj. change (slot_at (set_mpp_ready ctx1 0 1) j) with (slot_at ctx1 j).
    rewrite Hrec by exact Hj. auto.
Qed.

Lemma mpp_deinit_undoes_init_witness :
  length (snd (mpp_decoder_deinit
                 (fst (mpp_decoder_init zeroed_context decoder_ok)))) = 19%nat.
Proof.
  rewrite (mpp_deinit_undoes_init zeroed_context
             (fst (mpp_decoder_init zeroed_context decoder_ok)) decoder_ok);
    vm_compute; reflexivity.
Defined.

(** X7: A second [mpp_decoder_deinit] gives nothing back: no buffer is put
    twice and the decoder is not destroyed twice. *)
Theorem mpp_deinit_twice (ctx : camera_context_t) :
  snd (mpp_decoder_deinit (fst (mpp_decoder_deinit ctx))) = [].
Proof.
  unfold mpp_decoder_deinit at 2.
  destruct (put_decode_bufs_clears (Z.to_nat MPP_BUFFER_COUNT) 0 ctx ltac:(lia))
    as (Hg & Hc & Hm & _ & Hclr).
  destruct (put_decode_bufs _ 0 ctx) as [ctx1 rel].
  cbn [fst] in Hg, Hc, Hm, Hclr.
  assert (Hclean : forall c, decode_bufs c = decode_bufs ctx1 ->
                     frm_grp c = false -> mpp_ctx c = false ->
                     snd (mpp_decoder_deinit c) = []).
  { intros c Hb Hfg Hmc. unfold mpp_decoder_deinit.
    pose proof (put_decode_bufs_nothing (Z.to_nat MPP_BUFFER_COUNT) 0 c ltac:(lia)) as Hn.
    destruct (put_decode_bufs_clears (Z.to_nat MPP_BUFFER_COUNT) 0 c ltac:(lia))
      as (Hg' & Hc' & _).
    destruct (put_decode_bufs _ 0 c) as [c1 rel1]. cbn [fst snd] in *.
    rewrite Hg', Hfg. rewrite Hc', Hmc. apply Hn.
    intros j Hj. unfold slot_at. rewrite Hb. apply Hclr. exact Hj. }
  destruct (frm_grp ctx1) eqn:Eg; destruct (mpp_ctx ctx1) eqn:Ec;
    cbn [frm_grp mpp_ctx set_frm_grp set_mpp_handles fst snd];
    rewrite ?Ec; cbn [fst];
    apply Hclean;
    cbn [decode_bufs frm_grp mpp_ctx set_frm_grp set_mpp_handles]; auto.
Qed.

End TeardownFacts.

(** ** The capture worker and the calls around it, further facts *)

Module Worker.
Import Convert Camera.

(** Which buffer the worker holds after a run of effects, starting from
    [held]; [None] when the run is not one a worker holding at most one
    buffer can make: a dequeue while a buffer is held, a requeue of a
    buffer that is not held, a callback while no buffer is held, or a call
    that is not the worker's. *)
Fixpoint ownership (eff : list camera_effect) (held : option Z)
    : option (option Z) :=
  match eff with
  | [] => Some held
  | Dequeue_buffer i :: rest =>
      match held with
      | None => ownership rest (Some i)
      | Some _ => None
      end
  | Queue_buffer i :: rest =>
      match held with
      | Some j => if i =? j then ownership rest None else None
      | None => None
      end
  | Frame_callback _ _ _ _ _ _ :: rest =>
      match held with
      | Some _ => ownership rest held
      | None => None
      end
  | _ :: _ => None
  end.

Definition is_dequeue (e : camera_effect) : bool :=
  match e with
  | Dequeue_buffer _ => true
  | _ => false
  end.

Definition is_callback (e : camera_effect) : bool :=
  match e with
  | Frame_callback _ _ _ _ _ _ => true
  | _ => false
  end.

Definition is_thread_create (e : camera_effect) : bool :=
  match e with
  | Thread_create _ => true
  | _ => false
  end.

Fixpoint count_if (f : camera_effect -> bool) (eff : list camera_effect) : Z :=
  match eff with
  | [] => 0
  | e :: rest => (if f e then 1 else 0) + count_if f rest
  end.

(** Several decodes in a row, each with its own outcomes and size. *)
Definition decode_many (attempts : list (decode_env * Z))
    (ctx : camera_context_t) : camera_context_t :=
  foldl (fun ctx a => fst (decode_mjpeg_to_bgra_fast ctx a.1 a.2)) ctx attempts.

(** The state of the frame exchange is well formed: the write index is 0
    or 1 and there are two buffers. *)
Definition exchange_ok (ctx : camera_context_t) : Prop :=
  (bgra_write_idx ctx = 0 \/ bgra_write_idx ctx = 1) /\
  length (bgra_buffer ctx) = 2%nat.

(** The buffer the next conversion will write. *)
Definition write_buffer (ctx : camera_context_t) : list Z :=
  default [] (bgra_buffer ctx !! Z.to_nat (bgra_write_idx ctx)).

(** What happens to a camera between [camera_init] and [camera_deinit]:
    calls of the API and iterations of its worker. *)
Inductive camera_event : Type :=
  | Ev_start (callback : option nat) (user_data : Z) (env : start_env)
  | Ev_stop
  | Ev_iteration (env : iteration_env).

Definition run_event (e : camera_event) (ctx : camera_context_t)
    : camera_context_t :=
  match e with
  | Ev_start cb ud env =>
      default ctx (fst (fst (camera_start (Some ctx) cb ud env)))
  | Ev_stop => default ctx (fst (fst (camera_stop (Some ctx))))
  | Ev_iteration env => fst (fst (capture_iteration ctx env))
  end.

Definition run_events (es : list camera_event) (ctx : camera_context_t)
    : camera_context_t :=
  foldl (fun ctx e => run_event e ctx) ctx es.

(** A decode that succeeds with a 4x2 NV12 frame of neutral grey. *)
Definition grey_frame_4x2 : decoded_frame :=
  {| f_buffer := Some (replicate 8 100 ++ replicate 4 128);
     f_errinfo := 0; f_width := 4; f_height := 2;
     f_hor_stride := 4; f_ver_stride := 2; f_fmt := MPP_FMT_YUV420SP |}.

Definition decode_grey : decode_env :=
  {| packet_init_ok := true; frame_init_ok := true; poll_input_ok := true;
     dequeue_input_ok := true; enqueue_input_ok := true;
     poll_output_ok := true; dequeue_output_ok := true;
     out_frame := Some grey_frame_4x2 |}.

Definition iteration_grey : iteration_env :=
  {| select_r := Select_ready; dqbuf_r := Dqbuf_ok 1 8;
     dec := decode_grey; requeue_ok := true |}.

(** The started 4x2 camera of [small_camera], as a context. *)
Definition small_ctx : camera_context_t :=
  default zeroed_context small_camera.

End Worker.

Module WorkerFacts.
Import Convert Camera Worker.

(** The frame a decode converts, when every check of
    [decode_mjpeg_to_bgra_fast] passes. *)
Definition decode_passes (ctx : camera_context_t) (env : decode_env)
    (mjpeg_size : Z) : option (list Z * decoded_frame) :=
  let dec_buf := default null_decode_buffer
                   (decode_bufs ctx !! Z.to_nat (current_buf_idx ctx)) in
  if pkt_buf_size dec_buf <? mjpeg_size then None else
  if packet_init_ok env && frame_init_ok env && poll_input_ok env
     && dequeue_input_ok env && enqueue_input_ok env && poll_output_ok env
     && dequeue_output_ok env
  then match out_frame env with
       | Some f =>
           match f_buffer f with
           | Some yuv => if f_errinfo f =? 0 then Some (yuv, f) else None
           | None => None
           end
       | None => None
       end
  else None.

(** The context after the slot index has advanced. *)
Definition advanced (ctx : camera_context_t) : camera_context_t :=
  set_current_buf_idx ctx (Z.rem (current_buf_idx ctx + 1) MPP_BUFFER_COUNT).

(** The publishing part of a successful decode. *)
Definition publish (ctx : camera_context_t) (yuv : list Z) (f : decoded_frame)
    : camera_context_t :=
  let write_idx := bgra_write_idx ctx in
  let converted :=
    yuv_to_bgra_cpu yuv (default [] (bgra_buffer ctx !! Z.to_nat write_idx))
      (f_width f) (f_height f) (f_hor_stride f) (f_ver_stride f) (f_fmt f) in
  set_decode_count
    (set_bgra_write_idx
       (set_bgra_buffer ctx
          (<[Z.to_nat write_idx := converted]> (bgra_buffer ctx)))
       (1 - write_idx))
    (int32 (decode_count ctx + 1)).

Lemma decode_normal_form ctx env n :
  decode_mjpeg_to_bgra_fast ctx env n
  = match decode_passes ctx env n with
    | Some (yuv, f) => (publish (advanced ctx) yuv f, 0)
    | None => (advanced ctx, -1)
    end.
Proof.
  unfold decode_mjpeg_to_bgra_fast, decode_passes, publish, advanced.
  cbn [decode_bufs set_current_buf_idx].
  destruct (pkt_buf_size _ <? n); [reflexivity|].
  destruct (packet_init_ok env); [|reflexivity].
  destruct (frame_init_ok env); [|reflexivity].
  destruct (poll_input_ok env); [|reflexivity].
  destruct (dequeue_input_ok env); [|reflexivity].
  destruct (enqueue_input_ok env); [|reflexivity].
  destruct (poll_output_ok env); [|reflexivity].
  destruct (dequeue_output_ok env); [|reflexivity].
  cbn [negb andb].
  destruct (out_frame env) as [f|]; [|reflexivity].
  destruct (f_buffer f) as [yuv|]; [|reflexivity].
  destruct (f_errinfo f =? 0); reflexivity.
Qed.

Lemma decode_succeeded_passes ctx env n :
  decode_succeeded ctx env n
  = (0 <? n) && bool_decide (is_Some (decode_passes ctx env n)).
Proof.
  unfold decode_succeeded. rewrite decode_normal_form.
  destruct (decode_passes ctx env n) as [[yuv f]|]; cbn [snd].
  - rewrite bool_decide_eq_true_2 by eauto. reflexivity.
  - rewrite bool_decide_eq_false_2 by (intros [x Hx]; discriminate Hx).
    reflexivity.
Qed.

Lemma rem8 x : 0 <= x -> Z.rem x MPP_BUFFER_COUNT = x mod 8.
Proof. intros H. unfold MPP_BUFFER_COUNT. apply Z.rem_mod_nonneg; lia. Qed.

Lemma decode_index ctx env n :
  current_buf_idx (fst (decode_mjpeg_to_bgra_fast ctx env n))
  = Z.rem (current_buf_idx ctx + 1) MPP_BUFFER_COUNT.
Proof.
  rewrite decode_normal_form.
  destruct (decode_passes ctx env n) as [[yuv f]|]; reflexivity.
Qed.

(** X8: The decode slots are used round-robin: every decode attempt, whether
    it succeeds or fails at any step, moves the slot index to the next of
    the eight slots, so that after any run of attempts the index is the
    start index plus their number, modulo 8. *)
Theorem decode_slots_round_robin
    (attempts : list (decode_env * Z)) (ctx : camera_context_t) :
  0 <= current_buf_idx ctx < 8 ->
  current_buf_idx (decode_many attempts ctx)
  = (current_buf_idx ctx + Z.of_nat (length attempts)) mod 8 /\
  0 <= current_buf_idx (decode_many attempts ctx) < 8.
Proof.
  revert ctx. unfold decode_many.
  induction attempts as [|a rest IH]; intros ctx Hidx.
  - cbn [foldl length]. rewrite Z.add_0_r, Z.mod_small by lia. lia.
  - cbn [foldl]. rewrite length_cons, Nat2Z.inj_succ.
    pose proof (decode_index ctx a.1 a.2) as Hi.
    rewrite rem8 in Hi by lia.
    assert (Hr : 0 <= (current_buf_idx ctx + 1) mod 8 < 8)
      by (apply Z.mod_pos_bound; lia).
    destruct (IH (fst (decode_mjpeg_to_bgra_fast ctx a.1 a.2))) as [He Hb];
      [rewrite Hi; exact Hr|].
    split; [|exact Hb]. rewrite He, Hi.
    rewrite Zplus_mod_idemp_l. f_equal. lia.
Qed.

Lemma decode_slots_round_robin_witness :
  current_buf_idx
    (decode_many (replicate 8 (decode_input_busy, 100)
                    ++ [(decode_grey, 8); (decode_input_busy, 1)]) small_ctx)
  = 2.
Proof.
  assert (E : current_buf_idx small_ctx = 0) by (vm_compute; reflexivity).
  destruct (decode_slots_round_robin
              (replicate 8 (decode_input_busy, 100)
                 ++ [(decode_grey, 8); (decode_input_busy, 1)]) small_ctx)
    as [H _]; [rewrite E; lia|].
  rewrite H, E. reflexivity.
Defined.

Lemma decode_passes_inv ctx env n yuv f :
  decode_passes ctx env n = Some (yuv, f) ->
  out_frame env = Some f /\ f_buffer f = Some yuv /\ f_errinfo f = 0.
Proof.
  unfold decode_passes.
  destruct (pkt_buf_size _ <? n); [discriminate|].
  destruct (_ && _); [|discriminate].
  destruct (out_frame env) as [f0|]; [|discriminate].
  destruct (f_buffer f0) as [yuv0|] eqn:Hb; [|discriminate].
  destruct (Z.eqb_spec (f_errinfo f0) 0); [|discriminate].
  intros [= <- <-]. auto.
Qed.

Lemma exchange_lookup ctx :
  exchange_ok ctx ->
  (Z.to_nat (bgra_write_idx ctx) < length (bgra_buffer ctx))%nat /\
  Z.to_nat (1 - (1 - bgra_write_idx ctx)) = Z.to_nat (bgra_write_idx ctx) /\
  Z.to_nat (1 - bgra_write_idx ctx) <> Z.to_nat (bgra_write_idx ctx).
Proof. intros [[H|H] Hl]; rewrite H, Hl; repeat split; lia. Qed.

Lemma publish_exchange ctx yuv f :
  exchange_ok ctx ->
  exchange_ok (publish ctx yuv f) /\
  bgra_write_idx (publish ctx yuv f) = 1 - bgra_write_idx ctx /\
  published (publish ctx yuv f)
  = yuv_to_bgra_cpu yuv (write_buffer ctx) (f_width f) (f_height f)
      (f_hor_stride f) (f_ver_stride f) (f_fmt f) /\
  write_buffer (publish ctx yuv f) = published ctx /\
  bgra_buffer (publish ctx yuv f) !! Z.to_nat (bgra_write_idx ctx)
  = Some (published (publish ctx yuv f)).
Proof.
  intros Hok. destruct (exchange_lookup ctx Hok) as (Hlt & Hback & Hne).
  destruct Hok as [Hidx Hlen].
  unfold publish, published, write_buffer, exchange_ok.
  cbn [bgra_buffer bgra_write_idx set_decode_count set_bgra_write_idx
       set_bgra_buffer].
  rewrite length_insert, Hback.
  rewrite list_lookup_insert_eq by exact Hlt.
  rewrite list_lookup_insert_ne by (intros E; apply Hne; symmetry; exact E).
  repeat split; auto. lia.
Qed.

(** X9: A failed decode leaves the frame exchange as it was: both buffers,
    the write index and the decode counter keep their values, so the
    published frame is still the last good one.  A successful decode has
    a frame without error; it converts that frame into the buffer that
    was the write buffer, makes it the published one by flipping the
    index, and leaves the previously published frame, untouched, as the
    next write buffer. *)
Theorem decode_publishes_or_keeps
    (ctx : camera_context_t) (env : decode_env) (n : Z) :
  exchange_ok ctx ->
  let ctx' := fst (decode_mjpeg_to_bgra_fast ctx env n) in
  let ret := snd (decode_mjpeg_to_bgra_fast ctx env n) in
  exchange_ok ctx' /\
  ((ret = -1 /\ bgra_buffer ctx' = bgra_buffer ctx /\
    bgra_write_idx ctx' = bgra_write_idx ctx /\
    published ctx' = published ctx /\
    decode_count ctx' = decode_count ctx)
   \/
   (ret = 0 /\
    exists yuv f,
      out_frame env = Some f /\ f_buffer f = Some yuv /\ f_errinfo f = 0 /\
      bgra_write_idx ctx' = 1 - bgra_write_idx ctx /\
      published ctx'
      = yuv_to_bgra_cpu yuv (write_buffer ctx) (f_width f) (f_height f)
          (f_hor_stride f) (f_ver_stride f) (f_fmt f) /\
      write_buffer ctx' = published ctx)).
Proof.
  intros Hok. cbv zeta. rewrite decode_normal_form.
  destruct (decode_passes ctx env n) as [[yuv f]|] eqn:Hp; cbn [fst snd].
  - assert (Hok' : exchange_ok (advanced ctx)) by exact Hok.
    destruct (publish_exchange (advanced ctx) yuv f Hok')
      as (Hex & Hidx & Hpub & Hwr & _).
    destruct (decode_passes_inv _ _ _ _ _ Hp) as (Hf & Hb & He).
    split; [exact Hex|]. right. split; [reflexivity|].
    exists yuv, f. repeat split; assumption.
  - split; [exact Hok|]. left. repeat split.
Qed.

Lemma decode_publishes_or_keeps_witness :
  published (fst (decode_mjpeg_to_bgra_fast small_ctx decode_grey 8))
  = [100; 100; 100; 255; 100; 100; 100; 255; 100; 100; 100; 255;
     100; 100; 100; 255; 100; 100; 100; 255; 100; 100; 100; 255;
     100; 100; 100; 255; 100; 100; 100; 255].
Proof.
  assert (Hok : exchange_ok small_ctx) by (split; [left|]; reflexivity).
  destruct (decode_publishes_or_keeps small_ctx decode_grey 8 Hok)
    as [_ [(Hret & _) | (_ & yuv & f & Hf & Hb & _ & _ & Hpub & _)]].
  - vm_compute in Hret. discriminate Hret.
  - injection Hf as <-. injection Hb as <-. rewrite Hpub.
    vm_compute. reflexivity.
Defined.

Lemma decode_and_notify_normal_form ctx env n :
  decode_and_notify ctx env n
  = if 0 <? n then
      match decode_passes ctx env n with
      | Some (yuv, f) =>
          (publish (advanced ctx) yuv f,
           match callback ctx with
           | Some cb =>
               [Frame_callback cb (user_data ctx) (bgra_write_idx ctx)
                  (width ctx) (height ctx) (int32 (width ctx * 4))]
           | None => []
           end)
      | None => (advanced ctx, [])
      end
    else (ctx, []).
Proof.
  unfold decode_and_notify. destruct (0 <? n); [|reflexivity].
  rewrite decode_normal_form.
  destruct (decode_passes ctx env n) as [[yuv f]|]; [|reflexivity].
  cbn [Z.eqb].
  change (callback (publish (advanced ctx) yuv f)) with (callback ctx).
  destruct (callback ctx) as [cb|]; [|reflexivity].
  change (bgra_write_idx (publish (advanced ctx) yuv f))
    with (1 - bgra_write_idx ctx).
  replace (1 - (1 - bgra_write_idx ctx)) with (bgra_write_idx ctx) by lia.
  reflexivity.
Qed.

(** X10: The frame callback is made exactly when the decode succeeded and a
    callback is registered, and then once.  It is given the slot that the
    decode has just published together with the context's width and
    height and a stride of four bytes per pixel. *)
Theorem callback_gets_published_frame
    (ctx ctx' : camera_context_t) (env : decode_env) (n : Z)
    (eff : list camera_effect) :
  exchange_ok ctx ->
  decode_and_notify ctx env n = (ctx', eff) ->
  (forall cb ud slot w h stride,
     Frame_callback cb ud slot w h stride ∈ eff ->
     eff = [Frame_callback cb ud slot w h stride] /\
     decode_succeeded ctx env n = true /\
     callback ctx = Some cb /\ ud = user_data ctx /\
     w = width ctx' /\ h = height ctx' /\ stride = int32 (width ctx' * 4) /\
     slot = 1 - bgra_write_idx ctx' /\
     bgra_buffer ctx' !! Z.to_nat slot = Some (published ctx')) /\
  (forall cb, decode_succeeded ctx env n = true -> callback ctx = Some cb ->
     exists slot, eff = [Frame_callback cb (user_data ctx) slot (width ctx)
                           (height ctx) (int32 (width ctx * 4))]).
Proof.
  intros Hok. rewrite decode_and_notify_normal_form, decode_succeeded_passes.
  destruct (0 <? n); cbn [andb].
  - destruct (decode_passes ctx env n) as [[yuv f]|] eqn:Hp.
    + intros [= <- <-].
      assert (Hok' : exchange_ok (advanced ctx)) by exact Hok.
      destruct (publish_exchange (advanced ctx) yuv f Hok')
        as (_ & Hidx & _ & _ & Hslot).
      rewrite bool_decide_eq_true_2 by eauto.
      split.
      * intros cb ud slot w h stride Hin.
        destruct (callback ctx) as [cb0|]; [|inversion Hin].
        apply list_elem_of_singleton in Hin. injection Hin as -> -> -> -> -> ->.
        repeat split; try reflexivity.
        -- rewrite Hidx. change (bgra_write_idx (advanced ctx))
             with (bgra_write_idx ctx). lia.
        -- exact Hslot.
      * intros cb _ ->. eexists. reflexivity.
    + intros [= <- <-]. split; [intros ? ? ? ? ? ? Hin; inversion Hin|].
      intros cb Hs. rewrite bool_decide_eq_false_2 in Hs; [discriminate|].
      intros [x Hx]; discriminate Hx.
  - intros [= <- <-]. split; [intros ? ? ? ? ? ? Hin; inversion Hin|].
    intros cb Hs. discriminate Hs.
Qed.

Lemma callback_gets_published_frame_witness :
  snd (decode_and_notify small_ctx decode_grey 8)
  = [Frame_callback 7 0 0 4 2 16].
Proof.
  assert (Hok : exchange_ok small_ctx) by (split; [left|]; reflexivity).
  destruct (callback_gets_published_frame small_ctx
              (fst (decode_and_notify small_ctx decode_grey 8)) decode_grey 8
              (snd (decode_and_notify small_ctx decode_grey 8)) Hok)
    as [_ H]; [vm_compute; reflexivity|].
  destruct (H 7%nat) as [slot Hs]; [vm_compute; reflexivity..|].
  rewrite Hs. vm_compute in Hs. injection Hs as <-. vm_compute. reflexivity.
Defined.

(** The effects of one iteration: none, or the dequeue of a buffer, at
    most one callback, and the requeue of that buffer. *)
Lemma iteration_effects ctx env :
  let eff := snd (fst (capture_iteration ctx env)) in
  eff = [] \/
  exists i mid,
    eff = Dequeue_buffer i :: mid ++ [Queue_buffer i] /\
    (mid = [] \/ exists cb ud slot w h s, mid = [Frame_callback cb ud slot w h s]).
Proof.
  unfold capture_iteration.
  destruct (running ctx =? 0); [left; reflexivity|].
  destruct (select_r env) as [eintr| |]; try (left; reflexivity).
  destruct (dqbuf_r env) as [eagain|index bytesused]; [left; reflexivity|].
  right. rewrite decode_and_notify_normal_form.
  exists index.
  destruct (0 <? bytesused).
  - destruct (decode_passes _ (dec env) bytesused) as [[yuv f]|].
    + destruct (callback _) as [cb|]; eexists; (split; [reflexivity|]).
      * right. repeat eexists.
      * left. reflexivity.
    + exists []. split; [reflexivity|left; reflexivity].
  - exists []. split; [reflexivity|left; reflexivity].
Qed.

Lemma ownership_app eff1 : forall eff2 held,
  ownership (eff1 ++ eff2) held
  = match ownership eff1 held with
    | Some held' => ownership eff2 held'
    | None => None
    end.
Proof.
  induction eff1 as [|e eff1 IH]; intros eff2 held; [reflexivity|].
  destruct e; cbn [app ownership]; try reflexivity.
  - destruct held as [j|]; [|reflexivity].
    destruct (index =? j); [apply IH|reflexivity].
  - destruct held; [reflexivity|apply IH].
  - destruct held; [apply IH|reflexivity].
Qed.

Lemma iteration_ownership ctx env :
  ownership (snd (fst (capture_iteration ctx env))) None = Some None.
Proof.
  destruct (iteration_effects ctx env) as [-> | (i & mid & -> & Hmid)];
    [reflexivity|].
  destruct Hmid as [-> | (cb & ud & slot & w & h & s & ->)];
    cbn [app ownership]; rewrite Z.eqb_refl; reflexivity.
Qed.

(** X11: Buffer ownership in the worker: over any run of the capture loop the
    worker holds at most one V4L2 buffer at a time; each buffer it
    dequeues is requeued before the next dequeue, a callback is only made
    while the dequeued buffer is still held, and when the loop ends no
    buffer is left with the worker. *)
Theorem worker_returns_every_buffer
    (steps : list (bool * iteration_env)) (ctx : camera_context_t) :
  ownership (snd (capture_loop steps ctx)) None = Some None /\
  ownership (snd (capture_thread_func steps ctx)) None = Some None.
Proof.
  assert (H : forall steps ctx,
             ownership (snd (capture_loop steps ctx)) None = Some None).
  { clear. induction steps as [|[stopped env] rest IH]; intros ctx;
      [reflexivity|].
    cbn [capture_loop].
    pose proof (iteration_ownership
                  (if stopped then set_running ctx 0 else ctx) env) as Hit.
    destruct (capture_iteration _ env) as [[ctx1 eff] st]. cbn [fst snd] in Hit.
    destruct st; [|exact Hit].
    pose proof (IH ctx1) as Hrest.
    destruct (capture_loop rest ctx1) as [ctx2 eff2]. cbn [snd] in *.
    rewrite ownership_app, Hit. exact Hrest. }
  split; [apply H|apply H].
Qed.

(** X12: Cancellation: once [running] has been cleared, the loop ends at its
    next condition check; nothing is dequeued, decoded or called back
    after that, whatever the device would have delivered. *)
Theorem worker_stops_at_next_check
    (before rest : list (bool * iteration_env)) (env : iteration_env)
    (ctx : camera_context_t) :
  snd (capture_loop (before ++ (true, env) :: rest) ctx)
  = snd (capture_loop before ctx) /\
  capture_loop ((true, env) :: rest) ctx = (set_running ctx 0, []).
Proof.
  split; [|reflexivity].
  revert ctx. induction before as [|[stopped env0] before IH]; intros ctx.
  - reflexivity.
  - cbn [app capture_loop].
    destruct (capture_iteration _ env0) as [[ctx1 eff] st].
    destruct st; [|reflexivity].
    pose proof (IH ctx1) as Hrest.
    destruct (capture_loop (before ++ _) ctx1) as [ctx2 eff2].
    destruct (capture_loop before ctx1) as [ctx3 eff3].
    cbn [snd] in *. rewrite Hrest. reflexivity.
Qed.

Lemma count_if_app f eff1 eff2 :
  count_if f (eff1 ++ eff2) = count_if f eff1 + count_if f eff2.
Proof.
  induction eff1 as [|e eff1 IH]; cbn [app count_if]; [lia|]. rewrite IH. lia.
Qed.

Lemma count_if_frame f i mid :
  count_if f (Dequeue_buffer i :: mid ++ [Queue_buffer i])
  = (if f (Dequeue_buffer i) then 1 else 0) + count_if f mid
    + (if f (Queue_buffer i) then 1 else 0).
Proof. cbn [count_if]. rewrite count_if_app. cbn [count_if]. lia. Qed.

Lemma publish_counts ctx yuv f :
  frame_count (publish (advanced ctx) yuv f) = frame_count ctx /\
  decode_count (publish (advanced ctx) yuv f) = int32 (decode_count ctx + 1) /\
  callback (publish (advanced ctx) yuv f) = callback ctx.
Proof. repeat split. Qed.

Lemma iteration_counts ctx env :
  - 2 ^ 31 <= frame_count ctx < 2 ^ 31 - 1 ->
  0 <= decode_count ctx <= frame_count ctx ->
  let ctx' := fst (fst (capture_iteration ctx env)) in
  let eff := snd (fst (capture_iteration ctx env)) in
  0 <= count_if is_dequeue eff <= 1 /\
  frame_count ctx' = frame_count ctx + count_if is_dequeue eff /\
  decode_count ctx <= decode_count ctx' /\
  decode_count ctx' - decode_count ctx <= count_if is_dequeue eff /\
  count_if is_callback eff <= decode_count ctx' - decode_count ctx /\
  callback ctx' = callback ctx /\
  (callback ctx <> None ->
     count_if is_callback eff = decode_count ctx' - decode_count ctx).
Proof.
  intros Hfc Hdc. cbv zeta. unfold capture_iteration.
  destruct (running ctx =? 0);
    [cbn [fst snd count_if]; repeat split; solve [lia | auto]|].
  destruct (select_r env) as [eintr| |];
    try solve [cbn [fst snd count_if]; repeat split; solve [lia | auto]].
  destruct (dqbuf_r env) as [eagain|index bytesused];
    [cbn [fst snd count_if]; repeat split; solve [lia | auto]|].
  rewrite decode_and_notify_normal_form.
  change (decode_passes (set_frame_count ctx (int32 (frame_count ctx + 1)))
            (dec env) bytesused)
    with (decode_passes ctx (dec env) bytesused).
  assert (Hi : int32 (frame_count ctx + 1) = frame_count ctx + 1)
    by (unfold int32; rewrite Z.mod_small; lia).
  assert (Hd : int32 (decode_count ctx + 1) = decode_count ctx + 1)
    by (unfold int32; rewrite Z.mod_small; lia).
  destruct (0 <? bytesused).
  - destruct (decode_passes ctx (dec env) bytesused) as [[yuv f]|].
    + cbn [fst snd]. rewrite count_if_frame.
      change (frame_count (publish _ yuv f)) with (int32 (frame_count ctx + 1)).
      change (decode_count (publish _ yuv f)) with (int32 (decode_count ctx + 1)).
      change (callback (publish _ yuv f)) with (callback ctx).
      change (callback (set_frame_count ctx (int32 (frame_count ctx + 1))))
        with (callback ctx).
      rewrite Hi, Hd.
      destruct (callback ctx) as [cb|]; cbn [count_if app is_dequeue is_callback];
        repeat split; try lia; congruence.
    + cbn [fst snd app count_if is_dequeue is_callback].
      change (frame_count (advanced _)) with (int32 (frame_count ctx + 1)).
      change (decode_count (advanced _)) with (decode_count ctx).
      rewrite Hi. repeat split; try lia; auto.
  - cbn [fst snd app count_if is_dequeue is_callback].
    change (frame_count (set_frame_count ctx _)) with (int32 (frame_count ctx + 1)).
    change (decode_count (set_frame_count ctx _)) with (decode_count ctx).
    rewrite Hi. repeat split; try lia; auto.
Qed.

(** X13: Counters of the worker.  From a context whose counters are consistent
    (in particular right after [camera_start], which zeroes them), and as
    long as the [int] counters cannot overflow, the frame counter grows by
    the number of buffers dequeued, at most one per iteration; the decode
    counter never exceeds it; and when a callback is registered the number
    of callbacks made equals the growth of the decode counter. *)
Theorem worker_counters
    (steps : list (bool * iteration_env)) (ctx : camera_context_t) :
  0 <= decode_count ctx <= frame_count ctx ->
  frame_count ctx + Z.of_nat (length steps) < 2 ^ 31 ->
  let ctx' := fst (capture_loop steps ctx) in
  let eff := snd (capture_loop steps ctx) in
  frame_count ctx' = frame_count ctx + count_if is_dequeue eff /\
  0 <= count_if is_dequeue eff <= Z.of_nat (length steps) /\
  decode_count ctx <= decode_count ctx' /\
  decode_count ctx' - decode_count ctx <= count_if is_dequeue eff /\
  decode_count ctx' <= frame_count ctx' /\
  count_if is_callback eff <= decode_count ctx' - decode_count ctx /\
  (callback ctx <> None ->
     count_if is_callback eff = decode_count ctx' - decode_count ctx).
Proof.
  revert ctx. induction steps as [|[stopped env] rest IH]; intros ctx Hdc Hfc.
  - cbn [capture_loop fst snd count_if length]. repeat split; lia.
  - cbv zeta. cbn [capture_loop]. rewrite length_cons, Nat2Z.inj_succ in *.
    set (ctx0 := if stopped then set_running ctx 0 else ctx).
    assert (Hf0 : frame_count ctx0 = frame_count ctx)
      by (unfold ctx0; destruct stopped; reflexivity).
    assert (Hd0 : decode_count ctx0 = decode_count ctx)
      by (unfold ctx0; destruct stopped; reflexivity).
    assert (Hc0 : callback ctx0 = callback ctx)
      by (unfold ctx0; destruct stopped; reflexivity).
    destruct (iteration_counts ctx0 env) as (Hq & Hfr & Hlo & Hhi & Hcb & Hcal & Heq);
      [rewrite Hf0; lia | rewrite Hf0, Hd0; lia |].
    destruct (capture_iteration ctx0 env) as [[ctx1 eff] st].
    cbn [fst snd] in Hq, Hfr, Hlo, Hhi, Hcb, Hcal, Heq.
    rewrite Hf0 in Hfr. rewrite Hd0 in Hlo, Hhi, Hcb, Heq.
    rewrite Hc0 in Hcal, Heq.
    destruct st.
    + destruct (IH ctx1) as (Hfr' & Hq' & Hlo' & Hhi' & Hle' & Hcb' & Heq');
        [lia | lia |].
      destruct (capture_loop rest ctx1) as [ctx2 eff2].
      cbn [fst snd] in *. rewrite !count_if_app.
      repeat split; try lia.
      intros Hsome. rewrite Heq by exact Hsome.
      rewrite Heq' by (rewrite Hcal; exact Hsome). lia.
    + cbn [fst snd]. repeat split; try lia. exact Heq.
Qed.

Lemma worker_counters_witness :
  let result := capture_loop
                  [(false, iteration_grey); (false, iteration_decode_fails);
                   (false, iteration_grey)] small_ctx in
  frame_count (fst result) = 3 /\ decode_count (fst result) = 2 /\
  count_if is_callback (snd result) = 2.
Proof.
  cbv zeta.
  assert (Hf : frame_count small_ctx = 0) by (vm_compute; reflexivity).
  assert (Hd : decode_count small_ctx = 0) by (vm_compute; reflexivity).
  assert (Hc : callback small_ctx <> None) by (vm_compute; discriminate).
  destruct (worker_counters
              [(false, iteration_grey); (false, iteration_decode_fails);
               (false, iteration_grey)] small_ctx)
    as (Hfr & _ & _ & _ & _ & _ & Heq);
    [rewrite Hf, Hd; lia | rewrite Hf; cbn [length]; lia |].
  rewrite Hfr, (Heq Hc), Hf, Hd. vm_compute. repeat split; reflexivity.
Defined.

End WorkerFacts.

(** ** The capture API: start, stop and the synchronous read *)

Module CameraApiFacts.
Import Convert Camera Worker WorkerFacts.

Lemma queue_all_result env n : forall i,
  let '(r, eff) := queue_all n i env in
  count_if is_thread_create eff = 0 /\
  (r = 0 \/ r = -1) /\
  (r = 0 -> eff = Queue_buffer <$> seqZ i (Z.of_nat n)).
Proof.
  induction n as [|n IH]; intros i.
  - cbn [queue_all count_if]. repeat split; auto.
  - cbn [queue_all]. destruct (qbuf_ok env i).
    + specialize (IH (i + 1)). destruct (queue_all n (i + 1) env) as [r eff].
      destruct IH as (Hc & Hr & He). cbn [count_if is_thread_create].
      split; [lia|]. split; [exact Hr|]. intros H0.
      rewrite Nat2Z.inj_succ, seqZ_cons by lia. cbn [fmap list_fmap].
      f_equal. rewrite (He H0).
      replace (Z.pred (Z.succ (Z.of_nat n))) with (Z.of_nat n) by lia.
      replace (Z.succ i) with (i + 1) by lia. reflexivity.
    + cbn [count_if is_thread_create]. repeat split; auto. discriminate.
Qed.

Lemma start_streaming_result ctx env :
  let '(r, eff) := v4l2_start_streaming ctx env in
  count_if is_thread_create eff = 0 /\
  (r = 0 \/ r = -1) /\
  (r = 0 ->
     eff = (Queue_buffer <$> seqZ 0 (buffer_count ctx)) ++ [Stream_on]).
Proof.
  unfold v4l2_start_streaming.
  pose proof (queue_all_result env (Z.to_nat (buffer_count ctx)) 0) as H.
  destruct (queue_all _ 0 env) as [r eff]. destruct H as (Hc & Hr & He).
  destruct Hr as [-> | ->].
  - destruct (streamon_ok env).
    + rewrite count_if_app. cbn [count_if is_thread_create].
      split; [lia|]. split; [auto|]. intros _. rewrite He by reflexivity.
      unfold seqZ. rewrite Nat2Z.id. reflexivity.
    + rewrite count_if_app. cbn [count_if is_thread_create].
      split; [lia|]. split; [auto|]. discriminate.
  - split; [exact Hc|]. split; [auto|]. discriminate.
Qed.

(** X14: A [camera_start] that returns OK on a context that was not running
    has queued every V4L2 buffer once, in index order, switched streaming
    on, and created exactly one worker thread, in this order.  The
    context is then running with the worker started, both counters at
    zero and the callback registered; frames, geometry and the state of
    the frame exchange are as before. *)
Theorem camera_start_brings_up
    (ctx ctx' : camera_context_t) (cb : option nat) (ud : Z)
    (env : start_env) (eff : list camera_effect) :
  running ctx = 0 ->
  camera_start (Some ctx) cb ud env = (Some ctx', CAMERA_OK, eff) ->
  (exists realtime,
     eff = (Queue_buffer <$> seqZ 0 (buffer_count ctx))
           ++ [Stream_on; Thread_create realtime]) /\
  count_if is_thread_create eff = 1 /\
  running ctx' = 1 /\ thread_started ctx' = 1 /\
  frame_count ctx' = 0 /\ decode_count ctx' = 0 /\
  callback ctx' = cb /\ user_data ctx' = ud /\
  camera_is_running (Some ctx') = true /\
  bgra_buffer ctx' = bgra_buffer ctx /\
  bgra_write_idx ctx' = bgra_write_idx ctx /\
  width ctx' = width ctx /\ height ctx' = height ctx.
Proof.
  intros Hrun. unfold camera_start. rewrite Hrun. cbn [Z.eqb negb].
  match goal with
  | |- context [v4l2_start_streaming ?c env] =>
      pose proof (start_streaming_result c env) as H;
      destruct (v4l2_start_streaming c env) as [r eff0]
  end.
  destruct H as (Hc & Hr & He).
  change (buffer_count _) with (buffer_count ctx) in He.
  destruct Hr as [-> | ->]; [|discriminate].
  specialize (He eq_refl). subst eff0.
  destruct (create_realtime_ok env); [|destruct (create_default_ok env)];
    try discriminate;
    intros [= <- <-];
    (split; [eexists; rewrite <- app_assoc; reflexivity|]);
    (split; [rewrite count_if_app; cbn [count_if is_thread_create]; lia|]);
    repeat split.
Qed.

Lemma camera_start_brings_up_witness :
  snd (camera_start (Some (set_running small_ctx 0)) None 9 start_ok)
  = [Queue_buffer 0; Queue_buffer 1; Queue_buffer 2; Queue_buffer 3;
     Stream_on; Thread_create true].
Proof.
  destruct (camera_start (Some (set_running small_ctx 0)) None 9 start_ok)
    as [[h err] eff] eqn:E.
  assert (E' := E). vm_compute in E'. injection E' as <- <- <-.
  destruct (camera_start_brings_up (set_running small_ctx 0) _ None 9 start_ok _
              eq_refl E) as [[rt Heff] _].
  reflexivity.
Defined.

Lemma start_after_failed_start ctx cb ud cb2 ud2 env2 :
  running ctx = 0 ->
  camera_start
    (Some (set_running
             (set_counters
                (set_thread_started (set_running (set_callback ctx cb ud) 1) 0)
                0 0) 0)) cb2 ud2 env2
  = camera_start (Some ctx) cb2 ud2 env2.
Proof.
  intros Hrun. destruct ctx. cbn [running] in Hrun. subst.
  reflexivity.
Qed.

(** X15: A [camera_start] that fails reports V4L2_INIT_FAILED, has created no
    thread and leaves the context not running; if streaming had been
    switched on it is switched off again.  The failed attempt leaves no
    trace: a later [camera_start] behaves as it would have on the
    context as it was before. *)
Theorem camera_start_failure_leaves_stopped
    (ctx : camera_context_t) (cb : option nat) (ud : Z) (env : start_env)
    (h : option camera_context_t) (err : camera_error_t)
    (eff : list camera_effect) :
  camera_start (Some ctx) cb ud env = (h, err, eff) ->
  err <> CAMERA_OK ->
  err = CAMERA_ERROR_V4L2_INIT_FAILED /\
  count_if is_thread_create eff = 0 /\
  camera_is_running h = false /\
  (fst (v4l2_start_streaming ctx env) = 0 ->
     list.last eff = Some Stream_off) /\
  (forall cb2 ud2 env2,
     camera_start h cb2 ud2 env2 = camera_start (Some ctx) cb2 ud2 env2).
Proof.
  unfold camera_start at 1.
  destruct (Z.eqb_spec (running ctx) 0) as [Hrun|Hrun]; cbn [negb];
    [|intros [= <- <- <-] Herr; contradiction].
  change (v4l2_start_streaming
            (set_counters
               (set_thread_started (set_running (set_callback ctx cb ud) 1) 0)
               0 0) env)
    with (v4l2_start_streaming ctx env).
  pose proof (start_streaming_result ctx env) as H.
  destruct (v4l2_start_streaming ctx env) as [r eff0].
  destruct H as (Hc & Hr & He).
  destruct Hr as [-> | ->].
  - destruct (create_realtime_ok env);
      [intros [= <- <- <-] Herr; contradiction|].
    destruct (create_default_ok env);
      [intros [= <- <- <-] Herr; contradiction|].
    intros [= <- <- <-] _.
    split; [reflexivity|].
    split; [rewrite count_if_app; cbn [count_if is_thread_create]; lia|].
    split; [reflexivity|].
    split; [intros _; apply last_snoc|].
    intros cb2 ud2 env2. apply start_after_failed_start. exact Hrun.
  - intros [= <- <- <-] _.
    split; [reflexivity|]. split; [exact Hc|]. split; [reflexivity|].
    split; [cbn [fst]; discriminate|].
    intros cb2 ud2 env2. apply start_after_failed_start. exact Hrun.
Qed.

Lemma camera_start_failure_leaves_stopped_witness :
  let env := {| qbuf_ok := fun _ => true; streamon_ok := true;
                create_realtime_ok := false; create_default_ok := false |} in
  let ctx := default zeroed_context
               (camera_init (Some sample_device) 4 2 30
                  (init_with (driver 4 2 4))) in
  let r := camera_start (Some ctx) (Some 7%nat) 0 env in
  snd (fst r) = CAMERA_ERROR_V4L2_INIT_FAILED /\
  camera_is_running (fst (fst r)) = false /\
  list.last (snd r) = Some Stream_off.
Proof.
  intros env ctx r.
  destruct (camera_start_failure_leaves_stopped ctx (Some 7%nat) 0 env
              (fst (fst r)) (snd (fst r)) (snd r))
    as (H1 & _ & H3 & H4 & _).
  - vm_compute. reflexivity.
  - vm_compute. discriminate.
  - split; [exact H1|]. split; [exact H3|]. apply H4.
    vm_compute. reflexivity.
Defined.

(** X16: [camera_stop] on a running context returns OK; it joins the worker
    if one was started and then switches streaming off.  Afterwards the
    context is not running: an iteration of the worker loop ends at once
    without effect and the synchronous read answers NOT_RUNNING.  The
    counters, the callback and the published frame are kept. *)
Theorem camera_stop_winds_down (ctx : camera_context_t) :
  running ctx <> 0 ->
  exists ctx',
    camera_stop (Some ctx)
    = (Some ctx', CAMERA_OK,
       (if thread_started ctx =? 0 then [] else [Thread_join]) ++ [Stream_off]) /\
    running ctx' = 0 /\ thread_started ctx' = 0 /\
    camera_is_running (Some ctx') = false /\
    frame_count ctx' = frame_count ctx /\
    decode_count ctx' = decode_count ctx /\
    callback ctx' = callback ctx /\
    published ctx' = published ctx /\
    (forall env, capture_iteration ctx' env = (ctx', [], Loop_break)) /\
    (forall dst size wo ho t,
       camera_capture_frame (Some ctx') (Some dst) size wo ho t
       = (CAMERA_ERROR_NOT_RUNNING, Some dst, wo, ho)).
Proof.
  intros Hrun. unfold camera_stop.
  destruct (Z.eqb_spec (running ctx) 0) as [E|_]; [contradiction|].
  cbn [thread_started set_running].
  destruct (Z.eqb_spec (thread_started ctx) 0) as [Hts|Hts]; cbn [negb app];
    eexists; (split; [reflexivity|]); repeat split; try assumption.
Qed.

Lemma camera_stop_winds_down_witness :
  snd (camera_stop (Some small_ctx)) = [Thread_join; Stream_off].
Proof.
  assert (Hrun : running small_ctx <> 0) by (vm_compute; discriminate).
  destruct (camera_stop_winds_down small_ctx Hrun) as (ctx' & Hstop & _).
  rewrite Hstop. reflexivity.
Defined.

(** X17: [camera_capture_frame] succeeds exactly when the handle and the
    destination are not NULL, the context is running and the destination
    is at least as large as a frame; it answers NOT_RUNNING exactly when
    only the running test fails, and INVALID_PARAM otherwise.  On every
    error the destination buffer and the two output integers are left as
    they were. *)
Theorem capture_frame_rejects_untouched
    (handle : option camera_context_t) (bgra_data : option (list Z))
    (buffer_size : Z) (width_out height_out : option Z) (timeout_ms : Z) :
  let '(err, data, w, h) :=
    camera_capture_frame handle bgra_data buffer_size width_out height_out
      timeout_ms in
  (err = CAMERA_OK <->
     exists ctx dst, handle = Some ctx /\ bgra_data = Some dst /\
                     running ctx <> 0 /\ bgra_buffer_size ctx <= buffer_size) /\
  (err = CAMERA_ERROR_NOT_RUNNING <->
     exists ctx dst, handle = Some ctx /\ bgra_data = Some dst /\
                     running ctx = 0) /\
  (err = CAMERA_OK \/ err = CAMERA_ERROR_NOT_RUNNING
   \/ err = CAMERA_ERROR_INVALID_PARAM) /\
  (err <> CAMERA_OK ->
     data = bgra_data /\ w = width_out /\ h = height_out).
Proof.
  unfold camera_capture_frame.
  destruct handle as [ctx|], bgra_data as [dst|];
    [destruct (Z.eqb_spec (running ctx) 0) as [Hrun|Hrun];
     [|destruct (Z.ltb_spec buffer_size (bgra_buffer_size ctx)) as [Hs|Hs]]
    | | |];
    repeat split;
    first
      [ solve [auto]
      | discriminate
      | solve [intros (c & d & Hc & Hd & Hx); (discriminate Hc || discriminate Hd)]
      | solve [intros (c & d & [= <-] & _ & Hx);
               first [contradiction | lia
                     | destruct Hx; first [contradiction | lia]]]
      | solve [intros _; eauto 10]
      | solve [intros Hx; contradiction]
      | solve [exfalso; congruence] ].
Qed.

Lemma memcpy_shape (dst src : list Z) (n : Z) :
  length src = Z.to_nat n -> (Z.to_nat n <= length dst)%nat ->
  take (Z.to_nat n) (memcpy dst src n) = src /\
  drop (Z.to_nat n) (memcpy dst src n) = drop (Z.to_nat n) dst /\
  length (memcpy dst src n) = length dst.
Proof.
  intros Hs Hd. unfold memcpy.
  rewrite (take_ge src) by lia.
  split; [rewrite take_app_length'; [reflexivity|symmetry; exact Hs]|].
  split; [rewrite drop_app_length'; [reflexivity|symmetry; exact Hs]|].
  rewrite length_app, length_drop. lia.
Qed.

(** X18: On success the synchronous read overwrites exactly one frame: the
    first [bgra_buffer_size] bytes of the destination become the
    published frame, the rest of the destination and its size are
    unchanged, and the width and height written are the context's. *)
Theorem capture_frame_overwrites_one_frame
    (ctx : camera_context_t) (dst : list Z) (buffer_size : Z)
    (width_out height_out : option Z) (timeout_ms : Z) :
  running ctx <> 0 ->
  bgra_buffer_size ctx <= buffer_size ->
  length (published ctx) = Z.to_nat (bgra_buffer_size ctx) ->
  bgra_buffer_size ctx <= Z.of_nat (length dst) ->
  exists out,
    camera_capture_frame (Some ctx) (Some dst) buffer_size width_out
      height_out timeout_ms
    = (CAMERA_OK, Some out, store_out width_out (width ctx),
       store_out height_out (height ctx)) /\
    take (Z.to_nat (bgra_buffer_size ctx)) out = published ctx /\
    drop (Z.to_nat (bgra_buffer_size ctx)) out
    = drop (Z.to_nat (bgra_buffer_size ctx)) dst /\
    length out = length dst.
Proof.
  intros Hrun Hsize Hpub Hdst. unfold camera_capture_frame.
  destruct (Z.eqb_spec (running ctx) 0); [contradiction|].
  destruct (Z.ltb_spec buffer_size (bgra_buffer_size ctx)); [lia|].
  eexists. split; [reflexivity|].
  apply memcpy_shape; [exact Hpub|lia].
Qed.

Lemma capture_frame_overwrites_one_frame_witness :
  exists out,
    camera_capture_frame (Some small_ctx) (Some (replicate 40 9)) 40
      (Some 0) (Some 0) 0
    = (CAMERA_OK, Some out, Some 4, Some 2) /\
    drop 32 out = replicate 8 9.
Proof.
  assert (Hrun : running small_ctx <> 0) by (vm_compute; discriminate).
  assert (Hsz : bgra_buffer_size small_ctx = 32) by (vm_compute; reflexivity).
  destruct (capture_frame_overwrites_one_frame small_ctx (replicate 40 9) 40
              (Some 0) (Some 0) 0 Hrun)
    as (out & Hcall & _ & Hdrop & _).
  - rewrite Hsz. lia.
  - vm_compute. reflexivity.
  - rewrite Hsz. vm_compute. discriminate.
  - exists out. rewrite Hsz in Hdrop. split; [|exact Hdrop].
    rewrite Hcall. vm_compute. reflexivity.
Defined.

End CameraApiFacts.

(** ** What a handle returned by [camera_init] guarantees *)

Module CameraInitFacts.
Import Convert Camera Teardown TeardownFacts Worker WorkerFacts.

(** The fields the two initialisers have no business with. *)
Definition thread_state (ctx : camera_context_t) :=
  (running ctx, thread_started ctx, frame_count ctx, decode_count ctx,
   callback ctx, user_data ctx, fps ctx, bgra_write_idx ctx).

Definition v4l2_state (ctx : camera_context_t) :=
  (v4l2_fd ctx, buffer_count ctx, width ctx, height ctx).

Lemma map_buffers_keeps env n : forall i ctx,
  thread_state (fst (map_buffers n i ctx env)) = thread_state ctx /\
  decode_bufs (fst (map_buffers n i ctx env)) = decode_bufs ctx /\
  v4l2_state (fst (map_buffers n i ctx env)) = v4l2_state ctx.
Proof.
  induction n as [|n IH]; intros i ctx; cbn [map_buffers].
  - repeat split.
  - destruct (querybuf_result env i) as [[len off]|]; [|repeat split].
    destruct (mmap_ok env i); [|repeat split].
    destruct (IH (i + 1)
                (set_v4l2_buffers ctx
                   (<[Z.to_nat i := {| buf_start := Mapped off; buf_length := len |}]>
                      (v4l2_buffers ctx)))) as (H1 & H2 & H3).
    rewrite H1, H2, H3. repeat split.
Qed.

Lemma v4l2_init_success ctx0 env ctx :
  v4l2_init ctx0 env = (ctx, 0) ->
  thread_state ctx = thread_state ctx0 /\
  decode_bufs ctx = decode_bufs ctx0 /\
  exists w h n,
    s_fmt_result env = Some (V4L2_PIX_FMT_MJPEG, w, h) /\
    reqbufs_result env = Some n /\ 2 <= n /\
    v4l2_state ctx = (open_result env, int32 n, int32 w, int32 h) /\
    0 <= open_result env.
Proof.
  unfold v4l2_init. cbn [v4l2_fd set_v4l2_fd].
  destruct (Z.ltb_spec (open_result env) 0); [discriminate|].
  destruct (querycap_result env) as [caps|]; [|discriminate].
  destruct (Z.land caps V4L2_CAP_VIDEO_CAPTURE =? 0); [discriminate|].
  destruct (Z.land caps V4L2_CAP_STREAMING =? 0); [discriminate|].
  destruct (s_fmt_result env) as [[[pf w] h]|]; [|discriminate].
  destruct (Z.eqb_spec pf V4L2_PIX_FMT_MJPEG) as [->|]; cbn [negb];
    [|discriminate].
  destruct (reqbufs_result env) as [n|]; [|discriminate].
  destruct (Z.ltb_spec n 2); [discriminate|].
  match goal with
  | |- map_buffers ?k 0 ?c env = _ -> _ =>
      destruct (map_buffers_keeps env k 0 c) as (H1 & H2 & H3);
      intros Hmap; rewrite Hmap in H1, H2, H3; cbn [fst] in H1, H2, H3
  end.
  split; [exact H1|]. split; [exact H2|].
  exists w, h, n. repeat split; auto.
Qed.

Lemma alloc_decode_bufs_keeps env pkt frm n : forall i ctx,
  thread_state (fst (alloc_decode_bufs n i pkt frm ctx env)) = thread_state ctx /\
  v4l2_state (fst (alloc_decode_bufs n i pkt frm ctx env)) = v4l2_state ctx.
Proof.
  induction n as [|n IH]; intros i ctx; cbn [alloc_decode_bufs].
  - repeat split.
  - destruct (buffer_get_ok env i false); cbn [negb]; [|repeat split].
    destruct (buffer_get_ok env i true); cbn [negb]; [|repeat split].
    match goal with
    | |- context [alloc_decode_bufs n (i + 1) pkt frm ?c env] =>
        destruct (IH (i + 1) c) as (H1 & H2)
    end.
    rewrite H1, H2. repeat split.
Qed.

Lemma mpp_decoder_init_success ctx0 env ctx :
  length (decode_bufs ctx0) = 8%nat ->
  mpp_decoder_init ctx0 env = (ctx, 0) ->
  thread_state ctx = thread_state ctx0 /\
  v4l2_state ctx = v4l2_state ctx0 /\
  current_buf_idx ctx = 0 /\ mpp_initialized ctx = 1 /\
  length (decode_bufs ctx) = 8%nat /\
  (forall j, 0 <= j < 8 ->
     slot_at ctx j
     = {| pkt_buf := true; frm_buf := true;
          pkt_buf_size := size_t (int32 (width ctx0 * height ctx0));
          frm_buf_size :=
            size_t (u32 (u32 (ALIGN (width ctx0) 16)
                         * u32 (ALIGN (height ctx0) 16) * 4)) |}).
Proof.
  intros Hlen. unfold mpp_decoder_init.
  destruct (mpp_create_ok env); cbn [negb]; [|discriminate].
  destruct (mpp_init_ok env); cbn [negb]; [|discriminate].
  destruct (buffer_group_get_ok env); cbn [negb]; [|discriminate].
  match goal with
  | |- context [alloc_decode_bufs ?n ?i ?p ?f ?c env] =>
      destruct (alloc_decode_bufs_keeps env p f n i c) as (H1 & H2);
      destruct (alloc_decode_bufs n i p f c env) as [ctx1 r] eqn:E
  end.
  cbn [fst] in H1, H2.
  destruct r as [|r|r]; try discriminate.
  intros [= <-].
  apply alloc_decode_bufs_records in E;
    [| lia
     | change (decode_bufs (set_frm_grp (set_mpp_handles ctx0 true true) true))
         with (decode_bufs ctx0);
       rewrite Hlen; unfold MPP_BUFFER_COUNT; lia].
  destruct E as (Hl & _ & _ & _ & _ & Hrec).
  split; [exact H1|]. split; [exact H2|].
  split; [reflexivity|]. split; [reflexivity|].
  split; [rewrite <- Hlen; exact Hl|].
  intros j Hj. change (slot_at (set_mpp_ready ctx1 0 1) j) with (slot_at ctx1 j).
  rewrite Hrec by (unfold MPP_BUFFER_COUNT; lia). reflexivity.
Qed.

Lemma fresh_block_length g size : length (fresh_block g size) = Z.to_nat size.
Proof. unfold fresh_block. rewrite length_fmap, length_seqZ. reflexivity. Qed.

(** X19: A handle returned by [camera_init] was asked for with a device and
    positive width, height and rate.  Its context is not running, has no
    callback and zero counters; its descriptor is open and at least two
    buffers were granted; all eight decode slots have both buffers
    allocated; the frame exchange has its two buffers, each of
    [bgra_buffer_size] bytes, with write index 0. *)
Theorem camera_init_handle
    (device : option String.string) (w h rate : Z) (env : init_env)
    (ctx : camera_context_t) :
  camera_init device w h rate env = Some ctx ->
  device <> None /\ 0 < w /\ 0 < h /\ 0 < rate /\ fps ctx = rate /\
  running ctx = 0 /\ thread_started ctx = 0 /\
  frame_count ctx = 0 /\ decode_count ctx = 0 /\ callback ctx = None /\
  0 <= v4l2_fd ctx /\
  (exists n, reqbufs_result (v4l2 env) = Some n /\ 2 <= n /\
             buffer_count ctx = int32 n) /\
  current_buf_idx ctx = 0 /\ mpp_initialized ctx = 1 /\
  (forall j, 0 <= j < 8 ->
     pkt_buf (slot_at ctx j) = true /\ frm_buf (slot_at ctx j) = true) /\
  exchange_ok ctx /\ bgra_write_idx ctx = 0 /\
  bgra_buffer_size ctx = int32 (w * h * 4) /\
  (forall b, b ∈ bgra_buffer ctx ->
     length b = Z.to_nat (bgra_buffer_size ctx)).
Proof.
  unfold camera_init.
  destruct device as [dev|]; [|discriminate].
  destruct (Z.leb_spec w 0); [discriminate|].
  destruct (Z.leb_spec h 0); [discriminate|].
  destruct (Z.leb_spec rate 0); [discriminate|]. cbn [orb].
  destruct (calloc_ok env); cbn [negb]; [|discriminate].
  match goal with
  | |- context [v4l2_init ?c (v4l2 env)] =>
      destruct (v4l2_init c (v4l2 env)) as [ctxA r] eqn:EA
  end.
  destruct r as [|r|r]; try discriminate.
  destruct (v4l2_init_success _ _ _ EA)
    as (HtA & HdA & dw & dh & n & _ & Hreq & Hn & HvA & Hfd).
  destruct (mpp_decoder_init ctxA (mpp env)) as [ctxB r] eqn:EB.
  destruct r as [|r|r]; try discriminate.
  destruct (mpp_decoder_init_success _ _ _
              ltac:(rewrite HdA; reflexivity) EB)
    as (HtB & HvB & Hidx & Hinit & _ & Hslots).
  destruct (malloc0_ok env && malloc1_ok env); [|discriminate].
  intros [= <-].
  rewrite HtA in HtB. rewrite HvA in HvB.
  unfold thread_state in HtB. unfold v4l2_state in HvB.
  cbn [running thread_started frame_count decode_count callback user_data fps
       bgra_write_idx] in HtB.
  injection HtB as Hr Hts Hfc Hdc Hcb _ Hfps Hw.
  injection HvB as HfdB HcB _ _.
  split; [discriminate|]. repeat (split; [first [lia|assumption]|]).
  split; [change (0 <= v4l2_fd ctxB); rewrite HfdB; exact Hfd|].
  split; [exists n; repeat split; auto|].
  split; [exact Hidx|]. split; [exact Hinit|].
  split.
  { intros j Hj. change (slot_at (set_bgra ctxB _ _) j) with (slot_at ctxB j).
    rewrite Hslots by exact Hj. split; reflexivity. }
  split; [split; [left; exact Hw|reflexivity]|].
  split; [exact Hw|]. split; [reflexivity|].
  intros b Hb. cbn [bgra_buffer bgra_buffer_size set_bgra] in *.
  apply list_elem_of_In in Hb. cbn [In] in Hb.
  destruct Hb as [<- | [<- | []]]; apply fresh_block_length.
Qed.

Lemma camera_init_handle_witness :
  exists ctx,
    camera_init (Some sample_device) 4 2 30 (init_with (driver 4 2 4)) = Some ctx /\
    bgra_buffer_size ctx = 32 /\ buffer_count ctx = 4.
Proof.
  destruct (camera_init (Some sample_device) 4 2 30 (init_with (driver 4 2 4)))
    as [ctx|] eqn:E; [|vm_compute in E; discriminate E].
  exists ctx. split; [reflexivity|].
  destruct (camera_init_handle _ _ _ _ _ _ E)
    as (_ & _ & _ & _ & _ & _ & _ & _ & _ & _ & _ & (n & Hreq & _ & Hn)
        & _ & _ & _ & _ & _ & Hsz & _).
  split; [rewrite Hsz; vm_compute; reflexivity|].
  injection Hreq as <-. rewrite Hn. vm_compute. reflexivity.
Defined.

Lemma land_lnot_ones a k :
  0 <= k -> Z.land a (Z.lnot (Z.ones k)) = Z.shiftl (Z.shiftr a k) k.
Proof.
  intros Hk. apply Z.bits_inj'. intros n Hn.
  rewrite Z.land_spec, Z.lnot_spec by lia.
  destruct (Z.lt_ge_cases n k).
  - rewrite Z.ones_spec_low by lia. rewrite Z.shiftl_spec_low by lia.
    apply andb_false_r.
  - rewrite Z.ones_spec_high by lia. rewrite Z.shiftl_spec by lia.
    rewrite Z.shiftr_spec by lia. rewrite andb_true_r. f_equal. lia.
Qed.

Lemma ALIGN_pow2 x k :
  0 <= k -> ALIGN x (2 ^ k) = 2 ^ k * ((x + 2 ^ k - 1) / 2 ^ k).
Proof.
  intros Hk. unfold ALIGN.
  replace (2 ^ k - 1) with (Z.ones k) by (rewrite Z.ones_equiv; lia).
  rewrite land_lnot_ones by lia.
  rewrite Z.shiftl_mul_pow2, Z.shiftr_div_pow2 by lia. lia.
Qed.

(** X20: For a power of two [a = 2^k], [ALIGN x a] is the least multiple of
    [a] that is not below [x]: it is a multiple of [a], lies in
    [x, x + a), and every multiple of [a] from [x] on is at least it.
    This holds for negative [x] as well. *)
Theorem ALIGN_rounds_up (x k : Z) :
  0 <= k ->
  x <= ALIGN x (2 ^ k) < x + 2 ^ k /\
  ALIGN x (2 ^ k) mod 2 ^ k = 0 /\
  (forall m, x <= m -> m mod 2 ^ k = 0 -> ALIGN x (2 ^ k) <= m).
Proof.
  intros Hk. rewrite ALIGN_pow2 by lia.
  assert (Hp : 0 < 2 ^ k) by (apply Z.pow_pos_nonneg; lia).
  pose proof (Z.div_mod (x + 2 ^ k - 1) (2 ^ k)) as Hd.
  pose proof (Z.mod_pos_bound (x + 2 ^ k - 1) (2 ^ k) Hp) as Hm.
  split; [lia|]. split.
  - rewrite Z.mul_comm. apply Z.mod_mul. lia.
  - intros m Hxm Hmod.
    pose proof (Z.div_mod m (2 ^ k)) as Hdm. rewrite Hmod in Hdm.
    assert (Hq : (x + 2 ^ k - 1) / 2 ^ k < m / 2 ^ k + 1).
    { apply Z.div_lt_upper_bound; [lia|]. lia. }
    nia.
Qed.

Lemma ALIGN_rounds_up_witness :
  ALIGN 1080 16 = 1088 /\ 1080 <= ALIGN 1080 (2 ^ 4) < 1080 + 2 ^ 4.
Proof.
  split; [reflexivity|]. apply (ALIGN_rounds_up 1080 4). lia.
Defined.

End CameraInitFacts.

(** ** What no sequence of calls and worker iterations changes *)

Module CameraRunFacts.
Import Convert ConvertFacts Camera Worker WorkerFacts.

(** The part of the context that describes the devices: it is written by
    [camera_init] only. *)
Definition device_state (ctx : camera_context_t) :=
  (v4l2_fd ctx, v4l2_buffers ctx, buffer_count ctx, width ctx, height ctx,
   fps ctx, decode_bufs ctx, mpp_initialized ctx, bgra_buffer_size ctx).

(** The sizes of the buffers of the frame exchange. *)
Definition buffer_sizes (ctx : camera_context_t) : list nat :=
  length <$> bgra_buffer ctx.

Definition camera_inv (ctx : camera_context_t) : Prop :=
  exchange_ok ctx /\ 0 <= current_buf_idx ctx < 8 /\
  (running ctx = 0 \/ running ctx = 1) /\ thread_started ctx = running ctx.

Definition shape_kept (ctx ctx' : camera_context_t) : Prop :=
  camera_inv ctx' /\ device_state ctx' = device_state ctx /\
  buffer_sizes ctx' = buffer_sizes ctx.

Lemma shape_kept_refl ctx : camera_inv ctx -> shape_kept ctx ctx.
Proof. intros H. split; [exact H|]. split; reflexivity. Qed.

Lemma cpu_conversion_length yuv dst w h hs vs fmt :
  length (yuv_to_bgra_cpu yuv dst w h hs vs fmt) = length dst.
Proof.
  unfold yuv_to_bgra_cpu, nv12_to_bgra_scalar, nv16_to_bgra.
  destruct fmt; rewrite ?nv12_rows_gen, ?nv16_rows_gen; apply rows_gen_length.
Qed.

Lemma publish_sizes ctx yuv f :
  buffer_sizes (publish ctx yuv f) = buffer_sizes ctx.
Proof.
  unfold buffer_sizes, publish.
  cbn [bgra_buffer set_decode_count set_bgra_write_idx set_bgra_buffer].
  rewrite list_fmap_insert, cpu_conversion_length.
  destruct (bgra_buffer ctx !! Z.to_nat (bgra_write_idx ctx)) as [b|] eqn:E.
  - apply list_insert_id. rewrite list_lookup_fmap, E. reflexivity.
  - apply list_insert_ge. rewrite length_fmap.
    apply lookup_ge_None_1. exact E.
Qed.

Lemma advanced_inv ctx : camera_inv ctx -> camera_inv (advanced ctx).
Proof.
  intros (Hex & Hidx & Hrun & Hts).
  split; [exact Hex|]. split; [|split; [exact Hrun|exact Hts]].
  unfold advanced. cbn [current_buf_idx set_current_buf_idx].
  rewrite rem8 by lia. apply Z.mod_pos_bound. lia.
Qed.

Lemma publish_inv ctx yuv f : camera_inv ctx -> camera_inv (publish ctx yuv f).
Proof.
  intros (Hex & Hidx & Hrun & Hts).
  split; [apply publish_exchange; exact Hex|].
  split; [exact Hidx|]. split; [exact Hrun|exact Hts].
Qed.

Lemma iteration_shape ctx env :
  camera_inv ctx -> shape_kept ctx (fst (fst (capture_iteration ctx env))).
Proof.
  intros Hinv. unfold capture_iteration.
  destruct (running ctx =? 0); [apply shape_kept_refl; exact Hinv|].
  destruct (select_r env) as [e| |]; try (apply shape_kept_refl; exact Hinv).
  destruct (dqbuf_r env) as [e|index n]; [apply shape_kept_refl; exact Hinv|].
  rewrite decode_and_notify_normal_form.
  set (c1 := set_frame_count ctx (int32 (frame_count ctx + 1))).
  assert (H1 : camera_inv c1) by exact Hinv.
  destruct (0 <? n); [|cbn [fst]; split; [exact H1|split; reflexivity]].
  destruct (decode_passes c1 (dec env) n) as [[yuv f]|]; cbn [fst].
  - split; [apply publish_inv, advanced_inv, H1|].
    split; [reflexivity|]. apply (publish_sizes (advanced c1)).
  - split; [apply advanced_inv, H1|]. split; reflexivity.
Qed.

Lemma start_shape ctx cb ud env :
  camera_inv ctx ->
  shape_kept ctx (default ctx (fst (fst (camera_start (Some ctx) cb ud env)))).
Proof.
  intros Hinv. unfold camera_start.
  destruct (running ctx =? 0); cbn [negb];
    [|apply shape_kept_refl; exact Hinv].
  destruct Hinv as (Hex & Hidx & _ & _).
  destruct (v4l2_start_streaming _ env) as [r eff].
  destruct r as [|r|r];
    [destruct (create_realtime_ok env); [|destruct (create_default_ok env)]| |];
    cbn [fst default];
    (split; [split; [exact Hex|]; split; [exact Hidx|];
             split; [first [left; reflexivity|right; reflexivity]|reflexivity]
            |split; reflexivity]).
Qed.

Lemma stop_shape ctx :
  camera_inv ctx ->
  shape_kept ctx (default ctx (fst (fst (camera_stop (Some ctx))))).
Proof.
  intros Hinv. unfold camera_stop.
  destruct (running ctx =? 0); [apply shape_kept_refl; exact Hinv|].
  destruct Hinv as (Hex & Hidx & _ & _).
  change (thread_started (set_running ctx 0)) with (thread_started ctx).
  destruct (Z.eqb_spec (thread_started ctx) 0) as [E|E]; cbn [negb fst default];
    (split; [split; [exact Hex|]; split; [exact Hidx|]; split;
             [left; reflexivity|]|split; reflexivity]).
  - exact E.
  - reflexivity.
Qed.

Lemma event_shape e ctx :
  camera_inv ctx -> shape_kept ctx (run_event e ctx).
Proof.
  destruct e as [cb ud env| |env]; cbn [run_event].
  - apply start_shape.
  - apply stop_shape.
  - apply iteration_shape.
Qed.

(** X21: From a context whose frame exchange is well formed, whose slot index
    is one of the eight slots and whose worker flag agrees with its
    running flag, every sequence of [camera_start], [camera_stop] and
    worker iterations, whatever the devices answer, leads to such a
    context again.  The descriptor, the mapped buffers, the geometry, the
    decode slots and the recorded buffer size are never changed, and the
    two exchange buffers keep their sizes. *)
Theorem camera_events_keep_shape
    (es : list camera_event) (ctx : camera_context_t) :
  camera_inv ctx ->
  camera_inv (run_events es ctx) /\
  device_state (run_events es ctx) = device_state ctx /\
  buffer_sizes (run_events es ctx) = buffer_sizes ctx.
Proof.
  revert ctx. unfold run_events.
  induction es as [|e rest IH]; intros ctx Hinv; cbn [foldl].
  - apply shape_kept_refl. exact Hinv.
  - destruct (event_shape e ctx Hinv) as (H1 & H2 & H3).
    destruct (IH _ H1) as (H4 & H5 & H6).
    split; [exact H4|]. split; congruence.
Qed.

Lemma camera_events_keep_shape_witness :
  let ctx := default zeroed_context
               (camera_init (Some sample_device) 4 2 30
                  (init_with (driver 4 2 4))) in
  buffer_sizes
    (run_events [Ev_start (Some 7%nat) 0 start_ok; Ev_iteration iteration_grey;
                 Ev_iteration iteration_decode_fails; Ev_stop] ctx)
  = [32%nat; 32%nat].
Proof.
  intros ctx.
  destruct (camera_events_keep_shape
              [Ev_start (Some 7%nat) 0 start_ok; Ev_iteration iteration_grey;
               Ev_iteration iteration_decode_fails; Ev_stop] ctx)
    as (_ & _ & H).
  - vm_compute. repeat split; auto; discriminate.
  - rewrite H. vm_compute. reflexivity.
Defined.

End CameraRunFacts.

(** ** The player: samples of the detection branch and teardown *)

Module PlayerMore.
Import Player.

(** Outcomes of the framework calls of [on_new_sample]:
    [gst_app_sink_pull_sample], [gst_sample_get_buffer] and
    [gst_buffer_map]. *)
Record sample_env : Type := {
  pull_sample_ok : bool;
  get_buffer_ok : bool;
  buffer_map_ok : bool
}.

(** What [on_new_sample] does; a pull and a map carry their outcome. *)
Inductive sample_effect : Type :=
  | Pull_sample (ok : bool)
  | Buffer_map (ok : bool)
  | User_callback (cb : nat) (user_data : Z) (w h stride : Z)
  | Buffer_unmap
  | Sample_unref.

(** [on_new_sample]; it returns [GST_FLOW_OK] on every path. *)
Definition on_new_sample (user_data : option gst_player_context_t)
    (env : sample_env) : list sample_effect :=
  match user_data with
  | None => []
  | Some ctx =>
      if negb (running ctx) then [] else
      if negb (pull_sample_ok env) then [Pull_sample false] else
      if negb (get_buffer_ok env) then [Pull_sample true; Sample_unref] else
      [Pull_sample true]
      ++ (if buffer_map_ok env then
            [Buffer_map true]
            ++ match frame_callback ctx with
               | Some cb =>
                   [User_callback cb (callback_user_data ctx)
                      (face_detect_width ctx) (face_detect_height ctx)
                      (Camera.int32 (face_detect_width ctx * 4))]
               | None => []
               end
            ++ [Buffer_unmap]
          else [Buffer_map false])
      ++ [Sample_unref]
  end.

Definition count_sample (f : sample_effect -> bool) (eff : list sample_effect)
    : nat :=
  length (filter (fun e => f e = true) eff).

Definition is_pulled (e : sample_effect) : bool :=
  match e with Pull_sample true => true | _ => false end.
Definition is_mapped (e : sample_effect) : bool :=
  match e with Buffer_map true => true | _ => false end.
Definition is_unmap (e : sample_effect) : bool :=
  match e with Buffer_unmap => true | _ => false end.
Definition is_unref (e : sample_effect) : bool :=
  match e with Sample_unref => true | _ => false end.

(** The objects a context holds a reference to. *)
Inductive player_object : Type :=
  | Obj_overlay
  | Obj_app_sink
  | Obj_video_sink
  | Obj_bus
  | Obj_pipeline.

Inductive teardown_effect : Type :=
  | Graph (e : gst_effect)
  | Unref (o : player_object)
  | Mutex_destroy
  | Free_context.

(** [gst_player_destroy]. *)
Definition gst_player_destroy (handle : option gst_player_context_t)
    : list teardown_effect :=
  match handle with
  | None => []
  | Some ctx =>
      let '(h, _, eff) := gst_player_stop (Some ctx) in
      let ctx := default ctx h in
      (Graph <$> eff)
      ++ (if overlay ctx then [Unref Obj_overlay] else [])
      ++ (if app_sink ctx then [Unref Obj_app_sink] else [])
      ++ (if video_sink ctx then [Unref Obj_video_sink] else [])
      ++ (if bus ctx then [Unref Obj_bus] else [])
      ++ (if pipeline ctx then [Graph Set_state_null; Unref Obj_pipeline]
          else [])
      ++ [Mutex_destroy; Free_context]
  end.

(** The references dropped by a teardown, in order. *)
Definition unrefs (eff : list teardown_effect) : list player_object :=
  omap (fun e => match e with Unref o => Some o | _ => None end) eff.

(** The changes of state asked of the media graph by a teardown. *)
Definition graph_calls (eff : list teardown_effect) : list gst_effect :=
  omap (fun e => match e with Graph g => Some g | _ => None end) eff.

(** A context that is playing with callback 5 registered. *)
Definition playing_ctx : gst_player_context_t :=
  set_play_state (set_callback sample_ctx (Some 5%nat) 9) true true 0 1000.

Definition sample_ok : sample_env :=
  {| pull_sample_ok := true; get_buffer_ok := true; buffer_map_ok := true |}.

End PlayerMore.

Module PlayerMoreFacts.
Import Player PlayerMore.

(** The part of a context that is written by [gst_player_create] only. *)
Definition fixed_part (ctx : gst_player_context_t) :=
  (pipeline ctx, video_sink ctx, app_sink ctx, overlay ctx, bus ctx,
   device ctx, width ctx, height ctx, fps ctx, format ctx,
   use_hardware_decode ctx, face_detect_width ctx, face_detect_height ctx).

Definition player_inv (ctx : gst_player_context_t) : Prop :=
  running ctx = playing ctx /\ frame_count ctx = 0.

Definition source_positive (ctx : gst_player_context_t) : Prop :=
  0 < face_detect_width ctx /\ 0 < face_detect_height ctx /\
  0 < face_source_width ctx /\ 0 < face_source_height ctx.

Ltac kept :=
  eexists; (split; [reflexivity|]); (split; [reflexivity|]);
  split; intros H; exact H.

Lemma run_call_keeps c ctx :
  exists ctx',
    run_call c (Some ctx) = Some ctx' /\
    fixed_part ctx' = fixed_part ctx /\
    (player_inv ctx -> player_inv ctx') /\
    (source_positive ctx -> source_positive ctx').
Proof.
  destruct c as [id|cb ud|now ok| |bs n sw sh| |caps|]; cbn [run_call].
  - unfold gst_player_set_window.
    destruct (video_sink ctx); cbn [negb fst]; kept.
  - cbn [gst_player_set_frame_callback fst]. kept.
  - unfold gst_player_start.
    destruct (pipeline ctx); cbn [negb]; [|kept].
    destruct (playing ctx) eqn:Hp; [kept|].
    destruct ok; cbn [negb fst]; eexists; (split; [reflexivity|]);
      (split; [reflexivity|]); (split; [intros _; split; reflexivity|]);
      intros H; exact H.
  - unfold gst_player_stop.
    destruct (playing ctx) eqn:Hp; cbn [negb fst]; [|kept].
    eexists; (split; [reflexivity|]); (split; [reflexivity|]).
    split; [intros [_ H]; split; [reflexivity|exact H]|]. intros H; exact H.
  - unfold gst_player_set_face_boxes.
    destruct bs as [bs|]; [destruct (0 <? n)|]; cbn [fst]; try kept.
    eexists; (split; [reflexivity|]); (split; [reflexivity|]);
      (split; [intros H; exact H|]).
    intros (H1 & H2 & H3 & H4). unfold source_positive.
    cbn [face_detect_width face_detect_height face_source_width
         face_source_height set_face_store].
    repeat split; try assumption.
    + destruct (Z.ltb_spec 0 sw); lia.
    + destruct (Z.ltb_spec 0 sh); lia.
  - cbn [gst_player_clear_face_boxes]. kept.
  - unfold on_caps_changed. destruct caps as [[[w h]|]|]; kept.
  - kept.
Qed.

Lemma run_calls_keeps cs : forall ctx,
  exists ctx',
    run_calls cs (Some ctx) = Some ctx' /\
    fixed_part ctx' = fixed_part ctx /\
    (player_inv ctx -> player_inv ctx') /\
    (source_positive ctx -> source_positive ctx').
Proof.
  unfold run_calls. induction cs as [|c rest IH]; intros ctx; cbn [foldl].
  - exists ctx. split; [reflexivity|]. split; [reflexivity|].
    split; intros H; exact H.
  - destruct (run_call_keeps c ctx) as (c1 & E1 & F1 & I1 & S1).
    rewrite E1. destruct (IH c1) as (c2 & E2 & F2 & I2 & S2).
    exists c2. split; [exact E2|]. split; [congruence|]. split; auto.
Qed.

Lemma create_inv g cfg env g' ctx :
  gst_player_create g cfg env = (g', Some ctx) ->
  exists config dev,
    cfg = Some config /\ cfg_device config = Some dev /\
    g' = true /\ (g = true \/ gst_init_check_ok env = true) /\
    calloc_ok env = true /\ malloc_ok env = true /\
    cfg_format config <> GST_PLAYER_FORMAT_NV12 /\
    parse_launch_ok env = true /\
    fixed_part ctx
    = (true, has_videosink env, has_facesink env, has_overlay env, true,
       copy_device dev, cfg_width config, cfg_height config, cfg_fps config,
       cfg_format config, cfg_use_hardware_decode config,
       (if 0 <? cfg_face_detect_width config
        then cfg_face_detect_width config else cfg_width config),
       (if 0 <? cfg_face_detect_height config
        then cfg_face_detect_height config else cfg_height config)) /\
    face_source_width ctx = face_detect_width ctx /\
    face_source_height ctx = face_detect_height ctx /\
    player_inv ctx /\ playing ctx = false /\ face_box_count ctx = 0 /\
    frame_callback ctx = None.
Proof.
  unfold gst_player_create.
  destruct cfg as [config|]; [|discriminate].
  destruct (cfg_device config) as [dev|] eqn:Hdev; [|discriminate].
  unfold gst_player_global_init, build_pipeline_string_ok.
  destruct g; [|destruct (gst_init_check_ok env) eqn:Hg]; cbn [negb];
    try discriminate;
    (destruct (calloc_ok env); cbn [negb]; [|discriminate]);
    (destruct (malloc_ok env); cbn [negb andb]; [|discriminate]);
    (destruct (cfg_format config) eqn:Hf; cbn [negb]; try discriminate);
    (destruct (parse_launch_ok env); cbn [negb]; [|discriminate]);
    intros [= <- <-]; exists config, dev; rewrite ?Hf;
    repeat split; auto; discriminate.
Qed.

(** X22: After any sequence of calls and signals, a created player is still
    there, the fields set at creation are unchanged, its two state flags
    agree, and its frame counter, which only [gst_player_start] writes,
    is 0. *)
Theorem created_player_stays_consistent
    (g g' : bool) (cfg : option gst_player_config_t) (env : create_env)
    (ctx0 : gst_player_context_t) (cs : list player_call) :
  gst_player_create g cfg env = (g', Some ctx0) ->
  exists ctx,
    run_calls cs (Some ctx0) = Some ctx /\
    fixed_part ctx = fixed_part ctx0 /\
    pipeline ctx = true /\ bus ctx = true /\
    running ctx = playing ctx /\ frame_count ctx = 0.
Proof.
  intros Hc.
  destruct (create_inv _ _ _ _ _ Hc)
    as (config & dev & _ & _ & _ & _ & _ & _ & _ & _ & Hfix & _ & _ & Hinv & _).
  destruct (run_calls_keeps cs ctx0) as (ctx & E & F & I & _).
  exists ctx. split; [exact E|]. split; [exact F|].
  rewrite Hfix in F. injection F as Hp _ _ _ Hb _.
  destruct (I Hinv) as [Hr Hf]. auto.
Qed.

Lemma created_player_stays_consistent_witness :
  exists ctx,
    run_calls [Call_start 1000 true; Call_set_face_boxes (Some [sample_box]) 1 0 0;
               Call_stop; Call_start 2000 false]
      (Some sample_ctx) = Some ctx /\
    running ctx = playing ctx /\ frame_count ctx = 0.
Proof.
  destruct (created_player_stays_consistent false true (Some sample_config)
              all_ok sample_ctx
              [Call_start 1000 true;
               Call_set_face_boxes (Some [sample_box]) 1 0 0;
               Call_stop; Call_start 2000 false])
    as (ctx & E & _ & _ & _ & Hr & Hf); [reflexivity|].
  exists ctx. auto.
Defined.

(** X23: When the configured width and height are positive, the source
    dimensions by which [on_cairo_draw] divides are positive after any
    sequence of calls and signals, whatever dimensions the detection
    updates carried. *)
Theorem overlay_source_size_positive
    (g g' : bool) (config : gst_player_config_t) (env : create_env)
    (ctx0 : gst_player_context_t) (cs : list player_call) :
  gst_player_create g (Some config) env = (g', Some ctx0) ->
  0 < cfg_width config -> 0 < cfg_height config ->
  exists ctx,
    run_calls cs (Some ctx0) = Some ctx /\
    0 < face_source_width ctx /\ 0 < face_source_height ctx.
Proof.
  intros Hc Hw Hh.
  destruct (create_inv _ _ _ _ _ Hc)
    as (config' & dev & [= <-] & _ & _ & _ & _ & _ & _ & _ & Hfix & Hsw & Hsh & _).
  injection Hfix as _ _ _ _ _ _ _ _ _ _ _ Hfw Hfh.
  assert (Hpos : source_positive ctx0).
  { unfold source_positive. rewrite Hsw, Hsh, Hfw, Hfh.
    destruct (Z.ltb_spec 0 (cfg_face_detect_width config));
      destruct (Z.ltb_spec 0 (cfg_face_detect_height config)); lia. }
  destruct (run_calls_keeps cs ctx0) as (ctx & E & _ & _ & S).
  exists ctx. split; [exact E|]. destruct (S Hpos) as (_ & _ & H3 & H4). auto.
Qed.

Lemma overlay_source_size_positive_witness :
  exists ctx,
    run_calls [Call_set_face_boxes (Some [sample_box]) 1 (-5) 0;
               Call_clear_face_boxes] (Some sample_ctx) = Some ctx /\
    0 < face_source_width ctx /\ 0 < face_source_height ctx.
Proof.
  apply (overlay_source_size_positive false true sample_config all_ok).
  - reflexivity.
  - reflexivity.
  - reflexivity.
Defined.

(** X24: [on_new_sample] hands a frame to the caller only while the player is
    playing, when the sample, its buffer and the mapping were all
    obtained, and only to the registered callback; it passes the
    detection size fixed at creation and a stride of four bytes per
    pixel. *)
Theorem frame_callback_only_while_playing
    (g g' : bool) (cfg : option gst_player_config_t) (env : create_env)
    (ctx0 : gst_player_context_t) (cs : list player_call) (senv : sample_env)
    (cb : nat) (ud w h stride : Z) :
  gst_player_create g cfg env = (g', Some ctx0) ->
  User_callback cb ud w h stride ∈ on_new_sample (run_calls cs (Some ctx0)) senv ->
  gst_player_is_playing (run_calls cs (Some ctx0)) = true /\
  pull_sample_ok senv = true /\ get_buffer_ok senv = true /\
  buffer_map_ok senv = true /\
  w = face_detect_width ctx0 /\ h = face_detect_height ctx0 /\
  stride = Camera.int32 (w * 4) /\
  exists ctx,
    run_calls cs (Some ctx0) = Some ctx /\
    frame_callback ctx = Some cb /\ ud = callback_user_data ctx.
Proof.
  intros Hc.
  destruct (create_inv _ _ _ _ _ Hc)
    as (config & dev & _ & _ & _ & _ & _ & _ & _ & _ & _ & _ & _ & Hinv & _).
  destruct (run_calls_keeps cs ctx0) as (ctx & E & F & I & _).
  rewrite E. destruct (I Hinv) as [Hr _].
  injection F as _ _ _ _ _ _ _ _ _ _ _ Hfw Hfh.
  unfold on_new_sample. cbn [gst_player_is_playing]. rewrite <- Hr.
  destruct (running ctx); cbn [negb]; [|intros H; inversion H].
  destruct (pull_sample_ok senv); cbn [negb];
    [|intros H; apply list_elem_of_In in H; cbn [In] in H;
      destruct H as [H|[]]; discriminate H].
  destruct (get_buffer_ok senv); cbn [negb];
    [|intros H; apply list_elem_of_In in H; cbn [In] in H;
      destruct H as [H|[H|[]]]; discriminate H].
  destruct (buffer_map_ok senv);
    [|intros H; apply list_elem_of_In in H; cbn [In app] in H;
      destruct H as [H|[H|[H|[]]]]; discriminate H].
  destruct (frame_callback ctx) as [cb0|] eqn:Hcb;
    intros H; apply list_elem_of_In in H; cbn [In app] in H;
    [destruct H as [H|[H|[H|[H|[H|[]]]]]]
    |destruct H as [H|[H|[H|[H|[]]]]]]; try discriminate H.
  injection H as <- <- <- <- <-.
  repeat split; try assumption; try reflexivity.
  exists ctx. split; [reflexivity|]. split; [exact Hcb|reflexivity].
Qed.

Lemma frame_callback_only_while_playing_witness :
  gst_player_is_playing
    (run_calls [Call_set_frame_callback (Some 5%nat) 9; Call_start 1000 true]
       (Some sample_ctx)) = true.
Proof.
  refine (proj1 (frame_callback_only_while_playing false true
                   (Some sample_config) all_ok sample_ctx
                   [Call_set_frame_callback (Some 5%nat) 9; Call_start 1000 true]
                   sample_ok 5%nat 9 320 240 1280 _ _)).
  - reflexivity.
  - vm_compute. apply list_elem_of_In. cbn [In]. auto.
Defined.

(** X25: On every path of [on_new_sample], for any context and any outcome of
    the framework calls, a sample that was pulled is released exactly
    once and a buffer that was mapped is unmapped exactly once; nothing
    is pulled at all for a NULL context or a player that is not
    running. *)
Theorem sample_always_released
    (user_data : option gst_player_context_t) (senv : sample_env) :
  let eff := on_new_sample user_data senv in
  count_sample is_unref eff = count_sample is_pulled eff /\
  count_sample is_unmap eff = count_sample is_mapped eff /\
  (count_sample is_pulled eff <= 1)%nat /\
  (match user_data with
   | Some ctx => running ctx = false
   | None => True
   end -> eff = []).
Proof.
  cbv zeta. unfold on_new_sample.
  destruct user_data as [ctx|]; [|repeat split; auto].
  destruct (running ctx); cbn [negb]; [|repeat split; auto].
  destruct (pull_sample_ok senv); cbn [negb];
    [|repeat split; auto; discriminate].
  destruct (get_buffer_ok senv); cbn [negb];
    [|repeat split; auto; discriminate].
  destruct (buffer_map_ok senv);
    [destruct (frame_callback ctx)|]; repeat split; auto; discriminate.
Qed.




(** X27: [gst_player_destroy] of a created player, after whatever calls were
    made on it, drops each reference obtained at creation exactly once,
    the pipeline last; it sets the pipeline to the NULL state, a second
    time if the player was still playing; and its last act is to free the
    context.  For a NULL handle it does nothing. *)
Theorem destroy_releases_created
    (g g' : bool) (cfg : option gst_player_config_t) (env : create_env)
    (ctx0 : gst_player_context_t) (cs : list player_call) :
  gst_player_create g cfg env = (g', Some ctx0) ->
  let h := run_calls cs (Some ctx0) in
  unrefs (gst_player_destroy h)
  = (if has_overlay env then [Obj_overlay] else [])
    ++ (if has_facesink env then [Obj_app_sink] else [])
    ++ (if has_videosink env then [Obj_video_sink] else [])
    ++ [Obj_bus; Obj_pipeline] /\
  graph_calls (gst_player_destroy h)
  = (if gst_player_is_playing h then [Set_state_null] else [])
    ++ [Set_state_null] /\
  list.last (gst_player_destroy h) = Some Free_context /\
  gst_player_destroy None = [].
Proof.
  intros Hc. cbv zeta.
  destruct (create_inv _ _ _ _ _ Hc)
    as (config & dev & _ & _ & _ & _ & _ & _ & _ & _ & Hfix & _).
  destruct (run_calls_keeps cs ctx0) as (ctx & E & F & _ & _).
  rewrite E. rewrite Hfix in F.
  injection F as Hp Hv Ha Ho Hb _.
  unfold gst_player_destroy, gst_player_stop. cbn [gst_player_is_playing].
  destruct (playing ctx);
    cbn [negb default from_option id pipeline video_sink app_sink overlay bus
         set_play_state];
    rewrite Hp, Hv, Ha, Ho, Hb;
    destruct (has_overlay env); destruct (has_facesink env);
    destruct (has_videosink env); repeat split; reflexivity.
Qed.

Lemma destroy_releases_created_witness :
  unrefs (gst_player_destroy (run_calls [Call_start 1000 true] (Some sample_ctx)))
  = [Obj_overlay; Obj_app_sink; Obj_video_sink; Obj_bus; Obj_pipeline].
Proof.
  refine (proj1 (destroy_releases_created false true (Some sample_config)
                   all_ok sample_ctx [Call_start 1000 true] _)).
  reflexivity.
Defined.

(** X28: [gst_player_create] returns a handle only for a configuration with a
    device and a format other than NV12, and only when the framework is
    initialised, which the global flag then records.  The new player is
    not playing: it draws nothing and takes no sample.  Once the flag is
    set no call of [gst_player_create] clears it. *)
Theorem create_result
    (g : bool) (cfg : option gst_player_config_t) (env : create_env)
    (senv : sample_env) :
  (forall ctx, snd (gst_player_create g cfg env) = Some ctx ->
     fst (gst_player_create g cfg env) = true /\
     (exists config dev,
        cfg = Some config /\ cfg_device config = Some dev /\
        cfg_format config <> GST_PLAYER_FORMAT_NV12) /\
     gst_player_is_playing (Some ctx) = false /\
     on_cairo_draw (Some ctx) = [] /\
     on_new_sample (Some ctx) senv = []) /\
  (g = true -> fst (gst_player_create g cfg env) = true).
Proof.
  split.
  - intros ctx Hs.
    destruct (gst_player_create g cfg env) as [g' h] eqn:Hc.
    cbn [snd] in Hs. subst h. cbn [fst].
    destruct (create_inv _ _ _ _ _ Hc)
      as (config & dev & Hcfg & Hdev & Hg & _ & _ & _ & Hfmt & _ & _ & _ & _
          & [Hr _] & Hp & Hn & _).
    split; [exact Hg|]. split; [exists config, dev; auto|].
    split; [exact Hp|].
    unfold on_cairo_draw, on_new_sample. rewrite Hn, Hr, Hp. auto.
  - intros ->. unfold gst_player_create.
    destruct cfg as [config|]; [|reflexivity].
    destruct (cfg_device config); [|reflexivity].
    cbn [gst_player_global_init].
    destruct (negb (calloc_ok env)); [reflexivity|].
    destruct (negb (build_pipeline_string_ok config env)); [reflexivity|].
    destruct (negb (parse_launch_ok env)); reflexivity.
Qed.

End PlayerMoreFacts.
